(** * Internal graphics viewer (ui/viewgfx.cpp): a shallow embedding

    The development follows the source file function by function.  C++ [int]
    values are integers of [Z]; conversions to the unsigned types of the state
    ([uint8_t], [uint32_t]) and back to [int] are written out with [u8], [u32]
    and [s32].  Signed arithmetic is exact while it stays inside the range of
    [int]; the theorems below only use it there. *)

From Stdlib Require Import ZArith Lia Bool Ascii String.
From stdpp Require Import base numbers option list gmap strings.

Local Open Scope Z_scope.

(** ** Machine integers *)

Definition u8 (z : Z) : Z := z mod 256.
Definition u32 (z : Z) : Z := z mod 2 ^ 32.
Definition s32 (z : Z) : Z := (z + 2 ^ 31) mod 2 ^ 32 - 2 ^ 31.

(** ** Orientation codes

    Modelled from the spec: the rotation code is "composed of three
    independent bits (swap-axes, flip-horizontal, flip-vertical)".  The masks
    themselves are declared by the engine, not by viewgfx.cpp; the values
    below are the three low bits.  Every statement about the coordinate
    transform only depends on the three tests [rotate & MASK]. *)

Definition ORIENTATION_FLIP_X : Z := 1.
Definition ORIENTATION_FLIP_Y : Z := 2.
Definition ORIENTATION_SWAP_XY : Z := 4.

(** [rotate & MASK] used as a C++ condition. *)
Definition flag (rotate mask : Z) : bool := negb (Z.land rotate mask =? 0).

(** ** The per-cell coordinate transform

    [gfxset_draw_item], inner loop body: the effective source coordinate
    [(effx, effy)] of the cell-local pixel [(x, y)], for a graphics element
    of source size [gw] x [gh]. *)

Definition gfxset_draw_item_eff (gw gh rotate x y : Z) : Z * Z :=
  let effx := x in
  let effy := y in
  if negb (flag rotate ORIENTATION_SWAP_XY) then
    let effx := if flag rotate ORIENTATION_FLIP_X then gw - 1 - effx else effx in
    let effy := if flag rotate ORIENTATION_FLIP_Y then gh - 1 - effy else effy in
    (effx, effy)
  else
    let effx := if flag rotate ORIENTATION_FLIP_X then gh - 1 - effx else effx in
    let effy := if flag rotate ORIENTATION_FLIP_Y then gw - 1 - effy else effy in
    (* std::swap(effx, effy) *)
    (effy, effx).

(** [gfxset_draw_save_item], inner loop body: the same computation, with the
    swap spelled through a temporary. *)

Definition gfxset_draw_save_item_eff (gw gh rotate x y : Z) : Z * Z :=
  let effx := x in
  let effy := y in
  if negb (flag rotate ORIENTATION_SWAP_XY) then
    let effx := if flag rotate ORIENTATION_FLIP_X then gw - 1 - effx else effx in
    let effy := if flag rotate ORIENTATION_FLIP_Y then gh - 1 - effy else effy in
    (effx, effy)
  else
    let effx := if flag rotate ORIENTATION_FLIP_X then gh - 1 - effx else effx in
    let effy := if flag rotate ORIENTATION_FLIP_Y then gw - 1 - effy else effy in
    let temp := effx in
    let effx := effy in
    let effy := temp in
    (effx, effy).

(** Width and height of a cell as both rasterizers compute them. *)

Definition cell_width (gw gh rotate : Z) : Z :=
  if flag rotate ORIENTATION_SWAP_XY then gh else gw.
Definition cell_height (gw gh rotate : Z) : Z :=
  if flag rotate ORIENTATION_SWAP_XY then gw else gh.

(** The hover code of [gfxset_handler] (pixel under the pointer): flips against
    [cellxpix - 2] and [cellypix - 2], where [cellxpix = 1 + cell_width], then
    swaps. *)

Definition gfxset_handler_hover_eff (gw gh rotate xpixel ypixel : Z) : Z * Z :=
  let cellxpix := 1 + cell_width gw gh rotate in
  let cellypix := 1 + cell_height gw gh rotate in
  let xpixel := if flag rotate ORIENTATION_FLIP_X then (cellxpix - 2) - xpixel else xpixel in
  let ypixel := if flag rotate ORIENTATION_FLIP_Y then (cellypix - 2) - ypixel else ypixel in
  if flag rotate ORIENTATION_SWAP_XY then (ypixel, xpixel) else (xpixel, ypixel).

(** Used to state the round trip that does hold: the orientation that undoes
    [rotate].  With swap-axes set the two flip bits change places. *)


(** The codes (and sizes) on which the transform undoes itself. *)


(** ** The host engine, as the viewer sees it *)

(** A palette device ([device_palette_interface]): entry counts, the raw
    colour table and the indirect colours. *)
Record palette_device := {
  pal_entries : Z;
  pal_indirect_entries : Z;
  pal_entry_list_raw : list Z;
  pal_indirect_color : list Z
}.

(** A decoded graphics set ([gfx_element]).  [gfx_palette] is the embedded
    palette; [None] is the null pointer ([has_palette()] is false). *)
Record gfx_element := {
  gfx_width : Z;
  gfx_height : Z;
  gfx_elements : Z;
  gfx_rowbytes : Z;
  gfx_colors : Z;
  gfx_granularity : Z;
  gfx_colorbase : Z;
  gfx_palette : option palette_device;
  gfx_get_data : Z -> list Z
}.

Definition has_palette (gfx : gfx_element) : bool :=
  match gfx_palette gfx with Some _ => true | None => false end.

(** A graphics decoder device ([device_gfx_interface]); [gfx n] is the n-th
    slot, [None] for a null slot. *)
Record device_gfx_interface := {
  gfxi_slots : list (option gfx_element)
}.

Definition gfx (interface : device_gfx_interface) (n : Z) : option gfx_element :=
  if n <? 0 then None else mjoin (gfxi_slots interface !! Z.to_nat n).

(** Pixel storage of a bitmap: the pixels written so far, by (x, y). *)
Record bitmap := {
  bm_valid : bool;
  bm_width : Z;
  bm_height : Z;
  bm_pix : gmap (Z * Z) Z
}.

Record tilemap_t := {
  tmap_width : Z;
  tmap_height : Z;
  tmap_pixmap : bitmap;
  tmap_palette : palette_device
}.

(** A mounted-image device: [brief_instance_name()] and [basename()], the
    latter null when nothing is mounted. *)
Record device_image_interface := {
  brief_instance_name : string;
  image_basename : option string
}.

Record running_machine := {
  palette_interfaces : list palette_device;
  gfx_interfaces : list device_gfx_interface;
  tilemaps : list tilemap_t;
  (* screen_device_enumerator(...).first() is not null *)
  first_screen : bool;
  (* machine.options().snap_name(), machine.basename() and the image devices *)
  snap_name : option string;
  machine_basename : string;
  image_interfaces : list device_image_interface
}.

(** [palette_interface_enumerator::byindex]. *)
Definition byindex (machine : running_machine) (index : Z) : option palette_device :=
  if index <? 0 then None else palette_interfaces machine !! Z.to_nat index.

(** [machine.tilemap().find]. *)
Definition tilemap_find (machine : running_machine) (index : Z) : option tilemap_t :=
  if index <? 0 then None else tilemaps machine !! Z.to_nat index.

Definition tilemap_count (machine : running_machine) : Z :=
  Z.of_nat (length (tilemaps machine)).

(** The keys of one frame: [pressed] and [pressed_repeat] of the UI input
    and [code_pressed] of the two modifier keys. *)
Record ui_input := {
  IPT_UI_ZOOM_OUT : bool;
  IPT_UI_ZOOM_IN : bool;
  IPT_UI_PREV_GROUP : bool;
  IPT_UI_NEXT_GROUP : bool;
  IPT_UI_ROTATE : bool;
  IPT_UI_UP : bool;
  IPT_UI_DOWN : bool;
  IPT_UI_LEFT : bool;
  IPT_UI_RIGHT : bool;
  IPT_UI_PAGE_UP : bool;
  IPT_UI_PAGE_DOWN : bool;
  IPT_UI_HOME : bool;
  IPT_UI_END : bool;
  IPT_UI_SNAPSHOT : bool;
  KEYCODE_LSHIFT : bool;
  KEYCODE_LCONTROL : bool
}.

(** Constants and helpers that viewgfx.cpp takes from the engine's headers.
    They are arguments of the model: no theorem depends on their values. *)
Class Engine := {
  MAX_GFX_ELEMENTS : Z;
  ROT90 : Z;
  orientation_add : Z -> Z -> Z;
  TILEMAP_DRAW_ALL_CATEGORIES : Z;
  TILEMAP_DRAW_CATEGORY_MASK : Z;
  (* tilemap->draw_debug(screen, bitmap, xoffs, yoffs, flags): the pixels of
     the destination bitmap after the call; the call draws into the buffer it
     is given and does not resize it *)
  draw_debug : tilemap_t -> bitmap -> Z -> Z -> Z -> gmap (Z * Z) Z;
  (* osdcore.h and corestr.h: strreplace(str, search, replace) is the string
     after the call *)
  PATH_SEPARATOR : string;
  strreplace : string -> string -> string -> string
}.

(** ** std::string, as [open_next_file] uses it

    Positions are [int]s in the source: [find] and [find_last_of] give -1
    (npos converted to int) when there is no match. *)

Definition find (s search : string) (pos : Z) : Z :=
  match String.index (Z.to_nat pos) search s with
  | Some n => Z.of_nat n
  | None => -1
  end.

Fixpoint rindex (c : ascii) (s : string) : option nat :=
  match s with
  | EmptyString => None
  | String a s' =>
      match rindex c s' with
      | Some n => Some (S n)
      | None => if Ascii.eqb a c then Some O else None
      end
  end.

Definition find_last_of (s : string) (c : ascii) : Z :=
  match rindex c s with
  | Some n => Z.of_nat n
  | None => -1
  end.

Definition str_length (s : string) : Z := Z.of_nat (String.length s).

(** [s.substr(pos, len)]; a negative [len] stands for npos, the rest of the
    string.  The source never calls it with [pos] beyond the end. *)
Definition substr (s : string) (pos len : Z) : string :=
  let len := if len <? 0 then str_length s else len in
  String.substring (Z.to_nat pos) (Z.to_nat len) s.

(** [s.erase(pos, len)], which throws when [pos] is beyond the end. *)
Definition erase (s : string) (pos len : Z) : option string :=
  if str_length s <? pos then None
  else Some (substr s 0 pos +:+ substr s (pos + len) (-1)).

(** Formatted text: the format string and the arguments of a [sprintf] or
    [osd_printf_error] call. *)
Inductive fmt_arg :=
| ArgInt (z : Z)
| ArgStr (s : string).

Record formatted := sprintf {
  fmt_string : string;
  fmt_args : list fmt_arg
}.

(** What an export run does to the outside world, in order. *)
Inductive export_event :=
| EvOpen (basename : formatted) (extension : string) (opened : bool)
    (* open_next_file(machine, file, basename, extension) and whether it
       returned osd_file::error::NONE *)
| EvPuts (line : formatted)                     (* txtfile.puts *)
| EvPng (image : bitmap) (entries : Z) (colors : list Z) (error : Z)
    (* util::png_write_bitmap and its error code *)
| EvPrintf (message : formatted).               (* osd_printf_error *)

(** The file layer under [open_next_file] and the image encoder.  [files] is
    the state of the disk; [open_numbered] finds the next free numbered name
    for a template and a base name and opens it for writing;
    [png_write_bitmap] encodes a raster with its colour table and returns the
    error code, 0 for none. *)
Class FileHost := {
  files : Type;
  open_numbered : files -> string -> formatted -> bool * files;
  png_write_bitmap : files -> bitmap -> Z -> list Z -> Z * files
}.

(** ** Viewer state *)

Definition MAX_GFX_DECODERS : Z := 8.

Definition UI_GFX_PALETTE : Z := 0.
Definition UI_GFX_GFXSET : Z := 1.
Definition UI_GFX_TILEMAP : Z := 2.

(** [struct ui_gfx_info]; the arrays hold [MAX_GFX_ELEMENTS] cells. *)
Record ui_gfx_info := {
  info_interface : option device_gfx_interface;
  info_setcount : Z;
  info_rotate : list Z;
  info_columns : list Z;
  info_offset : list Z;
  info_color : list Z;
  info_palette : list (option palette_device);
  info_color_count : list Z
}.

Record texture_format := TEXFORMAT { texformat_code : Z }.
Definition TEXFORMAT_ARGB32 : texture_format := TEXFORMAT 0.
Definition TEXFORMAT_RGB32 : texture_format := TEXFORMAT 1.

(** A render texture: the handle the renderer gave out and the format of the
    bitmap bound to it. *)
Record render_texture := {
  tex_handle : nat;
  tex_format : option texture_format
}.

(** The renderer's texture allocator: the next handle and the handles
    released so far. *)
Record render_manager := {
  rm_next : nat;
  rm_freed : list nat
}.

Record palette_state := {
  pal_interface : option palette_device;
  pal_devcount : Z;
  pal_devindex : Z;
  pal_which : Z;
  pal_columns : Z;
  pal_offset : Z
}.

Record gfxset_state := {
  gs_devcount : Z;
  gs_devindex : Z;
  gs_set : Z
}.

Record tilemap_state := {
  tm_which : Z;
  tm_xoffs : Z;
  tm_yoffs : Z;
  tm_zoom : Z;
  tm_rotate : Z;
  tm_flags : Z
}.

(** [struct ui_gfx_state]. *)
Record ui_gfx_state := {
  started : bool;
  mode : Z;
  save : bool;
  bitmap_dirty : bool;
  st_bitmap : bitmap;
  st_texture : option render_texture;
  palette : palette_state;
  gfxset : gfxset_state;
  gfxdev : list ui_gfx_info;
  tilemap : tilemap_state
}.

(** Field assignments. *)

Definition set_started (v : bool) (s : ui_gfx_state) : ui_gfx_state :=
  {| started := v; mode := mode s; save := save s; bitmap_dirty := bitmap_dirty s;
     st_bitmap := st_bitmap s; st_texture := st_texture s; palette := palette s;
     gfxset := gfxset s; gfxdev := gfxdev s; tilemap := tilemap s |}.
Definition set_mode (v : Z) (s : ui_gfx_state) : ui_gfx_state :=
  {| started := started s; mode := v; save := save s; bitmap_dirty := bitmap_dirty s;
     st_bitmap := st_bitmap s; st_texture := st_texture s; palette := palette s;
     gfxset := gfxset s; gfxdev := gfxdev s; tilemap := tilemap s |}.
Definition set_save (v : bool) (s : ui_gfx_state) : ui_gfx_state :=
  {| started := started s; mode := mode s; save := v; bitmap_dirty := bitmap_dirty s;
     st_bitmap := st_bitmap s; st_texture := st_texture s; palette := palette s;
     gfxset := gfxset s; gfxdev := gfxdev s; tilemap := tilemap s |}.
Definition set_bitmap_dirty (v : bool) (s : ui_gfx_state) : ui_gfx_state :=
  {| started := started s; mode := mode s; save := save s; bitmap_dirty := v;
     st_bitmap := st_bitmap s; st_texture := st_texture s; palette := palette s;
     gfxset := gfxset s; gfxdev := gfxdev s; tilemap := tilemap s |}.
Definition set_st_bitmap (v : bitmap) (s : ui_gfx_state) : ui_gfx_state :=
  {| started := started s; mode := mode s; save := save s; bitmap_dirty := bitmap_dirty s;
     st_bitmap := v; st_texture := st_texture s; palette := palette s;
     gfxset := gfxset s; gfxdev := gfxdev s; tilemap := tilemap s |}.
Definition set_st_texture (v : option render_texture) (s : ui_gfx_state) : ui_gfx_state :=
  {| started := started s; mode := mode s; save := save s; bitmap_dirty := bitmap_dirty s;
     st_bitmap := st_bitmap s; st_texture := v; palette := palette s;
     gfxset := gfxset s; gfxdev := gfxdev s; tilemap := tilemap s |}.
Definition set_palette (v : palette_state) (s : ui_gfx_state) : ui_gfx_state :=
  {| started := started s; mode := mode s; save := save s; bitmap_dirty := bitmap_dirty s;
     st_bitmap := st_bitmap s; st_texture := st_texture s; palette := v;
     gfxset := gfxset s; gfxdev := gfxdev s; tilemap := tilemap s |}.
Definition set_gfxset (v : gfxset_state) (s : ui_gfx_state) : ui_gfx_state :=
  {| started := started s; mode := mode s; save := save s; bitmap_dirty := bitmap_dirty s;
     st_bitmap := st_bitmap s; st_texture := st_texture s; palette := palette s;
     gfxset := v; gfxdev := gfxdev s; tilemap := tilemap s |}.
Definition set_gfxdev (v : list ui_gfx_info) (s : ui_gfx_state) : ui_gfx_state :=
  {| started := started s; mode := mode s; save := save s; bitmap_dirty := bitmap_dirty s;
     st_bitmap := st_bitmap s; st_texture := st_texture s; palette := palette s;
     gfxset := gfxset s; gfxdev := v; tilemap := tilemap s |}.
Definition set_tilemap (v : tilemap_state) (s : ui_gfx_state) : ui_gfx_state :=
  {| started := started s; mode := mode s; save := save s; bitmap_dirty := bitmap_dirty s;
     st_bitmap := st_bitmap s; st_texture := st_texture s; palette := palette s;
     gfxset := gfxset s; gfxdev := gfxdev s; tilemap := v |}.

Definition set_pal_interface (v : option palette_device) (p : palette_state) : palette_state :=
  {| pal_interface := v; pal_devcount := pal_devcount p; pal_devindex := pal_devindex p;
     pal_which := pal_which p; pal_columns := pal_columns p; pal_offset := pal_offset p |}.
Definition set_pal_devcount (v : Z) (p : palette_state) : palette_state :=
  {| pal_interface := pal_interface p; pal_devcount := v; pal_devindex := pal_devindex p;
     pal_which := pal_which p; pal_columns := pal_columns p; pal_offset := pal_offset p |}.
Definition set_pal_devindex (v : Z) (p : palette_state) : palette_state :=
  {| pal_interface := pal_interface p; pal_devcount := pal_devcount p; pal_devindex := v;
     pal_which := pal_which p; pal_columns := pal_columns p; pal_offset := pal_offset p |}.
Definition set_pal_which (v : Z) (p : palette_state) : palette_state :=
  {| pal_interface := pal_interface p; pal_devcount := pal_devcount p;
     pal_devindex := pal_devindex p; pal_which := v; pal_columns := pal_columns p;
     pal_offset := pal_offset p |}.
Definition set_pal_columns (v : Z) (p : palette_state) : palette_state :=
  {| pal_interface := pal_interface p; pal_devcount := pal_devcount p;
     pal_devindex := pal_devindex p; pal_which := pal_which p; pal_columns := v;
     pal_offset := pal_offset p |}.
Definition set_pal_offset (v : Z) (p : palette_state) : palette_state :=
  {| pal_interface := pal_interface p; pal_devcount := pal_devcount p;
     pal_devindex := pal_devindex p; pal_which := pal_which p;
     pal_columns := pal_columns p; pal_offset := v |}.

Definition set_gs_devcount (v : Z) (g : gfxset_state) : gfxset_state :=
  {| gs_devcount := v; gs_devindex := gs_devindex g; gs_set := gs_set g |}.
Definition set_gs_devindex (v : Z) (g : gfxset_state) : gfxset_state :=
  {| gs_devcount := gs_devcount g; gs_devindex := v; gs_set := gs_set g |}.
Definition set_gs_set (v : Z) (g : gfxset_state) : gfxset_state :=
  {| gs_devcount := gs_devcount g; gs_devindex := gs_devindex g; gs_set := v |}.

Definition set_tm_which (v : Z) (t : tilemap_state) : tilemap_state :=
  {| tm_which := v; tm_xoffs := tm_xoffs t; tm_yoffs := tm_yoffs t; tm_zoom := tm_zoom t;
     tm_rotate := tm_rotate t; tm_flags := tm_flags t |}.
Definition set_tm_xoffs (v : Z) (t : tilemap_state) : tilemap_state :=
  {| tm_which := tm_which t; tm_xoffs := v; tm_yoffs := tm_yoffs t; tm_zoom := tm_zoom t;
     tm_rotate := tm_rotate t; tm_flags := tm_flags t |}.
Definition set_tm_yoffs (v : Z) (t : tilemap_state) : tilemap_state :=
  {| tm_which := tm_which t; tm_xoffs := tm_xoffs t; tm_yoffs := v; tm_zoom := tm_zoom t;
     tm_rotate := tm_rotate t; tm_flags := tm_flags t |}.
Definition set_tm_zoom (v : Z) (t : tilemap_state) : tilemap_state :=
  {| tm_which := tm_which t; tm_xoffs := tm_xoffs t; tm_yoffs := tm_yoffs t; tm_zoom := v;
     tm_rotate := tm_rotate t; tm_flags := tm_flags t |}.
Definition set_tm_rotate (v : Z) (t : tilemap_state) : tilemap_state :=
  {| tm_which := tm_which t; tm_xoffs := tm_xoffs t; tm_yoffs := tm_yoffs t;
     tm_zoom := tm_zoom t; tm_rotate := v; tm_flags := tm_flags t |}.
Definition set_tm_flags (v : Z) (t : tilemap_state) : tilemap_state :=
  {| tm_which := tm_which t; tm_xoffs := tm_xoffs t; tm_yoffs := tm_yoffs t;
     tm_zoom := tm_zoom t; tm_rotate := tm_rotate t; tm_flags := v |}.

Definition set_info_interface (v : option device_gfx_interface) (i : ui_gfx_info) : ui_gfx_info :=
  {| info_interface := v; info_setcount := info_setcount i; info_rotate := info_rotate i;
     info_columns := info_columns i; info_offset := info_offset i;
     info_color := info_color i; info_palette := info_palette i;
     info_color_count := info_color_count i |}.
Definition set_info_setcount (v : Z) (i : ui_gfx_info) : ui_gfx_info :=
  {| info_interface := info_interface i; info_setcount := v; info_rotate := info_rotate i;
     info_columns := info_columns i; info_offset := info_offset i;
     info_color := info_color i; info_palette := info_palette i;
     info_color_count := info_color_count i |}.
Definition set_info_rotate (v : list Z) (i : ui_gfx_info) : ui_gfx_info :=
  {| info_interface := info_interface i; info_setcount := info_setcount i; info_rotate := v;
     info_columns := info_columns i; info_offset := info_offset i;
     info_color := info_color i; info_palette := info_palette i;
     info_color_count := info_color_count i |}.
Definition set_info_columns (v : list Z) (i : ui_gfx_info) : ui_gfx_info :=
  {| info_interface := info_interface i; info_setcount := info_setcount i;
     info_rotate := info_rotate i; info_columns := v; info_offset := info_offset i;
     info_color := info_color i; info_palette := info_palette i;
     info_color_count := info_color_count i |}.
Definition set_info_offset (v : list Z) (i : ui_gfx_info) : ui_gfx_info :=
  {| info_interface := info_interface i; info_setcount := info_setcount i;
     info_rotate := info_rotate i; info_columns := info_columns i; info_offset := v;
     info_color := info_color i; info_palette := info_palette i;
     info_color_count := info_color_count i |}.
Definition set_info_color (v : list Z) (i : ui_gfx_info) : ui_gfx_info :=
  {| info_interface := info_interface i; info_setcount := info_setcount i;
     info_rotate := info_rotate i; info_columns := info_columns i;
     info_offset := info_offset i; info_color := v; info_palette := info_palette i;
     info_color_count := info_color_count i |}.
Definition set_info_palette (v : list (option palette_device)) (i : ui_gfx_info) : ui_gfx_info :=
  {| info_interface := info_interface i; info_setcount := info_setcount i;
     info_rotate := info_rotate i; info_columns := info_columns i;
     info_offset := info_offset i; info_color := info_color i; info_palette := v;
     info_color_count := info_color_count i |}.
Definition set_info_color_count (v : list Z) (i : ui_gfx_info) : ui_gfx_info :=
  {| info_interface := info_interface i; info_setcount := info_setcount i;
     info_rotate := info_rotate i; info_columns := info_columns i;
     info_offset := info_offset i; info_color := info_color i;
     info_palette := info_palette i; info_color_count := v |}.

(** Array cells.  The C++ arrays have a fixed size and an index outside them
    is undefined behaviour; here a read outside gives the default and a write
    outside changes nothing.  The theorems keep every index inside. *)

Definition cell {A} `{Inhabited A} (a : list A) (i : Z) : A := a !!! Z.to_nat i.
Definition set_cell {A} (a : list A) (i : Z) (v : A) : list A := <[Z.to_nat i := v]> a.

Definition null_info : ui_gfx_info :=
  {| info_interface := None; info_setcount := 0; info_rotate := []; info_columns := [];
     info_offset := []; info_color := []; info_palette := []; info_color_count := [] |}.

#[global] Instance ui_gfx_info_inhabited : Inhabited ui_gfx_info := populate null_info.

(** [state.gfxdev[dev].field = ...]. *)
Definition upd_gfxdev (dev : Z) (f : ui_gfx_info -> ui_gfx_info) (s : ui_gfx_state) : ui_gfx_state :=
  set_gfxdev (set_cell (gfxdev s) dev (f (cell (gfxdev s) dev))) s.

Definition upd_palette (f : palette_state -> palette_state) (s : ui_gfx_state) : ui_gfx_state :=
  set_palette (f (palette s)) s.
Definition upd_gfxset (f : gfxset_state -> gfxset_state) (s : ui_gfx_state) : ui_gfx_state :=
  set_gfxset (f (gfxset s)) s.
Definition upd_tilemap (f : tilemap_state -> tilemap_state) (s : ui_gfx_state) : ui_gfx_state :=
  set_tilemap (f (tilemap s)) s.

(** ** Bitmaps *)

Definition bitmap_reset (b : bitmap) : bitmap :=
  {| bm_valid := false; bm_width := 0; bm_height := 0; bm_pix := ∅ |}.

(** Modelled from the spec: [bitmap_rgb32::allocate] belongs to the engine's
    bitmap class, which is not part of viewgfx.cpp.  By the RasterCache
    contract ("releases the old buffer and display handle, allocates new
    ones"; "buffer dimensions always match the dimensions last requested") the
    allocated buffer is valid and has the requested dimensions; its pixels
    are not yet written. *)
Definition bitmap_allocate (width height : Z) (b : bitmap) : bitmap :=
  {| bm_valid := true; bm_width := width; bm_height := height; bm_pix := ∅ |}.

(** [bitmap.pix(y, x) = v]. *)
Definition bitmap_put (x y v : Z) (b : bitmap) : bitmap :=
  {| bm_valid := bm_valid b; bm_width := bm_width b; bm_height := bm_height b;
     bm_pix := <[(x, y) := v]> (bm_pix b) |}.

(** The bitmap [b] after an engine routine has drawn into it, leaving the
    pixels [pix]. *)
Definition bitmap_set_pix (b : bitmap) (pix : gmap (Z * Z) Z) : bitmap :=
  {| bm_valid := bm_valid b; bm_width := bm_width b; bm_height := bm_height b;
     bm_pix := pix |}.

(** [bitmap.fill(v, bounds)]: every pixel of [bounds] that lies inside the
    bitmap. *)
Definition bitmap_fill (v min_x max_x min_y max_y : Z) (b : bitmap) : bitmap :=
  let x0 := Z.max min_x 0 in
  let x1 := Z.min max_x (bm_width b - 1) in
  let y0 := Z.max min_y 0 in
  let y1 := Z.min max_y (bm_height b - 1) in
  foldl (fun b y => foldl (fun b x => bitmap_put x y v b) b (seqZ x0 (x1 - x0 + 1)))
        b (seqZ y0 (y1 - y0 + 1)).

(** ** Control flow

    A null pointer dereference or a division by zero ends the run: functions
    that can do either return [option], [None] being the crash.
    [for_each l body] is the loop [for (i : l) body], stopping at a crash. *)

Fixpoint for_each {A S} (l : list A) (body : A -> S -> option S) (s : S) : option S :=
  match l with
  | [] => Some s
  | a :: l => s' ← body a s; for_each l body s'
  end.

(** C++ integer division, which truncates, with the crash on a zero divisor. *)
Definition div_int (a b : Z) : option Z :=
  if b =? 0 then None else Some (Z.quot a b).

(** ** Initialisation *)

(** The static [ui_gfx] before [ui_gfx_init]: static storage is zeroed. *)
Definition ui_gfx_zero : ui_gfx_state :=
  {| started := false; mode := 0; save := false; bitmap_dirty := false;
     st_bitmap := bitmap_reset {| bm_valid := false; bm_width := 0; bm_height := 0; bm_pix := ∅ |};
     st_texture := None;
     palette := {| pal_interface := None; pal_devcount := 0; pal_devindex := 0;
                   pal_which := 0; pal_columns := 0; pal_offset := 0 |};
     gfxset := {| gs_devcount := 0; gs_devindex := 0; gs_set := 0 |};
     gfxdev := replicate (Z.to_nat MAX_GFX_DECODERS) null_info;
     tilemap := {| tm_which := 0; tm_xoffs := 0; tm_yoffs := 0; tm_zoom := 0;
                   tm_rotate := 0; tm_flags := 0 |} |}.

Section Viewer.
Context {engine : Engine}.

(** [ui_gfx_init]; [orientation] is [machine.system().flags &
    MASK_ORIENTATION].  The fields the function does not assign
    ([save], [palette.offset]) keep their value. *)
Definition ui_gfx_init (orientation : Z) (state : ui_gfx_state) : ui_gfx_state :=
  let rotate := u8 orientation in
  let n := Z.to_nat MAX_GFX_ELEMENTS in
  let info :=
    {| info_interface := None; info_setcount := 0;
       info_rotate := replicate n rotate; info_columns := replicate n 16;
       info_offset := replicate n 0; info_color := replicate n 0;
       info_palette := replicate n None; info_color_count := replicate n 0 |} in
  {| started := false; mode := 0; save := save state; bitmap_dirty := false;
     st_bitmap := bitmap_reset (st_bitmap state); st_texture := None;
     palette := {| pal_interface := None; pal_devcount := 0; pal_devindex := 0;
                   pal_which := 0; pal_columns := 16;
                   pal_offset := pal_offset (palette state) |};
     gfxset := {| gs_devcount := 0; gs_devindex := 0; gs_set := 0 |};
     gfxdev := replicate (Z.to_nat MAX_GFX_DECODERS) info;
     tilemap := {| tm_which := 0; tm_xoffs := 0; tm_yoffs := 0; tm_zoom := 0;
                   tm_rotate := rotate; tm_flags := TILEMAP_DRAW_ALL_CATEGORIES |} |}.

(** [palette_set_device]. *)
Definition palette_set_device (machine : running_machine) (state : ui_gfx_state) : ui_gfx_state :=
  upd_palette (set_pal_interface (byindex machine (pal_devindex (palette state)))) state.

(** [ui_gfx_count_devices]: the loop counting the sets of one device,
    [while (count < MAX_GFX_ELEMENTS && interface.gfx(count) != nullptr) count++;]
    it runs at most [MAX_GFX_ELEMENTS] times. *)
Fixpoint count_gfx_sets (fuel : nat) (interface : device_gfx_interface) (count : Z) : Z :=
  match fuel with
  | O => count
  | S fuel =>
      if (count <? MAX_GFX_ELEMENTS) && bool_decide (is_Some (gfx interface count))
      then count_gfx_sets fuel interface (u8 (count + 1))
      else count
  end.

(** [ui_gfx_count_devices]: the body of the loop over the slots of a device. *)
Definition count_devices_slot (interface : device_gfx_interface) (slot : Z)
    (state : ui_gfx_state) : option ui_gfx_state :=
  let dev := gs_devcount (gfxset state) in
  g ← gfx interface slot;
  if has_palette g then
    let state := upd_gfxdev dev (fun i =>
      set_info_palette (set_cell (info_palette i) slot (gfx_palette g)) i) state in
    Some (upd_gfxdev dev (fun i =>
      set_info_color_count (set_cell (info_color_count i) slot (gfx_colors g)) i) state)
  else
    let state := upd_gfxdev dev (fun i =>
      set_info_palette (set_cell (info_palette i) slot (pal_interface (palette state))) i) state in
    p ← pal_interface (palette state);
    count ← div_int (pal_entries p) (gfx_granularity g);
    let state := upd_gfxdev dev (fun i =>
      set_info_color_count (set_cell (info_color_count i) slot count) i) state in
    if cell (info_color_count (cell (gfxdev state) dev)) slot =? 0 then
      Some (upd_gfxdev dev (fun i =>
        set_info_color_count (set_cell (info_color_count i) slot 1) i) state)
    else Some state.

(** [ui_gfx_count_devices]: the loop over the gfx devices, with its [break]. *)
Fixpoint count_devices_loop (interfaces : list device_gfx_interface)
    (state : ui_gfx_state) : option ui_gfx_state :=
  match interfaces with
  | [] => Some state
  | interface :: rest =>
      let count := count_gfx_sets (Z.to_nat MAX_GFX_ELEMENTS) interface 0 in
      if 0 <? count then
        let dev := gs_devcount (gfxset state) in
        let state := upd_gfxdev dev (set_info_interface (Some interface)) state in
        let state := upd_gfxdev dev (set_info_setcount count) state in
        state ← for_each (seqZ 0 count) (count_devices_slot interface) state;
        let state := upd_gfxset (set_gs_devcount (u8 (gs_devcount (gfxset state) + 1))) state in
        if gs_devcount (gfxset state) =? MAX_GFX_DECODERS then Some state
        else count_devices_loop rest state
      else count_devices_loop rest state
  end.

Definition ui_gfx_count_devices (machine : running_machine) (state : ui_gfx_state)
    : option ui_gfx_state :=
  let state := upd_palette (set_pal_devcount (Z.of_nat (length (palette_interfaces machine)))) state in
  let state := if 0 <? pal_devcount (palette state) then palette_set_device machine state else state in
  let state := upd_gfxset (set_gs_devcount 0) state in
  state ← count_devices_loop (gfx_interfaces machine) state;
  Some (set_started true state).

(** ** Palette viewer *)

(** [palette_handle_keys], "clamp within range" of the column count. *)
Definition palette_clamp_columns (state : ui_gfx_state) : ui_gfx_state :=
  let state := if pal_columns (palette state) <=? 4
               then upd_palette (set_pal_columns 4) state else state in
  if 64 <? pal_columns (palette state)
  then upd_palette (set_pal_columns 64) state else state.

(** [palette_handle_keys], "clamp within range" of the scroll offset. *)
Definition palette_clamp_offset (total rowcount screencount : Z) (state : ui_gfx_state)
    : ui_gfx_state :=
  let state :=
    if ((total + rowcount - 1) ÷ rowcount) * rowcount <? pal_offset (palette state) + screencount
    then upd_palette (set_pal_offset (((total + rowcount - 1) ÷ rowcount) * rowcount - screencount)) state
    else state in
  if pal_offset (palette state) <? 0
  then upd_palette (set_pal_offset 0) state else state.

(** [palette_handle_keys], "handle keyboard navigation". *)
Definition palette_navigate (input : ui_input) (total rowcount screencount : Z)
    (state : ui_gfx_state) : ui_gfx_state :=
  let state := if IPT_UI_UP input
    then upd_palette (fun p => set_pal_offset (pal_offset p - rowcount) p) state else state in
  let state := if IPT_UI_DOWN input
    then upd_palette (fun p => set_pal_offset (pal_offset p + rowcount) p) state else state in
  let state := if IPT_UI_PAGE_UP input
    then upd_palette (fun p => set_pal_offset (pal_offset p - screencount) p) state else state in
  let state := if IPT_UI_PAGE_DOWN input
    then upd_palette (fun p => set_pal_offset (pal_offset p + screencount) p) state else state in
  let state := if IPT_UI_HOME input
    then upd_palette (set_pal_offset 0) state else state in
  if IPT_UI_END input
  then upd_palette (set_pal_offset total) state else state.

(** [palette_handle_keys], "handle colormap selection", open bracket: the
    state and the local [palette] pointer afterwards. *)
Definition palette_prev_group (machine : running_machine) (state : ui_gfx_state)
    (palette0 : option palette_device) : option (ui_gfx_state * option palette_device) :=
  if negb (pal_which (palette state) =? 0) then
    Some (upd_palette (set_pal_which 0) state, palette0)
  else if 0 <? pal_devindex (palette state) then
    let state := upd_palette (fun p => set_pal_devindex (pal_devindex p - 1) p) state in
    let state := palette_set_device machine state in
    let palette1 := pal_interface (palette state) in
    p ← palette1;
    Some (upd_palette (set_pal_which (if 0 <? pal_indirect_entries p then 1 else 0)) state,
          palette1)
  else Some (state, palette0).

(** The same for the close bracket.  The first test dereferences [palette]
    only when [which] is zero. *)
Definition palette_next_group (machine : running_machine) (state : ui_gfx_state)
    (palette1 : option palette_device) : option (ui_gfx_state * option palette_device) :=
  first_test ←
    (if pal_which (palette state) =? 0
     then p ← palette1; Some (0 <? pal_indirect_entries p)
     else Some false);
  if (first_test : bool) then
    Some (upd_palette (set_pal_which 1) state, palette1)
  else if pal_devindex (palette state) <? pal_devcount (palette state) - 1 then
    let state := upd_palette (fun p => set_pal_devindex (pal_devindex p + 1) p) state in
    let state := palette_set_device machine state in
    Some (upd_palette (set_pal_which 0) state, pal_interface (palette state))
  else Some (state, palette1).

Definition palette_select (machine : running_machine) (input : ui_input)
    (state : ui_gfx_state) : option (ui_gfx_state * option palette_device) :=
  let palette0 := pal_interface (palette state) in
  r ← (if IPT_UI_PREV_GROUP input then palette_prev_group machine state palette0
       else Some (state, palette0));
  if IPT_UI_NEXT_GROUP input then palette_next_group machine r.1 r.2 else Some r.

(** [palette_handle_keys]. *)
Definition palette_handle_keys (machine : running_machine) (input : ui_input)
    (state : ui_gfx_state) : option ui_gfx_state :=
  (* handle zoom (minus,plus) *)
  let state := if IPT_UI_ZOOM_OUT input
    then upd_palette (fun p => set_pal_columns (u8 (pal_columns p ÷ 2)) p) state else state in
  let state := if IPT_UI_ZOOM_IN input
    then upd_palette (fun p => set_pal_columns (u8 (pal_columns p * 2)) p) state else state in
  let state := palette_clamp_columns state in
  (* handle colormap selection (open bracket,close bracket) *)
  '(state, palette1) ← palette_select machine input state;
  (* cache some info in locals *)
  p ← palette1;
  let total := if negb (pal_which (palette state) =? 0)
               then pal_indirect_entries p else pal_entries p in
  let rowcount := pal_columns (palette state) in
  let screencount := rowcount * rowcount in
  let state := palette_navigate input total rowcount screencount state in
  let state := palette_clamp_offset total rowcount screencount state in
  Some (if IPT_UI_SNAPSHOT input then set_save true state else state).

(** The entry count the palette view shows for a state: [total] of
    [palette_handler] and [palette_handle_keys]. *)
Definition palette_total (state : ui_gfx_state) : option Z :=
  p ← pal_interface (palette state);
  Some (if negb (pal_which (palette state) =? 0)
        then pal_indirect_entries p else pal_entries p).

(** The number of rows needed for [total] entries, [ceil(total/columns)]. *)
Definition ceil_div (total columns : Z) : Z := (total + columns - 1) / columns.

(** The palette pointer of the state is the device selected by the index. *)
Definition palette_wf (machine : running_machine) (state : ui_gfx_state) : Prop :=
  pal_devcount (palette state) = Z.of_nat (length (palette_interfaces machine))
  /\ 0 <= pal_devindex (palette state) < pal_devcount (palette state)
  /\ pal_interface (palette state) = byindex machine (pal_devindex (palette state)).

Definition palette_counts_nonneg (machine : running_machine) : Prop :=
  Forall (fun p => 0 <= pal_entries p /\ 0 <= pal_indirect_entries p)
         (palette_interfaces machine).

(** A run of the palette view over the key states of successive frames. *)
Definition palette_run (machine : running_machine) (inputs : list ui_input)
    (state : ui_gfx_state) : option ui_gfx_state :=
  for_each inputs (palette_handle_keys machine) state.

(** ** Graphics viewer: layout *)

(** [gfxset_handler], "compute the largest pixel scale factor that still
    fits": the loop [while (xcells > 1) { pixelscale = (cellboxwidth / xcells) /
    cellxpix; if (pixelscale != 0) break; xcells--; }].  The result is the
    pair of [xcells] and [pixelscale] at the exit; [None] when the fuel does
    not reach the exit. *)
Fixpoint gfxset_shrink_columns (fuel : nat) (cellboxwidth cellxpix xcells pixelscale : Z)
    : option (Z * Z) :=
  if 1 <? xcells then
    match fuel with
    | O => None
    | S fuel =>
        let pixelscale := (cellboxwidth ÷ xcells) ÷ cellxpix in
        if negb (pixelscale =? 0) then Some (xcells, pixelscale)
        else gfxset_shrink_columns fuel cellboxwidth cellxpix (xcells - 1) pixelscale
    end
  else Some (xcells, pixelscale).

(** The loop with [pixelscale = 0] at its entry, followed by "worst case, we
    need a pixel scale of 1".  [xcells] only counts down to 1, so
    [Z.to_nat columns] iterations are enough. *)
Definition gfxset_fit_columns (cellboxwidth columns cellxpix : Z) : option (Z * Z) :=
  '(xcells, pixelscale) ←
    gfxset_shrink_columns (Z.to_nat columns) cellboxwidth cellxpix columns 0;
  Some (xcells, Z.max 1 pixelscale).

(** What the layout of [gfxset_handler] hands to the drawing and key code. *)
Record gfxset_layout := {
  lay_xcells : Z;
  lay_ycells : Z;
  lay_pixelscale : Z;
  lay_cellboxwidth : Z;
  lay_cellboxheight : Z
}.

(** [gfxset_handler], from "compute the number of source pixels in a cell" to
    "now determine the actual cellbox size".  [cellboxwidth] and
    [cellboxheight] are the pixel sizes obtained from the font metrics. *)
Definition gfxset_handler_layout (cellboxwidth cellboxheight : Z) (state : ui_gfx_state)
    : option (ui_gfx_state * gfxset_layout) :=
  let dev := gs_devindex (gfxset state) in
  let set := gs_set (gfxset state) in
  let info := cell (gfxdev state) dev in
  interface ← info_interface info;
  g ← gfx interface set;
  let cellxpix := 1 + (if flag (cell (info_rotate info) set) ORIENTATION_SWAP_XY
                       then gfx_height g else gfx_width g) in
  let cellypix := 1 + (if flag (cell (info_rotate info) set) ORIENTATION_SWAP_XY
                       then gfx_width g else gfx_height g) in
  '(xcells, pixelscale) ← gfxset_fit_columns cellboxwidth (cell (info_columns info) set) cellxpix;
  let state := upd_gfxdev dev (fun i =>
    set_info_columns (set_cell (info_columns i) set (u8 xcells)) i) state in
  ycells ← div_int cellboxheight (pixelscale * cellypix);
  Some (state,
        {| lay_xcells := xcells; lay_ycells := ycells; lay_pixelscale := pixelscale;
           lay_cellboxwidth := Z.min cellboxwidth (xcells * pixelscale * cellxpix);
           lay_cellboxheight := Z.min cellboxheight (ycells * pixelscale * cellypix) |}).

(** ** The raster cache *)

(** Modelled from the spec: the renderer's texture allocator
    ([texture_free], [texture_alloc], [set_bitmap]) is the engine's.  A
    texture is "one display-texture handle"; the allocator hands out a fresh
    handle at each allocation and records the released ones. *)
Definition texture_free (texture : option render_texture) (rm : render_manager)
    : render_manager :=
  match texture with
  | Some t => {| rm_next := rm_next rm; rm_freed := tex_handle t :: rm_freed rm |}
  | None => rm
  end.

Definition texture_alloc (rm : render_manager) : render_texture * render_manager :=
  ({| tex_handle := rm_next rm; tex_format := None |},
   {| rm_next := S (rm_next rm); rm_freed := rm_freed rm |}).

Definition texture_set_bitmap (format : texture_format) (t : render_texture)
    : render_texture :=
  {| tex_handle := tex_handle t; tex_format := Some format |}.

(** The condition of "realloc the bitmap if it is too small" in
    [gfxset_update_bitmap] and [tilemap_update_bitmap]:
    [!state.bitmap.valid() || state.texture == nullptr ||
     state.bitmap.width() != width || state.bitmap.height() != height]. *)
Definition realloc_needed (state : ui_gfx_state) (width height : Z) : bool :=
  negb (bm_valid (st_bitmap state))
  || match st_texture state with None => true | Some _ => false end
  || negb (bm_width (st_bitmap state) =? width)
  || negb (bm_height (st_bitmap state) =? height).

(** The block itself, the same in both functions up to the texture format:
    free the old stuff, allocate new stuff, force a redraw. *)
Definition realloc_bitmap (format : texture_format) (width height : Z)
    (rs : render_manager * ui_gfx_state) : render_manager * ui_gfx_state :=
  let '(rm, state) := rs in
  if realloc_needed state width height then
    let rm := texture_free (st_texture state) rm in
    let state := set_st_bitmap (bitmap_reset (st_bitmap state)) state in
    let state := set_st_bitmap (bitmap_allocate width height (st_bitmap state)) state in
    let '(texture, rm) := texture_alloc rm in
    let state := set_st_texture (Some (texture_set_bitmap format texture)) state in
    (rm, set_bitmap_dirty true state)
  else (rm, state).

(** ** Graphics viewer: rasterizer *)

(** [gfxset_draw_item]: the pixels of element [index] written at
    [(dstx, dsty)].  [eff] is the coordinate transform of the inner loop. *)
Definition draw_item_with (eff : Z -> Z -> Z -> Z -> Z -> Z * Z)
    (g : gfx_element) (index : Z) (dest : bitmap) (dstx dsty color rotate : Z)
    (dpalette : option palette_device) : option bitmap :=
  let width := if flag rotate ORIENTATION_SWAP_XY then gfx_height g else gfx_width g in
  let height := if flag rotate ORIENTATION_SWAP_XY then gfx_width g else gfx_height g in
  p ← dpalette;
  let palette_base := gfx_colorbase g + color * gfx_granularity g in
  let src := gfx_get_data g index in
  Some (foldl (fun dest y =>
          foldl (fun dest x =>
            let '(effx, effy) := eff (gfx_width g) (gfx_height g) rotate x y in
            let s := cell src (effy * gfx_rowbytes g + effx) in
            bitmap_put (dstx + x) (dsty + y)
              (Z.lor 4278190080 (cell (pal_entry_list_raw p) (palette_base + s))) dest)
            dest (seqZ 0 width))
        dest (seqZ 0 height)).

Definition gfxset_draw_item := draw_item_with gfxset_draw_item_eff.
Definition gfxset_draw_save_item := draw_item_with gfxset_draw_save_item_eff.

(** The row loop shared by [gfxset_update_bitmap] and
    [gfxset_update_save_bitmap]; they differ in the cell pitch and in the
    item routine. *)
Definition update_bitmap_rows
    (draw : gfx_element -> Z -> bitmap -> Z -> Z -> Z -> Z -> option palette_device -> option bitmap)
    (info : ui_gfx_info) (set xcells ycells cellxpix cellypix : Z) (g : gfx_element)
    (dest : bitmap) : option bitmap :=
  for_each (seqZ 0 ycells) (fun y dest =>
    (* cellbounds.set(0, bitmap.width() - 1, y * cellypix, (y + 1) * cellypix - 1) *)
    let min_y := y * cellypix in
    let max_y := (y + 1) * cellypix - 1 in
    if cell (info_offset info) set + y * xcells <? gfx_elements g then
      for_each (seqZ 0 xcells) (fun x dest =>
        let index := cell (info_offset info) set + y * xcells + x in
        let min_x := x * cellxpix in
        let max_x := (x + 1) * cellxpix - 1 in
        if index <? gfx_elements g then
          draw g index dest min_x min_y (cell (info_color info) set)
               (cell (info_rotate info) set) (cell (info_palette info) set)
        else Some (bitmap_fill 0 min_x max_x min_y max_y dest)) dest
    else Some (bitmap_fill 0 0 (bm_width dest - 1) min_y max_y dest)) dest.

(** [gfxset_update_bitmap]. *)
Definition gfxset_update_bitmap (rm : render_manager) (state : ui_gfx_state)
    (xcells ycells : Z) (g : gfx_element) : option (render_manager * ui_gfx_state) :=
  let dev := gs_devindex (gfxset state) in
  let set := gs_set (gfxset state) in
  let info := cell (gfxdev state) dev in
  let cellxpix := 1 + (if flag (cell (info_rotate info) set) ORIENTATION_SWAP_XY
                       then gfx_height g else gfx_width g) in
  let cellypix := 1 + (if flag (cell (info_rotate info) set) ORIENTATION_SWAP_XY
                       then gfx_width g else gfx_height g) in
  let '(rm, state) :=
    realloc_bitmap TEXFORMAT_ARGB32 (cellxpix * xcells) (cellypix * ycells) (rm, state) in
  if bitmap_dirty state then
    dest ← update_bitmap_rows gfxset_draw_item info set xcells ycells cellxpix cellypix g
             (st_bitmap state);
    let state := set_st_bitmap dest state in
    texture ← st_texture state;
    let state := set_st_texture (Some (texture_set_bitmap TEXFORMAT_ARGB32 texture)) state in
    Some (rm, set_bitmap_dirty false state)
  else Some (rm, state).

(** [tilemap_update_bitmap]. *)
Definition tilemap_update_bitmap (machine : running_machine) (rm : render_manager)
    (state : ui_gfx_state) (width height : Z) : option (render_manager * ui_gfx_state) :=
  let '(width, height) :=
    if flag (tm_rotate (tilemap state)) ORIENTATION_SWAP_XY
    then (height, width) else (width, height) in
  let '(rm, state) := realloc_bitmap TEXFORMAT_RGB32 width height (rm, state) in
  if bitmap_dirty state then
    let dest := st_bitmap state in
    let dest := bitmap_fill 0 0 (bm_width dest - 1) 0 (bm_height dest - 1) dest in
    dest ←
      (if first_screen machine then
         t ← tilemap_find machine (tm_which (tilemap state));
         Some (bitmap_set_pix dest
                 (draw_debug t dest (tm_xoffs (tilemap state)) (tm_yoffs (tilemap state))
                    (tm_flags (tilemap state))))
       else Some dest);
    let state := set_st_bitmap dest state in
    texture ← st_texture state;
    let state := set_st_texture (Some (texture_set_bitmap TEXFORMAT_RGB32 texture)) state in
    Some (rm, set_bitmap_dirty false state)
  else Some (rm, state).

(** Validity and dimensions of a bitmap, which drawing leaves alone. *)
Definition bitmap_shape (b : bitmap) : bool * Z * Z := (bm_valid b, bm_width b, bm_height b).

(** ** Tilemap viewer: keys *)

(** [while (offs < 0) offs += mapsize;] with [int offs] and [uint32_t
    mapsize]: the sum is formed in [uint32_t] and stored back to [int]. *)
Fixpoint wrap_negative (fuel : nat) (offs mapsize : Z) : option Z :=
  if offs <? 0 then
    match fuel with
    | O => None
    | S fuel => wrap_negative fuel (s32 (u32 (u32 offs + mapsize))) mapsize
    end
  else Some offs.

(** [while (offs >= mapsize) offs -= mapsize;]: the comparison and the
    difference are formed in [uint32_t]. *)
Fixpoint wrap_overflow (fuel : nat) (offs mapsize : Z) : option Z :=
  if mapsize <=? u32 offs then
    match fuel with
    | O => None
    | S fuel => wrap_overflow fuel (s32 (u32 (u32 offs - mapsize))) mapsize
    end
  else Some offs.

(** [tilemap_handle_keys], "handle navigation (up,down,left,right), taking
    orientation into account": the step, then one block per key. *)
Definition pan_step (input : ui_input) : Z :=
  let step := 8 in
  let step := if KEYCODE_LSHIFT input then 1 else step in
  let step := if KEYCODE_LCONTROL input then 64 else step in
  step.

Definition tilemap_key_up (input : ui_input) (state : ui_gfx_state) : ui_gfx_state :=
  let step := pan_step input in
  let rotate := tm_rotate (tilemap state) in
  if IPT_UI_UP input then
    set_bitmap_dirty true
      (if flag rotate ORIENTATION_SWAP_XY
       then upd_tilemap (fun t => set_tm_xoffs
              (tm_xoffs t - (if flag rotate ORIENTATION_FLIP_Y then - step else step)) t) state
       else upd_tilemap (fun t => set_tm_yoffs
              (tm_yoffs t - (if flag rotate ORIENTATION_FLIP_Y then - step else step)) t) state)
  else state.

Definition tilemap_key_down (input : ui_input) (state : ui_gfx_state) : ui_gfx_state :=
  let step := pan_step input in
  let rotate := tm_rotate (tilemap state) in
  if IPT_UI_DOWN input then
    set_bitmap_dirty true
      (if flag rotate ORIENTATION_SWAP_XY
       then upd_tilemap (fun t => set_tm_xoffs
              (tm_xoffs t + (if flag rotate ORIENTATION_FLIP_Y then - step else step)) t) state
       else upd_tilemap (fun t => set_tm_yoffs
              (tm_yoffs t + (if flag rotate ORIENTATION_FLIP_Y then - step else step)) t) state)
  else state.

Definition tilemap_key_left (input : ui_input) (state : ui_gfx_state) : ui_gfx_state :=
  let step := pan_step input in
  let rotate := tm_rotate (tilemap state) in
  if IPT_UI_LEFT input then
    set_bitmap_dirty true
      (if flag rotate ORIENTATION_SWAP_XY
       then upd_tilemap (fun t => set_tm_yoffs
              (tm_yoffs t - (if flag rotate ORIENTATION_FLIP_X then - step else step)) t) state
       else upd_tilemap (fun t => set_tm_xoffs
              (tm_xoffs t - (if flag rotate ORIENTATION_FLIP_X then - step else step)) t) state)
  else state.

Definition tilemap_key_right (input : ui_input) (state : ui_gfx_state) : ui_gfx_state :=
  let step := pan_step input in
  let rotate := tm_rotate (tilemap state) in
  if IPT_UI_RIGHT input then
    set_bitmap_dirty true
      (if flag rotate ORIENTATION_SWAP_XY
       then upd_tilemap (fun t => set_tm_yoffs
              (tm_yoffs t + (if flag rotate ORIENTATION_FLIP_X then - step else step)) t) state
       else upd_tilemap (fun t => set_tm_xoffs
              (tm_xoffs t + (if flag rotate ORIENTATION_FLIP_X then - step else step)) t) state)
  else state.

Definition tilemap_navigate (input : ui_input) (state : ui_gfx_state) : ui_gfx_state :=
  tilemap_key_right input
    (tilemap_key_left input (tilemap_key_down input (tilemap_key_up input state))).

(** [tilemap_handle_keys], "clamp within range": the four loops. *)
Definition tilemap_wrap (fuel : nat) (mapwidth mapheight : Z) (state : ui_gfx_state)
    : option ui_gfx_state :=
  x ← wrap_negative fuel (tm_xoffs (tilemap state)) mapwidth;
  x ← wrap_overflow fuel x mapwidth;
  let state := upd_tilemap (set_tm_xoffs x) state in
  y ← wrap_negative fuel (tm_yoffs (tilemap state)) mapheight;
  y ← wrap_overflow fuel y mapheight;
  Some (upd_tilemap (set_tm_yoffs y) state).

(** [tilemap_handle_keys], from "handle tilemap selection" to "handle flags
    (category)".  The pop-up messages are not part of the state. *)
Definition tilemap_select (machine : running_machine) (input : ui_input)
    (state : ui_gfx_state) : ui_gfx_state :=
  let state :=
    if IPT_UI_PREV_GROUP input && (0 <? tm_which (tilemap state))
    then set_bitmap_dirty true (upd_tilemap (fun t => set_tm_which (tm_which t - 1) t) state)
    else state in
  if IPT_UI_NEXT_GROUP input && (tm_which (tilemap state) <? tilemap_count machine - 1)
  then set_bitmap_dirty true (upd_tilemap (fun t => set_tm_which (tm_which t + 1) t) state)
  else state.

Definition tilemap_zoom_rotate_home (input : ui_input) (state : ui_gfx_state) : ui_gfx_state :=
  let state :=
    if IPT_UI_ZOOM_OUT input && (0 <? tm_zoom (tilemap state))
    then set_bitmap_dirty true (upd_tilemap (fun t => set_tm_zoom (tm_zoom t - 1) t) state)
    else state in
  let state :=
    if IPT_UI_ZOOM_IN input && (tm_zoom (tilemap state) <? 8)
    then set_bitmap_dirty true (upd_tilemap (fun t => set_tm_zoom (tm_zoom t + 1) t) state)
    else state in
  let state :=
    if IPT_UI_ROTATE input
    then set_bitmap_dirty true
           (upd_tilemap (fun t => set_tm_rotate (u8 (orientation_add ROT90 (tm_rotate t))) t) state)
    else state in
  if IPT_UI_HOME input
  then set_bitmap_dirty true (upd_tilemap (fun t => set_tm_yoffs 0 (set_tm_xoffs 0 t)) state)
  else state.

Definition tilemap_category (input : ui_input) (state : ui_gfx_state) : ui_gfx_state :=
  let state :=
    if IPT_UI_PAGE_UP input
       && negb (tm_flags (tilemap state) =? TILEMAP_DRAW_ALL_CATEGORIES)
    then set_bitmap_dirty true
           (if 0 <? tm_flags (tilemap state)
            then upd_tilemap (fun t => set_tm_flags (u32 (tm_flags t - 1)) t) state
            else upd_tilemap (set_tm_flags TILEMAP_DRAW_ALL_CATEGORIES) state)
    else state in
  if IPT_UI_PAGE_DOWN input
     && ((tm_flags (tilemap state) <? TILEMAP_DRAW_CATEGORY_MASK)
         || (tm_flags (tilemap state) =? TILEMAP_DRAW_ALL_CATEGORIES))
  then set_bitmap_dirty true
         (if tm_flags (tilemap state) =? TILEMAP_DRAW_ALL_CATEGORIES
          then upd_tilemap (set_tm_flags 0) state
          else upd_tilemap (fun t => set_tm_flags (u32 (tm_flags t + 1)) t) state)
  else state.

(** [tilemap_handle_keys]; [fuel] bounds the iterations of each wrap loop. *)
Definition tilemap_handle_keys (fuel : nat) (machine : running_machine) (input : ui_input)
    (state : ui_gfx_state) : option ui_gfx_state :=
  let state := tilemap_select machine input state in
  (* cache some info in locals *)
  t ← tilemap_find machine (tm_which (tilemap state));
  let mapwidth := u32 (tmap_width t) in
  let mapheight := u32 (tmap_height t) in
  let state := tilemap_zoom_rotate_home input state in
  let state := tilemap_category input state in
  let state := tilemap_navigate input state in
  state ← tilemap_wrap fuel mapwidth mapheight state;
  Some (if IPT_UI_SNAPSHOT input then set_save true state else state).

(** A run of the tilemap view over the key states of successive frames. *)
Definition tilemap_run (fuel : nat) (machine : running_machine) (inputs : list ui_input)
    (state : ui_gfx_state) : option ui_gfx_state :=
  for_each inputs (tilemap_handle_keys fuel machine) state.

(** One pan key, with the two modifier keys as given. *)
Definition pan_key (up down left right lshift lcontrol : bool) : ui_input :=
  {| IPT_UI_ZOOM_OUT := false; IPT_UI_ZOOM_IN := false; IPT_UI_PREV_GROUP := false;
     IPT_UI_NEXT_GROUP := false; IPT_UI_ROTATE := false; IPT_UI_UP := up;
     IPT_UI_DOWN := down; IPT_UI_LEFT := left; IPT_UI_RIGHT := right;
     IPT_UI_PAGE_UP := false; IPT_UI_PAGE_DOWN := false; IPT_UI_HOME := false;
     IPT_UI_END := false; IPT_UI_SNAPSHOT := false; KEYCODE_LSHIFT := lshift;
     KEYCODE_LCONTROL := lcontrol |}.
Definition key_up := pan_key true false false false.
Definition key_down := pan_key false true false false.
Definition key_left := pan_key false false true false.
Definition key_right := pan_key false false false true.

(** The displacement [(dx, dy)] that the four pan keys of a frame ask for
    under the orientation [rotate]. *)
Definition pan_delta (input : ui_input) (rotate : Z) : Z * Z :=
  let step := pan_step input in
  let ystep := if flag rotate ORIENTATION_FLIP_Y then - step else step in
  let xstep := if flag rotate ORIENTATION_FLIP_X then - step else step in
  let vertical := (if IPT_UI_DOWN input then ystep else 0) - (if IPT_UI_UP input then ystep else 0) in
  let horizontal := (if IPT_UI_RIGHT input then xstep else 0) - (if IPT_UI_LEFT input then xstep else 0) in
  if flag rotate ORIENTATION_SWAP_XY then (vertical, horizontal) else (horizontal, vertical).

(** The sum of the displacements of a sequence of frames. *)
Definition pan_total (inputs : list ui_input) (rotate : Z) : Z * Z :=
  foldr (fun input acc => ((pan_delta input rotate).1 + acc.1, (pan_delta input rotate).2 + acc.2))
        (0, 0) inputs.

(** A frame in which only pan keys and pan modifiers are down. *)
Definition is_pan (input : ui_input) : Prop :=
  exists up down left right lshift lcontrol,
    input = pan_key up down left right lshift lcontrol.

(** Enough fuel for the loops on any [int] offset. *)
Definition wrap_fuel : nat := Z.to_nat (2 ^ 31 + 1).

(** What panning needs from the state: the selected tilemap exists and has
    sizes for which [int] offsets cannot overflow by one step. *)
Definition pan_ready (machine : running_machine) (state : ui_gfx_state) (t : tilemap_t) : Prop :=
  tilemap_find machine (tm_which (tilemap state)) = Some t
  /\ 0 < tmap_width t <= 2 ^ 31 - 64
  /\ 0 < tmap_height t <= 2 ^ 31 - 64
  /\ - 2 ^ 31 + 64 <= tm_xoffs (tilemap state) < 2 ^ 31 - 64
  /\ - 2 ^ 31 + 64 <= tm_yoffs (tilemap state) < 2 ^ 31 - 64.

(** ** Graphics viewer: keys *)

(** Reads and writes of [info.field[set]] for [info = state.gfxdev[dev]]. *)
Definition info_of (state : ui_gfx_state) (dev : Z) : ui_gfx_info := cell (gfxdev state) dev.

(** [gfxset_handle_keys], "handle gfxset selection (open bracket,close bracket)". *)
Definition gfxset_select (input : ui_input) (state : ui_gfx_state) : ui_gfx_state :=
  let state :=
    if IPT_UI_PREV_GROUP input then
      set_bitmap_dirty true
        (if 0 <? gs_set (gfxset state) then
           upd_gfxset (fun g => set_gs_set (u8 (gs_set g - 1)) g) state
         else if 0 <? gs_devindex (gfxset state) then
           let state := upd_gfxset (fun g => set_gs_devindex (u8 (gs_devindex g - 1)) g) state in
           upd_gfxset (set_gs_set
             (u8 (info_setcount (info_of state (gs_devindex (gfxset state))) - 1))) state
         else state)
    else state in
  if IPT_UI_NEXT_GROUP input then
    set_bitmap_dirty true
      (if gs_set (gfxset state)
          <? info_setcount (info_of state (gs_devindex (gfxset state))) - 1 then
         upd_gfxset (fun g => set_gs_set (u8 (gs_set g + 1)) g) state
       else if gs_devindex (gfxset state) <? gs_devcount (gfxset state) - 1 then
         let state := upd_gfxset (fun g => set_gs_devindex (u8 (gs_devindex g + 1)) g) state in
         upd_gfxset (set_gs_set 0) state
       else state)
  else state.

(** "handle cells per line (minus,plus)" and "clamp within range". *)
Definition gfxset_zoom (input : ui_input) (xcells dev set : Z) (state : ui_gfx_state)
    : ui_gfx_state :=
  let put v state :=
    set_bitmap_dirty true
      (upd_gfxdev dev (fun i => set_info_columns (set_cell (info_columns i) set (u8 v)) i) state) in
  let state := if IPT_UI_ZOOM_OUT input then put (xcells - 1) state else state in
  let state := if IPT_UI_ZOOM_IN input then put (xcells + 1) state else state in
  let state := if cell (info_columns (info_of state dev)) set <? 2 then put 2 state else state in
  if 128 <? cell (info_columns (info_of state dev)) set then put 128 state else state.

(** "handle rotation (R)". *)
Definition gfxset_rotate (input : ui_input) (dev set : Z) (state : ui_gfx_state)
    : ui_gfx_state :=
  if IPT_UI_ROTATE input then
    set_bitmap_dirty true
      (upd_gfxdev dev (fun i =>
         set_info_rotate
           (set_cell (info_rotate i) set
              (u8 (orientation_add ROT90 (cell (info_rotate i) set)))) i) state)
  else state.

(** "handle navigation within the cells (up,down,pgup,pgdown)" and "clamp
    within range".  [elements] is [gfx.elements()]. *)
Definition gfxset_scroll (input : ui_input) (xcells ycells elements dev set : Z)
    (state : ui_gfx_state) : option ui_gfx_state :=
  let offs state := cell (info_offset (info_of state dev)) set in
  let put v state :=
    set_bitmap_dirty true
      (upd_gfxdev dev (fun i => set_info_offset (set_cell (info_offset i) set v) i) state) in
  let state := if IPT_UI_UP input then put (offs state - xcells) state else state in
  let state := if IPT_UI_DOWN input then put (offs state + xcells) state else state in
  let state := if IPT_UI_PAGE_UP input then put (offs state - xcells * ycells) state else state in
  let state := if IPT_UI_PAGE_DOWN input then put (offs state + xcells * ycells) state else state in
  let state := if IPT_UI_HOME input then put 0 state else state in
  let state := if IPT_UI_END input then put elements state else state in
  rows ← div_int (elements + xcells - 1) xcells;
  let state :=
    if rows * xcells <? offs state + xcells * ycells
    then put (rows * xcells - xcells * ycells) state else state in
  Some (if offs state <? 0 then put 0 state else state).

(** "handle color selection (left,right)" and "clamp within range". *)
Definition gfxset_color (input : ui_input) (dev set : Z) (state : ui_gfx_state)
    : ui_gfx_state :=
  let color state := cell (info_color (info_of state dev)) set in
  let put v state :=
    set_bitmap_dirty true
      (upd_gfxdev dev (fun i => set_info_color (set_cell (info_color i) set v) i) state) in
  let state := if IPT_UI_LEFT input then put (color state - 1) state else state in
  let state := if IPT_UI_RIGHT input then put (color state + 1) state else state in
  let state :=
    if cell (info_color_count (info_of state dev)) set <=? color state
    then put (cell (info_color_count (info_of state dev)) set - 1) state else state in
  if color state <? 0 then put 0 state else state.

(** [gfxset_handle_keys].  The accessors of the graphics element return
    [int] here. *)
Definition gfxset_handle_keys (input : ui_input) (xcells ycells : Z) (state : ui_gfx_state)
    : option ui_gfx_state :=
  let state := gfxset_select input state in
  (* cache some info in locals *)
  let dev := gs_devindex (gfxset state) in
  let set := gs_set (gfxset state) in
  interface ← info_interface (info_of state dev);
  g ← gfx interface set;
  let state := gfxset_zoom input xcells dev set state in
  let state := gfxset_rotate input dev set state in
  state ← gfxset_scroll input xcells ycells (gfx_elements g) dev set state;
  let state := gfxset_color input dev set state in
  Some (if IPT_UI_SNAPSHOT input then set_save true state else state).



(** The recorded colour count of set [set] of device [dev]. *)
Definition color_count_of (state : ui_gfx_state) (dev set : Z) : Z :=
  cell (info_color_count (info_of state dev)) set.

(** The selected colour of set [set] of device [dev]. *)
Definition color_of (state : ui_gfx_state) (dev set : Z) : Z :=
  cell (info_color (info_of state dev)) set.


(** The shape of the per-device tables: [MAX_GFX_DECODERS] devices, each with
    tables of [MAX_GFX_ELEMENTS] cells. *)
Definition tables_ok (state : ui_gfx_state) : Prop :=
  length (gfxdev state) = Z.to_nat MAX_GFX_DECODERS
  /\ forall dev, 0 <= dev < MAX_GFX_DECODERS ->
       length (info_color_count (info_of state dev)) = Z.to_nat MAX_GFX_ELEMENTS
       /\ length (info_color (info_of state dev)) = Z.to_nat MAX_GFX_ELEMENTS
       /\ length (info_palette (info_of state dev)) = Z.to_nat MAX_GFX_ELEMENTS.

(** A write to a device table that keeps the colour counts, the set count
    and the table sizes. *)
Definition keeps_counts (f : ui_gfx_info -> ui_gfx_info) : Prop :=
  forall i, info_color_count (f i) = info_color_count i
            /\ info_setcount (f i) = info_setcount i
            /\ info_interface (f i) = info_interface i
            /\ length (info_color (f i)) = length (info_color i)
            /\ length (info_palette (f i)) = length (info_palette i).

(** An enumerated device: it has between 1 and [MAX_GFX_ELEMENTS] sets, and
    its interface holds a graphics element in each of them. *)
Definition device_ok (state : ui_gfx_state) (dev : Z) : Prop :=
  1 <= info_setcount (info_of state dev) <= MAX_GFX_ELEMENTS
  /\ exists interface, info_interface (info_of state dev) = Some interface
       /\ forall set, 0 <= set < info_setcount (info_of state dev) ->
             is_Some (gfx interface set).





(** [state'] differs from [state] by writes to device tables that keep the
    colour counts, set counts, interfaces and table sizes, and by flags. *)
Definition view_preserved (state state' : ui_gfx_state) : Prop :=
  gfxset state' = gfxset state
  /\ (tables_ok state -> tables_ok state')
  /\ forall d, 0 <= d ->
       info_color_count (info_of state' d) = info_color_count (info_of state d)
       /\ info_setcount (info_of state' d) = info_setcount (info_of state d)
       /\ info_interface (info_of state' d) = info_interface (info_of state d).


End Viewer.

(** ** Snapshot export *)

Section SnapshotExport.
Context {engine : Engine} {host : FileHost}.

(** An export run threads the viewer state, the disk and the list of what
    it did to the outside world. *)
Record world := World {
  w_state : ui_gfx_state;
  w_files : files;
  w_log : list export_event
}.

Definition on_state (f : ui_gfx_state -> ui_gfx_state) (w : world) : world :=
  World (f (w_state w)) (w_files w) (w_log w).

Definition emit (ev : export_event) (w : world) : world :=
  World (w_state w) (w_files w) (w_log w ++ [ev]).

Definition default_snapname : string := "%g/%i".

(** [open_next_file], the loop over the image devices in the branch of a
    single "%d_": one device. *)
Definition snap_image (snapdevname : string) (pos : Z) (image : device_image_interface)
    (acc : string * Z) : option (string * Z) :=
  let '(snapstr, name_found) := acc in
  if String.eqb snapdevname (brief_instance_name image) then
    match image_basename image with
    | Some filename =>
        let filename := substr filename 0 (find_last_of filename ".") in
        snapstr ← erase (strreplace snapstr snapdevname filename) pos 3;
        Some (snapstr, 1)
    | None => Some acc
    end
  else Some acc.

(** [open_next_file], "strip any extension in the provided name": the
    template up to its last dot. *)
Definition strip_extension (snapstr : string) : string :=
  let index := find_last_of snapstr "." in
  if index =? -1 then snapstr else substr snapstr 0 index.

(** [open_next_file], lines 1749 to 1833: the name template with its
    extension, path separators and game name in place.  [None] is the
    [fatalerror] or an exception of std::string. *)
Definition open_next_file_template (machine : running_machine) (extension : string)
    : option string :=
  let snapname :=
    match snap_name machine with
    | None => default_snapname
    | Some EmptyString => default_snapname
    | Some s => s
    end in
  let snapstr := strip_extension snapname in
  let snapdev := "%d_"%string in
  let pos := find snapstr snapdev 0 in
  snapstr ←
    (if pos =? -1 then Some snapstr
     else if negb (find snapstr snapdev (pos + 3) =? -1) then Some default_snapname
     else
       let end1 := find snapstr "/" (pos + 3) in
       let end2 := find snapstr "%" (pos + 3) in
       let end_ :=
         if negb (end1 =? -1) && negb (end2 =? -1) then Z.min end1 end2
         else if negb (end1 =? -1) then end1
         else if negb (end2 =? -1) then end2
         else str_length snapstr in
       if end_ - pos <? 3 then None
       else
         let snapdevname := substr snapstr (pos + 3) (end_ - pos - 3) in
         '(snapstr, name_found) ←
           for_each (image_interfaces machine) (snap_image snapdevname pos) (snapstr, 0);
         Some (if name_found =? 0 then default_snapname else snapstr));
  let snapstr := snapstr +:+ "." +:+ extension in
  let snapstr := strreplace snapstr "/" PATH_SEPARATOR in
  let snapstr := strreplace snapstr "%g" (machine_basename machine) in
  Some snapstr.

(** [open_next_file]: the template, then the scan for the next free number
    and the final [file.open], which are the host's. *)
Definition open_next_file (machine : running_machine) (basename : formatted)
    (extension : string) (w : world) : option (bool * world) :=
  snapstr ← open_next_file_template machine extension;
  let '(opened, disk) := open_numbered (w_files w) snapstr basename in
  Some (opened, World (w_state w) disk (w_log w ++ [EvOpen basename extension opened])).

(** The message of [gfxset_save_snapshot] when the encoder fails. *)
Definition png_error_message (error : Z) : formatted :=
  sprintf "Error generating PNG for snapshot: png_error = %d\n" [ArgInt error].

(** [gfxset_save_snapshot] and [gfxset_save_snapshot_ind16], which differ in
    the pixel type of the bitmap only. *)
Definition gfxset_save_snapshot (image : bitmap) (entries : Z) (pal : list Z) (w : world)
    : world :=
  let '(error, disk) := png_write_bitmap (w_files w) image entries pal in
  let w := World (w_state w) disk (w_log w ++ [EvPng image entries pal error]) in
  if error =? 0 then w else emit (EvPrintf (png_error_message error)) w.

Definition gfxset_save_snapshot_ind16 := gfxset_save_snapshot.

(** [gfxset_update_save_bitmap]. *)
Definition gfxset_update_save_bitmap (dest : bitmap) (state : ui_gfx_state)
    (xcells ycells : Z) (g : gfx_element) : option bitmap :=
  let dev := gs_devindex (gfxset state) in
  let set := gs_set (gfxset state) in
  let info := cell (gfxdev state) dev in
  let cellxpix := if flag (cell (info_rotate info) set) ORIENTATION_SWAP_XY
                  then gfx_height g else gfx_width g in
  let cellypix := if flag (cell (info_rotate info) set) ORIENTATION_SWAP_XY
                  then gfx_width g else gfx_height g in
  let dest := bitmap_allocate (cellxpix * xcells) (cellypix * ycells) (bitmap_reset dest) in
  update_bitmap_rows gfxset_draw_save_item info set xcells ycells cellxpix cellypix g dest.

(** [gfxset_handle_save]: the file name of an instance and the message when
    it is saved. *)
Definition gfxset_filename (set : Z) (g : gfx_element) (color : Z) : formatted :=
  sprintf "gfxset%d tiles %dx%d colors %d set %X"
    [ArgInt set; ArgInt (gfx_width g); ArgInt (gfx_height g); ArgInt (gfx_colors g);
     ArgInt color].

Definition gfxset_saved (set setcount : Z) (g : gfx_element) (color : Z) : formatted :=
  sprintf "Saved gfxset %d of %d colours %d set %d, %dx%d tiles %d items\n"
    [ArgInt (set + 1); ArgInt setcount; ArgInt (gfx_colors g); ArgInt color;
     ArgInt (gfx_width g); ArgInt (gfx_height g); ArgInt (gfx_elements g)].

(** [gfxset_handle_save]: the body of the loop over the colours of a set.
    [image] is the local [bitmap], [gpal] is [gfx.palette()]. *)
Definition gfxset_save_color (machine : running_machine) (dev set : Z) (g : gfx_element)
    (gpal : palette_device) (xcells ycells num_colors : Z) (color : Z)
    (acc : bitmap * world) : option (bitmap * world) :=
  let '(image, w) := acc in
  let state := w_state w in
  let state := upd_gfxset (set_gs_set (u8 set)) state in
  let state :=
    upd_gfxdev dev (fun info => set_info_color (set_cell (info_color info) set color) info)
      state in
  image ← gfxset_update_save_bitmap image state xcells ycells g;
  let state := upd_palette (set_pal_which 0) state in
  let state := upd_palette (set_pal_devindex 0) state in
  let state := palette_set_device machine state in
  let pal := drop (Z.to_nat (gfx_colorbase g + color * gfx_granularity g))
               (pal_entry_list_raw gpal) in
  let filename := gfxset_filename set g color in
  '(opened, w) ← open_next_file machine filename "png" (World state (w_files w) (w_log w));
  if (opened : bool) then
    let w := gfxset_save_snapshot image num_colors pal w in
    let info := cell (gfxdev (w_state w)) dev in
    Some (image, emit (EvPrintf (gfxset_saved set (info_setcount info) g color)) w)
  else Some (image, w).

(** [gfxset_handle_save]: the body of the loop over the sets. *)
Definition gfxset_save_set (machine : running_machine) (dev : Z)
    (interface : device_gfx_interface) (set : Z) (acc : bitmap * world)
    : option (bitmap * world) :=
  let '(image, w) := acc in
  g ← gfx interface set;
  let xcells := 32 in
  let ycells := (gfx_elements g + xcells - 1) ÷ xcells in
  let maxcolors := if 32 <? gfx_colors g then 32 else gfx_colors g in
  gpal ← gfx_palette g;
  let w := if 0 <? pal_indirect_entries gpal
           then on_state (upd_palette (set_pal_which 1)) w else w in
  let num_colors := if pal_which (palette (w_state w)) =? 0
                    then pal_entries gpal else pal_indirect_entries gpal in
  for_each (seqZ 0 maxcolors) (gfxset_save_color machine dev set g gpal xcells ycells num_colors)
    (image, w).

Definition gfxset_finished : formatted := sprintf "Finished saving gfxsets\n" [].

(** [gfxset_handle_save]. *)
Definition gfxset_handle_save (machine : running_machine) (w : world) : option world :=
  let dev := gs_devindex (gfxset (w_state w)) in
  let info := cell (gfxdev (w_state w)) dev in
  interface ← info_interface info;
  let image := {| bm_valid := false; bm_width := 0; bm_height := 0; bm_pix := ∅ |} in
  '(_, w) ← for_each (seqZ 0 (info_setcount info)) (gfxset_save_set machine dev interface)
              (image, w);
  Some (emit (EvPrintf gfxset_finished) w).

(** ** Palette export *)

(** The byte of a pen at [shift]: [pen >> shift & 0x000000FF]. *)
Definition pen_byte (pen shift : Z) : Z := Z.land (Z.shiftr (u32 pen) shift) 255.

(** [palette_handle_save]: the pen of entry [index]. *)
Definition palette_pen (p : palette_device) (which index : Z) : Z :=
  if which =? 0 then cell (pal_entry_list_raw p) index
  else cell (pal_indirect_color p) index.

(** [palette_handle_save]: the lines of the text file after its header. *)
Definition palette_save_text (p : palette_device) (which total columns size_x size_y : Z)
    (w : world) : world :=
  foldl (fun w y =>
    foldl (fun w x =>
      let index := y * columns + x in
      if index <? total then
        let pen := palette_pen p which index in
        emit (EvPuts (sprintf "%d,%d,%d,%d\n"
                        [ArgInt (pen_byte pen 16); ArgInt (pen_byte pen 8);
                         ArgInt (pen_byte pen 0); ArgInt (pen_byte pen 24)])) w
      else w) w (seqZ 0 size_x)) w (seqZ 0 size_y).

(** [palette_handle_save]: the image of 8x8 swatches.  The source addresses
    the pixel of swatch (x, y) at (x1, y1) as
    [dest[((y * 8) + y1) * image_width + (x * 8) + x1]]. *)
Definition palette_save_image (p : palette_device) (which total columns size_x size_y : Z)
    : bitmap :=
  let image_width := size_x * 8 in
  let image_height := size_y * 8 in
  let img := bitmap_allocate image_width image_height
               {| bm_valid := false; bm_width := 0; bm_height := 0; bm_pix := ∅ |} in
  foldl (fun img y =>
    foldl (fun img x =>
      let index := y * columns + x in
      if index <? total then
        let pen := palette_pen p which index in
        foldl (fun img y1 =>
          foldl (fun img x1 => bitmap_put (x * 8 + x1) (y * 8 + y1) pen img)
            img (seqZ 0 8)) img (seqZ 0 8)
      else img) img (seqZ 0 size_x)) img (seqZ 0 size_y).

(** [palette_handle_save]: [paltype], the file name of an instance and the
    message when it is saved. *)
Definition palette_paltype (p : palette_device) (which : Z) : string :=
  if 0 <? pal_indirect_entries p
  then (if which =? 0 then "pens "%string else "colors "%string)
  else EmptyString.

Definition palette_total_of (p : palette_device) (which : Z) : Z :=
  if which =? 0 then pal_entries p else pal_indirect_entries p.

Definition palette_filename (palidx : Z) (p : palette_device) (which : Z) : formatted :=
  sprintf "palette%d %s%d"
    [ArgInt palidx; ArgStr (palette_paltype p which); ArgInt (palette_total_of p which)].

Definition palette_saved (palidx devcount : Z) (p : palette_device) (which : Z) : formatted :=
  sprintf "Saved palette %s%d of %d \n"
    [ArgStr (palette_paltype p which); ArgInt (palidx + 1); ArgInt devcount].

(** [palette_handle_save]: the body of the loop over the palette devices.
    The local [palette] pointer is carried along with the world. *)
Definition palette_save_device (machine : running_machine) (palidx : Z)
    (acc : option palette_device * world) : option (option palette_device * world) :=
  let '(_, w) := acc in
  let state := upd_palette (set_pal_devindex palidx) (w_state w) in
  let state := palette_set_device machine state in
  let pal := pal_interface (palette state) in
  p ← pal;
  let which := pal_which (palette state) in
  let total := palette_total_of p which in
  let raw_color := pal_entry_list_raw p in
  let filename := palette_filename palidx p which in
  '(opened, w) ← open_next_file machine filename "txt" (World state (w_files w) (w_log w));
  if (opened : bool) then
    let columns := pal_columns (palette (w_state w)) in
    let w := emit (EvPuts (sprintf "%d\t\t# total colors\n" [ArgInt total])) w in
    let w := emit (EvPuts (sprintf "%d\t\t# column width\n" [ArgInt columns])) w in
    let w := emit (EvPuts (sprintf "# palette data r,g,b,a\n" [])) w in
    size_y ← div_int (total + columns - 1) columns;
    let size_x := columns in
    let w := palette_save_text p which total columns size_x size_y w in
    '(opened, w) ← open_next_file machine filename "png" w;
    let w :=
      if (opened : bool) then
        gfxset_save_snapshot (palette_save_image p which total columns size_x size_y)
          total raw_color w
      else w in
    Some (pal,
          emit (EvPrintf (palette_saved palidx (pal_devcount (palette (w_state w))) p which))
            w)
  else Some (pal, w).

(** [palette_handle_save]: the loop over the palette devices. *)
Definition palette_save_pass (machine : running_machine) (acc : option palette_device * world)
    : option (option palette_device * world) :=
  for_each (seqZ 0 (pal_devcount (palette (w_state acc.2)))) (palette_save_device machine) acc.

Definition palette_finished : formatted := sprintf "Finished saving palettes\n" [].

(** [palette_handle_save]: the pass over the pens ([w == 0]), then, when the
    palette the local pointer is left on has indirect colours, the pass over
    the colours ([w == 1]). *)
Definition palette_handle_save (machine : running_machine) (w : world) : option world :=
  let pal := pal_interface (palette (w_state w)) in
  let w := on_state (upd_palette (set_pal_which 0)) w in
  '(pal, w) ← palette_save_pass machine (pal, w);
  p ← pal;
  w ← (if 0 <? pal_indirect_entries p then
         '(_, w) ← palette_save_pass machine (pal, on_state (upd_palette (set_pal_which 1)) w);
         Some w
       else Some w);
  Some (emit (EvPrintf palette_finished) w).

(** ** Tilemap export *)

(** [tilemap_handle_save]: the file name of an instance and the message when
    it is saved. *)
Definition tilemap_filename (map count mapwidth mapheight : Z) : formatted :=
  sprintf "tilemap_%d_of_%d_size_%dx%d"
    [ArgInt map; ArgInt (count - 1); ArgInt mapwidth; ArgInt mapheight].

Definition tilemap_saved (map count mapwidth mapheight : Z) : formatted :=
  sprintf "Saved tilemap %d of %d size %dx%d\n"
    [ArgInt (map + 1); ArgInt count; ArgInt mapwidth; ArgInt mapheight].

(** [tilemap_handle_save]: the body of the loop over the tilemaps. *)
Definition tilemap_save_map (machine : running_machine) (map : Z) (w : world) : option world :=
  t ← tilemap_find machine map;
  let mapwidth := u32 (tmap_width t) in
  let mapheight := u32 (tmap_height t) in
  let '(mapwidth, mapheight) :=
    if flag (tm_rotate (tilemap (w_state w))) ORIENTATION_SWAP_XY
    then (mapheight, mapwidth) else (mapwidth, mapheight) in
  let filename := tilemap_filename map (tilemap_count machine) mapwidth mapheight in
  '(opened, w) ← open_next_file machine filename "png" w;
  if (opened : bool) then
    let w := gfxset_save_snapshot_ind16 (tmap_pixmap t) (pal_entries (tmap_palette t))
               (pal_entry_list_raw (tmap_palette t)) w in
    Some (emit (EvPrintf (tilemap_saved map (tilemap_count machine) mapwidth mapheight)) w)
  else Some w.

Definition tilemap_finished : formatted := sprintf "Saving tilemaps finished\n" [].

(** [tilemap_handle_save]. *)
Definition tilemap_handle_save (machine : running_machine) (w : world) : option world :=
  w ← for_each (seqZ 0 (tilemap_count machine)) (tilemap_save_map machine) w;
  Some (emit (EvPrintf tilemap_finished) w).

(** ** The save request *)

(** [if (state.save == true) { handle_save(...); state.save = false; }]. *)
Definition save_if_requested (handle_save : world -> option world) (w : world) : option world :=
  if save (w_state w) then
    w ← handle_save w;
    Some (on_state (set_save false) w)
  else Some w.

(** [ui_gfx_ui_handler]: the [switch] on the mode up to the call of the
    mode's display handler.  A mode without content falls through to the next
    one, and from the tilemap case back to the palette case ([goto again]);
    [again] bounds these returns.  The handler enters the switch only when
    [ui_gfx_is_relevant] holds, that is when one of the three modes has
    content. *)
Fixpoint ui_gfx_switch (again : nat) (machine : running_machine) (w : world) : option world :=
  let case_tilemap w :=
    if 0 <? tilemap_count machine then save_if_requested (tilemap_handle_save machine) w
    else
      match again with
      | O => None
      | S again => ui_gfx_switch again machine (on_state (set_mode UI_GFX_PALETTE) w)
      end in
  let case_gfxset w :=
    if 0 <? gs_devcount (gfxset (w_state w))
    then save_if_requested (gfxset_handle_save machine) w
    else case_tilemap (on_state (fun s => set_mode (u8 (mode s + 1)) s) w) in
  let case_palette w :=
    if 0 <? pal_devcount (palette (w_state w))
    then save_if_requested (palette_handle_save machine) w
    else case_gfxset (on_state (fun s => set_mode (u8 (mode s + 1)) s) w) in
  let m := mode (w_state w) in
  if m =? UI_GFX_PALETTE then case_palette w
  else if m =? UI_GFX_GFXSET then case_gfxset w
  else if m =? UI_GFX_TILEMAP then case_tilemap w
  else Some w.

(** ** Statements about an export run *)

(** The files a run tried to open, in order. *)
Definition attempts (log : list export_event) : list (formatted * string) :=
  omap (fun ev => match ev with EvOpen name ext _ => Some (name, ext) | _ => None end) log.

(** The events of [gfxset_save_snapshot]. *)
Definition encoder_events (image : bitmap) (entries : Z) (colors : list Z) (error : Z)
    : list export_event :=
  EvPng image entries colors error
  :: (if error =? 0 then [] else [EvPrintf (png_error_message error)]).

(** The instances of a graphics-set export: set, element and colour. *)
Definition gfxset_export_instances (interface : device_gfx_interface) (setcount : Z)
    : list (Z * gfx_element * Z) :=
  set ← seqZ 0 setcount;
  match gfx interface set with
  | Some g => (fun color => (set, g, color)) <$> seqZ 0 (Z.min (gfx_colors g) 32)
  | None => []
  end.

(** The events of one graphics-set instance: the failed open and nothing
    else, or the open, the encoder on a raster of 32 cells by the rows the
    elements need, and the message. *)
Definition gfxset_instance_events (state : ui_gfx_state) (instance : Z * gfx_element * Z)
    (events : list export_event) : Prop :=
  let '(set, g, color) := instance in
  let info := info_of state (gs_devindex (gfxset state)) in
  let rotate := cell (info_rotate info) set in
  let name := gfxset_filename set g color in
  events = [EvOpen name "png" false]
  \/ exists image entries error,
       bitmap_shape image
       = (true, cell_width (gfx_width g) (gfx_height g) rotate * 32,
          cell_height (gfx_width g) (gfx_height g) rotate * ((gfx_elements g + 32 - 1) ÷ 32))
       /\ events
          = EvOpen name "png" true
            :: encoder_events image entries
                 (drop (Z.to_nat (gfx_colorbase g + color * gfx_granularity g))
                    (from_option pal_entry_list_raw [] (gfx_palette g))) error
            ++ [EvPrintf (gfxset_saved set (info_setcount info) g color)].

(** The instances of a palette export: subset, device index and device.  The
    second pass runs when the last device has indirect colours. *)
Definition palette_pass_instances (machine : running_machine) (devcount which : Z)
    : list (Z * Z * palette_device) :=
  omap (fun palidx => (fun p => (which, palidx, p)) <$> byindex machine palidx)
    (seqZ 0 devcount).

Definition palette_export_instances (machine : running_machine) (devcount : Z)
    : list (Z * Z * palette_device) :=
  palette_pass_instances machine devcount 0
  ++ match byindex machine (devcount - 1) with
     | Some p =>
         if 0 <? pal_indirect_entries p then palette_pass_instances machine devcount 1 else []
     | None => []
     end.

Definition is_puts (ev : export_event) : Prop :=
  match ev with EvPuts _ => True | _ => False end.

(** The events of one palette instance: the failed open of the text file and
    nothing else, or the text file, the attempt on the image file, and the
    message. *)
Definition palette_instance_events (devcount : Z) (instance : Z * Z * palette_device)
    (events : list export_event) : Prop :=
  let '(which, palidx, p) := instance in
  let name := palette_filename palidx p which in
  events = [EvOpen name "txt" false]
  \/ exists lines tail,
       Forall is_puts lines
       /\ events = EvOpen name "txt" true :: lines ++ tail
                   ++ [EvPrintf (palette_saved palidx devcount p which)]
       /\ (tail = [EvOpen name "png" false]
           \/ exists image error,
                tail = EvOpen name "png" true
                       :: encoder_events image (palette_total_of p which)
                            (pal_entry_list_raw p) error).

(** The instances of a tilemap export. *)
Definition tilemap_export_instances (machine : running_machine) : list (Z * tilemap_t) :=
  omap (fun map => (fun t => (map, t)) <$> tilemap_find machine map)
    (seqZ 0 (tilemap_count machine)).

Definition tilemap_instance_events (machine : running_machine) (state : ui_gfx_state)
    (instance : Z * tilemap_t) (events : list export_event) : Prop :=
  let '(map, t) := instance in
  let '(mapwidth, mapheight) :=
    if flag (tm_rotate (tilemap state)) ORIENTATION_SWAP_XY
    then (u32 (tmap_height t), u32 (tmap_width t))
    else (u32 (tmap_width t), u32 (tmap_height t)) in
  let count := tilemap_count machine in
  let name := tilemap_filename map count mapwidth mapheight in
  events = [EvOpen name "png" false]
  \/ exists error,
       events = EvOpen name "png" true
                :: encoder_events (tmap_pixmap t) (pal_entries (tmap_palette t))
                     (pal_entry_list_raw (tmap_palette t)) error
                ++ [EvPrintf (tilemap_saved map count mapwidth mapheight)].

(** What an export leaves as it was: the flags, the raster cache (bitmap,
    texture, dirty flag), the tilemap view, the graphics device, the palette
    layout and, of every device, all but the selected colours. *)
Definition export_kept (state state' : ui_gfx_state) : Prop :=
  started state' = started state
  /\ mode state' = mode state
  /\ save state' = save state
  /\ bitmap_dirty state' = bitmap_dirty state
  /\ st_bitmap state' = st_bitmap state
  /\ st_texture state' = st_texture state
  /\ tilemap state' = tilemap state
  /\ gs_devcount (gfxset state') = gs_devcount (gfxset state)
  /\ gs_devindex (gfxset state') = gs_devindex (gfxset state)
  /\ pal_devcount (palette state') = pal_devcount (palette state)
  /\ pal_columns (palette state') = pal_columns (palette state)
  /\ pal_offset (palette state') = pal_offset (palette state)
  /\ forall d, 0 <= d ->
       info_interface (info_of state' d) = info_interface (info_of state d)
       /\ info_setcount (info_of state' d) = info_setcount (info_of state d)
       /\ info_rotate (info_of state' d) = info_rotate (info_of state d)
       /\ info_columns (info_of state' d) = info_columns (info_of state d)
       /\ info_offset (info_of state' d) = info_offset (info_of state d)
       /\ info_palette (info_of state' d) = info_palette (info_of state d)
       /\ info_color_count (info_of state' d) = info_color_count (info_of state d).

(** The name template of the machine can be filled in. *)
Definition template_ok (machine : running_machine) : Prop :=
  forall extension, is_Some (open_next_file_template machine extension).

(** The current graphics device can be exported: its interface is set, its
    set counter is a [uint8_t], and each of its sets exists, has a palette of
    its own and a palette recorded at enumeration. *)
Definition gfxset_export_ready (state : ui_gfx_state) : Prop :=
  let dev := gs_devindex (gfxset state) in
  let info := info_of state dev in
  0 <= dev
  /\ 0 <= info_setcount info <= 255
  /\ exists interface,
       info_interface info = Some interface
       /\ forall set, 0 <= set < info_setcount info ->
            is_Some (cell (info_palette info) set)
            /\ exists g, gfx interface set = Some g /\ is_Some (gfx_palette g).

(** The palettes can be exported: there is one, each counted device exists,
    and the column count is not zero. *)
Definition palette_export_ready (machine : running_machine) (state : ui_gfx_state) : Prop :=
  0 < pal_devcount (palette state)
  /\ pal_columns (palette state) <> 0
  /\ forall palidx, 0 <= palidx < pal_devcount (palette state) ->
       is_Some (byindex machine palidx).

(** The instances a graphics-set export of [state] goes through: those of
    the device [state.gfxset.devindex]. *)
Definition gfxset_current_instances (state : ui_gfx_state) : list (Z * gfx_element * Z) :=
  let info := info_of state (gs_devindex (gfxset state)) in
  match info_interface info with
  | Some interface => gfxset_export_instances interface (info_setcount info)
  | None => []
  end.

(** The file of a graphics-set instance. *)
Definition gfxset_instance_file (instance : Z * gfx_element * Z) : formatted * string :=
  let '(set, g, color) := instance in (gfxset_filename set g color, "png"%string).

(** ** Statements about the name template *)

(** The template [s] holds the device token twice. *)
Definition has_two_tokens (s : string) : Prop :=
  exists a b c, s = a +:+ "%d_" +:+ b +:+ "%d_" +:+ c.

(** What [open_next_file] makes of the default template. *)
Definition default_template_name (machine : running_machine) (extension : string) : string :=
  strreplace (strreplace (default_snapname +:+ "." +:+ extension) "/" PATH_SEPARATOR)
    "%g" (machine_basename machine).

(** The machine with another [snap_name] option. *)
Definition set_snap_name (v : option string) (machine : running_machine) : running_machine :=
  {| palette_interfaces := palette_interfaces machine;
     gfx_interfaces := gfx_interfaces machine;
     tilemaps := tilemaps machine;
     first_screen := first_screen machine;
     snap_name := v;
     machine_basename := machine_basename machine;
     image_interfaces := image_interfaces machine |}.

End SnapshotExport.

(** ** More of the viewer *)

Section ViewerExtras.
Context {engine : Engine} {host : FileHost}.



(** [ui_gfx_is_relevant]: the answer and the state, which is enumerated on
    the first call. *)
Definition ui_gfx_is_relevant (machine : running_machine) (state : ui_gfx_state)
    : option (bool * ui_gfx_state) :=
  state ← (if negb (started state) then ui_gfx_count_devices machine state else Some state);
  Some ((0 <? pal_devcount (palette state)) || (0 <? gs_devcount (gfxset state))
        || (0 <? tilemap_count machine), state).

(** Whether the mode [m] has something to show: the tests of the three cases
    of the [switch] in [ui_gfx_ui_handler]. *)
Definition mode_has_content (machine : running_machine) (state : ui_gfx_state) (m : Z) : bool :=
  if m =? UI_GFX_PALETTE then 0 <? pal_devcount (palette state)
  else if m =? UI_GFX_GFXSET then 0 <? gs_devcount (gfxset state)
  else if m =? UI_GFX_TILEMAP then 0 <? tilemap_count machine
  else false.

(** The first mode with content from [m] on, in the order palette, graphics
    sets, tilemaps and round again. *)
Definition next_mode_with_content (machine : running_machine) (state : ui_gfx_state) (m : Z)
    : Z :=
  if mode_has_content machine state m then m
  else if mode_has_content machine state ((m + 1) mod 3) then (m + 1) mod 3
  else (m + 2) mod 3.

(** The mode the viewer is in can be exported. *)
Definition switch_ready (machine : running_machine) (state : ui_gfx_state) : Prop :=
  (mode state = UI_GFX_PALETTE /\ palette_export_ready machine state)
  \/ (mode state = UI_GFX_GFXSET /\ 0 < gs_devcount (gfxset state)
      /\ gfxset_export_ready state)
  \/ (mode state = UI_GFX_TILEMAP /\ 0 < tilemap_count machine).

(** The line of the palette text file for the entry [index]. *)
Definition palette_line (p : palette_device) (which index : Z) : export_event :=
  let pen := palette_pen p which index in
  EvPuts (sprintf "%d,%d,%d,%d\n"
            [ArgInt (pen_byte pen 16); ArgInt (pen_byte pen 8);
             ArgInt (pen_byte pen 0); ArgInt (pen_byte pen 24)]).

(** The tilemaps of the machine have sizes for which [int] offsets cannot
    overflow by the steps of one frame. *)
Definition tilemaps_sized (machine : running_machine) : Prop :=
  Forall (fun t => 0 < tmap_width t <= 2 ^ 31 - 64 /\ 0 < tmap_height t <= 2 ^ 31 - 64)
    (tilemaps machine).

(** The tilemap view looks at an existing tilemap, at a zoom level between
    0 (automatic) and 8, from an offset inside the tilemap. *)
Definition tilemap_view_ok (machine : running_machine) (state : ui_gfx_state) : Prop :=
  0 <= tm_zoom (tilemap state) <= 8
  /\ exists t, tilemap_find machine (tm_which (tilemap state)) = Some t
       /\ 0 <= tm_which (tilemap state) < tilemap_count machine
       /\ 0 <= tm_xoffs (tilemap state) < tmap_width t
       /\ 0 <= tm_yoffs (tilemap state) < tmap_height t.

(** The pixel that [gfxset_draw_item] writes for the position [(x, y)] of the
    cell of element [index]: "compute effective x,y values after rotation"
    and "extract the pixel", [0xff000000 | palette[s[effx]]]. *)
Definition item_pixel (g : gfx_element) (index color rotate : Z) (p : palette_device)
    (x y : Z) : Z :=
  let '(effx, effy) := gfxset_draw_item_eff (gfx_width g) (gfx_height g) rotate x y in
  let palette_base := gfx_colorbase g + color * gfx_granularity g in
  let s := cell (gfx_get_data g index) (effy * gfx_rowbytes g + effx) in
  Z.lor 4278190080 (cell (pal_entry_list_raw p) (palette_base + s)).

(** What the title of the graphics view says about the pixel under the
    pointer: [" #%X:%X @ %d,%d = %X"]. *)
Record hover_info := {
  hov_code : Z;
  hov_color : Z;
  hov_xpixel : Z;
  hov_ypixel : Z;
  hov_pen : Z
}.

(** [gfxset_handler], "if the mouse pointer is over a pixel in a tile".  The
    pointer position comes in as the four integers the code derives from it:
    [cellx = int((mouse_x - cellboxbounds.x0) / cellwidth)] and
    [subx = int((mouse_x - cellboxbounds.x0) / (cellwidth / cellxpix))], and
    [celly], [suby] likewise.  [None] when no pixel is found.  The cell sizes
    are at least 1, the sizes of an element being unsigned. *)
Definition gfxset_handler_hover (info : ui_gfx_info) (set xcells : Z) (g : gfx_element)
    (cellx celly subx suby : Z) : option hover_info :=
  let rotate := cell (info_rotate info) set in
  let cellxpix := 1 + (if flag rotate ORIENTATION_SWAP_XY then gfx_height g else gfx_width g) in
  let cellypix := 1 + (if flag rotate ORIENTATION_SWAP_XY then gfx_width g else gfx_height g) in
  let code := cell (info_offset info) set + cellx + celly * xcells in
  let xpixel := Z.rem subx cellxpix in
  let ypixel := Z.rem suby cellypix in
  if (code <? gfx_elements g) && (xpixel <? cellxpix - 1) && (ypixel <? cellypix - 1) then
    let '(xpixel, ypixel) :=
      gfxset_handler_hover_eff (gfx_width g) (gfx_height g) rotate xpixel ypixel in
    let pixdata := cell (gfx_get_data g code) (xpixel + ypixel * gfx_rowbytes g) in
    Some {| hov_code := code; hov_color := cell (info_color info) set;
            hov_xpixel := xpixel; hov_ypixel := ypixel;
            hov_pen := gfx_colorbase g + cell (info_color info) set * gfx_granularity g
                       + pixdata |}
  else None.

(** The devices that [ui_gfx_count_devices] keeps: "count the gfx sets in
    each device, skipping devices with none", until [MAX_GFX_DECODERS] of
    them are found. *)
Definition counted_interfaces (machine : running_machine) : list device_gfx_interface :=
  take (Z.to_nat MAX_GFX_DECODERS)
    (filter (fun interface => 0 < count_gfx_sets (Z.to_nat MAX_GFX_ELEMENTS) interface 0)
       (gfx_interfaces machine)).

(** The tables of a device that belong to the view: the enumeration leaves
    them as [ui_gfx_init] set them. *)
Definition view_tables (info : ui_gfx_info) : list Z * list Z * list Z * list Z :=
  (info_rotate info, info_columns info, info_offset info, info_color info).

(** What [ui_gfx_count_devices] records for the device [interface] that it
    lists at index [d]: the interface, the number of its sets, and for each
    set its own palette or else [palette0]. *)
Definition device_recorded (palette0 : option palette_device) (state : ui_gfx_state) (d : Z)
    (interface : device_gfx_interface) : Prop :=
  info_interface (info_of state d) = Some interface
  /\ info_setcount (info_of state d)
     = count_gfx_sets (Z.to_nat MAX_GFX_ELEMENTS) interface 0
  /\ forall s, 0 <= s < info_setcount (info_of state d) ->
       exists g, gfx interface s = Some g
         /\ cell (info_palette (info_of state d)) s
            = (if has_palette g then gfx_palette g else palette0)
         /\ is_Some (cell (info_palette (info_of state d)) s).

(** The palette that [ui_gfx_count_devices] records for a set: its own, or
    else the palette the palette view starts on. *)
Definition recorded_palette (machine : running_machine) (g : gfx_element)
    : option palette_device :=
  if has_palette g then gfx_palette g else head (palette_interfaces machine).

(** [gfxset_handler], the part that changes the state: the layout, the
    redraw and the keys, in the order of the code.  The title, the headers
    and the quad that it adds to the container only go to the screen.
    [cellboxwidth] and [cellboxheight] are the pixel sizes obtained from the
    font metrics. *)
Definition gfxset_handler (cellboxwidth cellboxheight : Z) (input : ui_input)
    (rs : render_manager * ui_gfx_state) : option (render_manager * ui_gfx_state) :=
  let '(rm, state) := rs in
  let dev := gs_devindex (gfxset state) in
  let set := gs_set (gfxset state) in
  interface ← info_interface (cell (gfxdev state) dev);
  g ← gfx interface set;
  '(state, layout) ← gfxset_handler_layout cellboxwidth cellboxheight state;
  '(rm, state) ← gfxset_update_bitmap rm state (lay_xcells layout) (lay_ycells layout) g;
  state ← gfxset_handle_keys input (lay_xcells layout) (lay_ycells layout) state;
  Some (rm, state).

(** A session in the graphics view: each frame brings the size of the cell
    box and the keys. *)
Definition gfxset_session (frames : list (Z * Z * ui_input))
    (rs : render_manager * ui_gfx_state) : option (render_manager * ui_gfx_state) :=
  for_each frames (fun frame => gfxset_handler frame.1.1 frame.1.2 frame.2) rs.

(** The column count and the scroll offset of set [set] of device [dev]. *)
Definition columns_of (state : ui_gfx_state) (dev set : Z) : Z :=
  cell (info_columns (info_of state dev)) set.
Definition offset_of (state : ui_gfx_state) (dev set : Z) : Z :=
  cell (info_offset (info_of state dev)) set.







(** [tilemap_handler], "determine the maximum integral scaling factor": the
    loop [for (maxscale = 1; mapsize * (maxscale + 1) < mapboxsize;
    maxscale++) { }].  [mapsize] is a [uint32_t] and [maxscale] and
    [mapboxsize] are [int]: the product and the comparison are formed in
    [uint32_t].  [None] when the fuel does not reach the exit. *)
Fixpoint tilemap_max_scale (fuel : nat) (mapsize mapboxsize maxscale : Z) : option Z :=
  if u32 (mapsize * u32 (maxscale + 1)) <? u32 mapboxsize then
    match fuel with
    | O => None
    | S fuel => tilemap_max_scale fuel mapsize mapboxsize (s32 (maxscale + 1))
    end
  else Some maxscale.

(** What the layout of [tilemap_handler] hands to the drawing and key code. *)
Record tilemap_layout := {
  tlay_pixelscale : Z;
  tlay_mapboxwidth : Z;
  tlay_mapboxheight : Z
}.

(** [tilemap_handler], from "get the size of the tilemap itself" to
    "recompute the final box size".  [mapboxwidth] and [mapboxheight] are the
    pixel sizes obtained from the font metrics. *)
Definition tilemap_handler_layout (fuel : nat) (machine : running_machine)
    (mapboxwidth mapboxheight : Z) (state : ui_gfx_state) : option tilemap_layout :=
  t ← tilemap_find machine (tm_which (tilemap state));
  let mapwidth := u32 (tmap_width t) in
  let mapheight := u32 (tmap_height t) in
  let '(mapwidth, mapheight) :=
    if flag (tm_rotate (tilemap state)) ORIENTATION_SWAP_XY
    then (mapheight, mapwidth) else (mapwidth, mapheight) in
  let pixelscale := tm_zoom (tilemap state) in
  pixelscale ←
    (if pixelscale =? 0 then
       maxxscale ← tilemap_max_scale fuel mapwidth mapboxwidth 1;
       maxyscale ← tilemap_max_scale fuel mapheight mapboxheight 1;
       Some (Z.min maxxscale maxyscale)
     else Some pixelscale);
  let mapboxwidth := Z.min mapboxwidth (s32 (u32 (mapwidth * u32 pixelscale))) in
  let mapboxheight := Z.min mapboxheight (s32 (u32 (mapheight * u32 pixelscale))) in
  Some {| tlay_pixelscale := pixelscale; tlay_mapboxwidth := mapboxwidth;
          tlay_mapboxheight := mapboxheight |}.

(** [tilemap_handler], the part that changes the state: the layout, the
    redraw and the keys.  The title and the quad only go to the screen. *)
Definition tilemap_handler (fuel : nat) (machine : running_machine)
    (mapboxwidth mapboxheight : Z) (input : ui_input)
    (rs : render_manager * ui_gfx_state) : option (render_manager * ui_gfx_state) :=
  let '(rm, state) := rs in
  layout ← tilemap_handler_layout fuel machine mapboxwidth mapboxheight state;
  width ← div_int (tlay_mapboxwidth layout) (tlay_pixelscale layout);
  height ← div_int (tlay_mapboxheight layout) (tlay_pixelscale layout);
  '(rm, state) ← tilemap_update_bitmap machine rm state width height;
  state ← tilemap_handle_keys fuel machine input state;
  Some (rm, state).

(** A session in the tilemap view: each frame brings the size of the map box
    and the keys. *)
Definition tilemap_session (fuel : nat) (machine : running_machine)
    (frames : list (Z * Z * ui_input)) (rs : render_manager * ui_gfx_state)
    : option (render_manager * ui_gfx_state) :=
  for_each frames (fun frame => tilemap_handler fuel machine frame.1.1 frame.1.2 frame.2) rs.



End ViewerExtras.

(** ** Examples

    Concrete engines, machines and key states for the examples below. *)

(** [strreplace] of corestr.cpp for the example engine: every match of
    [search], from left to right, the scan going on after the replacement. *)
Fixpoint strreplace_from (fuel : nat) (str search replace : string) (curindex : Z) : string :=
  match fuel with
  | O => str
  | S fuel =>
      if curindex =? -1 then str
      else
        let str := substr str 0 curindex +:+ replace
                   +:+ substr str (curindex + str_length search) (-1) in
        strreplace_from fuel str search replace (find str search (curindex + str_length replace))
  end.

(** An engine instance for the examples: the three orientation bits compose
    as in [orientation_inverse]'s table, category mask 15. *)
Definition example_engine : Engine :=
  {| MAX_GFX_ELEMENTS := 32;
     ROT90 := ORIENTATION_SWAP_XY + ORIENTATION_FLIP_X;
     orientation_add := fun a b => Z.lxor a b;
     TILEMAP_DRAW_ALL_CATEGORIES := 512;
     TILEMAP_DRAW_CATEGORY_MASK := 15;
     draw_debug := fun _ dest _ _ _ => bm_pix dest;
     PATH_SEPARATOR := "/";
     strreplace := fun str search replace =>
       strreplace_from (S (String.length str)) str search replace (find str search 0) |}.

Definition no_keys : ui_input :=
  {| IPT_UI_ZOOM_OUT := false; IPT_UI_ZOOM_IN := false; IPT_UI_PREV_GROUP := false;
     IPT_UI_NEXT_GROUP := false; IPT_UI_ROTATE := false; IPT_UI_UP := false;
     IPT_UI_DOWN := false; IPT_UI_LEFT := false; IPT_UI_RIGHT := false;
     IPT_UI_PAGE_UP := false; IPT_UI_PAGE_DOWN := false; IPT_UI_HOME := false;
     IPT_UI_END := false; IPT_UI_SNAPSHOT := false; KEYCODE_LSHIFT := false;
     KEYCODE_LCONTROL := false |}.

(** A palette of [n] entries (all black) without indirect colours. *)
Definition example_palette (n : Z) : palette_device :=
  {| pal_entries := n; pal_indirect_entries := 0;
     pal_entry_list_raw := replicate (Z.to_nat n) 0; pal_indirect_color := [] |}.

(** A machine whose only resource is a palette of 20 entries. *)
Definition machine20 : running_machine :=
  {| palette_interfaces := [example_palette 20]; gfx_interfaces := []; tilemaps := [];
     first_screen := true; snap_name := None; machine_basename := "game";
     image_interfaces := [] |}.

(** The viewer state of [machine20] at session start. *)
Definition state20 : ui_gfx_state :=
  default ui_gfx_zero
    (ui_gfx_count_devices (engine := example_engine) machine20
       (ui_gfx_init (engine := example_engine) 0 ui_gfx_zero)).

(** A machine with one 16x32 tilemap, and a viewer state on it, turned a
    quarter and panned to (3, 7). *)
Definition example_tilemap : tilemap_t :=
  {| tmap_width := 16; tmap_height := 32;
     tmap_pixmap := {| bm_valid := true; bm_width := 16; bm_height := 32; bm_pix := ∅ |};
     tmap_palette := example_palette 4 |}.

Definition machine_tilemap : running_machine :=
  {| palette_interfaces := [example_palette 4]; gfx_interfaces := [];
     tilemaps := [example_tilemap]; first_screen := true; snap_name := None;
     machine_basename := "game"; image_interfaces := [] |}.

Definition state_tilemap : ui_gfx_state :=
  upd_tilemap (fun t => set_tm_yoffs 7 (set_tm_xoffs 3 t))
    (ui_gfx_init (engine := example_engine) 5 ui_gfx_zero).

(** Graphics elements for the examples: [gfx_a] is 2x3 with two colours and
    its own palette, [gfx_b] is 4x4 with one colour and its own palette,
    [gfx_c] has no palette of its own and a granularity above the size of the
    default palette. *)
Definition gfx_a : gfx_element :=
  {| gfx_width := 2; gfx_height := 3; gfx_elements := 2; gfx_rowbytes := 2;
     gfx_colors := 2; gfx_granularity := 2; gfx_colorbase := 0;
     gfx_palette := Some (example_palette 4);
     gfx_get_data := fun _ => [0; 1; 1; 0; 0; 1] |}.

Definition gfx_b : gfx_element :=
  {| gfx_width := 4; gfx_height := 4; gfx_elements := 1; gfx_rowbytes := 4;
     gfx_colors := 1; gfx_granularity := 4; gfx_colorbase := 0;
     gfx_palette := Some (example_palette 4);
     gfx_get_data := fun _ => replicate 16 0 |}.

Definition gfx_c : gfx_element :=
  {| gfx_width := 2; gfx_height := 2; gfx_elements := 1; gfx_rowbytes := 2;
     gfx_colors := 1; gfx_granularity := 16; gfx_colorbase := 0;
     gfx_palette := None;
     gfx_get_data := fun _ => [0; 0; 0; 0] |}.

(** A machine with two graphics devices: the first has the sets [gfx_a] and
    [gfx_c], the second the set [gfx_b]. *)
Definition machine_gfx : running_machine :=
  {| palette_interfaces := [example_palette 4];
     gfx_interfaces := [ {| gfxi_slots := [Some gfx_a; Some gfx_c] |};
                         {| gfxi_slots := [Some gfx_b] |} ];
     tilemaps := []; first_screen := true; snap_name := None;
     machine_basename := "game"; image_interfaces := [] |}.

(** A host for the export examples: the disk is the number of files opened
    so far; the second file cannot be opened, every other one can, and the
    encoder reports no error. *)
Definition example_host : FileHost :=
  {| files := nat;
     open_numbered := fun n _ _ => (negb (n =? 1)%nat, S n);
     png_write_bitmap := fun n _ _ _ => (0, n) |}.

(** A machine for the export examples: two palettes, a first graphics
    device with the sets [gfx_a] and [gfx_b], a second one with the 8x8 set
    [gfx_d], and one tilemap. *)
Definition gfx_d : gfx_element :=
  {| gfx_width := 8; gfx_height := 8; gfx_elements := 1; gfx_rowbytes := 8;
     gfx_colors := 1; gfx_granularity := 4; gfx_colorbase := 0;
     gfx_palette := Some (example_palette 4);
     gfx_get_data := fun _ => replicate 64 0 |}.

Definition machine_export : running_machine :=
  {| palette_interfaces := [example_palette 4; example_palette 2];
     gfx_interfaces := [ {| gfxi_slots := [Some gfx_a; Some gfx_b] |};
                         {| gfxi_slots := [Some gfx_d] |} ];
     tilemaps := [example_tilemap]; first_screen := true; snap_name := None;
     machine_basename := "game"; image_interfaces := [] |}.

(** The viewer on that machine after enumeration, in graphics-set mode on
    the first device, with a snapshot requested; and the world around it. *)
Definition state_export : ui_gfx_state :=
  set_save true
    (set_mode UI_GFX_GFXSET
       (default ui_gfx_zero
          (ui_gfx_count_devices (engine := example_engine) machine_export
             (ui_gfx_init (engine := example_engine) 0 ui_gfx_zero)))).

Definition world_export : world (host := example_host) :=
  World (host := example_host) state_export O [].

(** The events of a log without the encoder calls. *)
Definition without_png (log : list export_event) : list export_event :=
  omap (fun ev => match ev with EvPng _ _ _ _ => None | _ => Some ev end) log.

(** A machine with a cartridge mounted and a name template that holds the
    device token twice, once after a dot. *)
Definition machine_snap : running_machine :=
  {| palette_interfaces := [example_palette 4]; gfx_interfaces := [];
     tilemaps := [example_tilemap]; first_screen := true;
     snap_name := Some "%g/%d_cart.v2/%d_flop/%i"%string;
     machine_basename := "game";
     image_interfaces :=
       [ {| brief_instance_name := "cart"; image_basename := Some "mario.nes"%string |} ] |}.

(** The viewer on [machine_gfx], which has a palette and graphics sets but no
    tilemap, enumerated while the tilemap mode is selected. *)
Definition state_gfx_mode2 : ui_gfx_state :=
  default ui_gfx_zero
    (ui_gfx_count_devices (engine := example_engine) machine_gfx
       (set_mode UI_GFX_TILEMAP (ui_gfx_init (engine := example_engine) 0 ui_gfx_zero))).

(** A machine with nothing to show. *)
Definition machine_empty : running_machine :=
  {| palette_interfaces := []; gfx_interfaces := []; tilemaps := [];
     first_screen := true; snap_name := None; machine_basename := "game";
     image_interfaces := [] |}.

(** Frames with one of the page keys down. *)
Definition key_page_down : ui_input :=
  {| IPT_UI_ZOOM_OUT := false; IPT_UI_ZOOM_IN := false; IPT_UI_PREV_GROUP := false;
     IPT_UI_NEXT_GROUP := false; IPT_UI_ROTATE := false; IPT_UI_UP := false;
     IPT_UI_DOWN := false; IPT_UI_LEFT := false; IPT_UI_RIGHT := false;
     IPT_UI_PAGE_UP := false; IPT_UI_PAGE_DOWN := true; IPT_UI_HOME := false;
     IPT_UI_END := false; IPT_UI_SNAPSHOT := false; KEYCODE_LSHIFT := false;
     KEYCODE_LCONTROL := false |}.

Definition key_page_up : ui_input :=
  {| IPT_UI_ZOOM_OUT := false; IPT_UI_ZOOM_IN := false; IPT_UI_PREV_GROUP := false;
     IPT_UI_NEXT_GROUP := false; IPT_UI_ROTATE := false; IPT_UI_UP := false;
     IPT_UI_DOWN := false; IPT_UI_LEFT := false; IPT_UI_RIGHT := false;
     IPT_UI_PAGE_UP := true; IPT_UI_PAGE_DOWN := false; IPT_UI_HOME := false;
     IPT_UI_END := false; IPT_UI_SNAPSHOT := false; KEYCODE_LSHIFT := false;
     KEYCODE_LCONTROL := false |}.

(** Frames with one of the bracket keys down. *)
Definition key_prev_group : ui_input :=
  {| IPT_UI_ZOOM_OUT := false; IPT_UI_ZOOM_IN := false; IPT_UI_PREV_GROUP := true;
     IPT_UI_NEXT_GROUP := false; IPT_UI_ROTATE := false; IPT_UI_UP := false;
     IPT_UI_DOWN := false; IPT_UI_LEFT := false; IPT_UI_RIGHT := false;
     IPT_UI_PAGE_UP := false; IPT_UI_PAGE_DOWN := false; IPT_UI_HOME := false;
     IPT_UI_END := false; IPT_UI_SNAPSHOT := false; KEYCODE_LSHIFT := false;
     KEYCODE_LCONTROL := false |}.

Definition key_next_group : ui_input :=
  {| IPT_UI_ZOOM_OUT := false; IPT_UI_ZOOM_IN := false; IPT_UI_PREV_GROUP := false;
     IPT_UI_NEXT_GROUP := true; IPT_UI_ROTATE := false; IPT_UI_UP := false;
     IPT_UI_DOWN := false; IPT_UI_LEFT := false; IPT_UI_RIGHT := false;
     IPT_UI_PAGE_UP := false; IPT_UI_PAGE_DOWN := false; IPT_UI_HOME := false;
     IPT_UI_END := false; IPT_UI_SNAPSHOT := false; KEYCODE_LSHIFT := false;
     KEYCODE_LCONTROL := false |}.

(** The viewer on [machine_gfx] after enumeration, moved one set forward. *)
Definition state_gfx_second_set : ui_gfx_state :=
  gfxset_select key_next_group
    (default ui_gfx_zero
       (ui_gfx_count_devices (engine := example_engine) machine_gfx
          (ui_gfx_init (engine := example_engine) 0 ui_gfx_zero))).

(** A palette of four colours (black, red, green, blue), a 2x3 graphics set
    of three elements drawn with it, and a machine showing that set. *)
Definition palette_rgb : palette_device :=
  {| pal_entries := 4; pal_indirect_entries := 0;
     pal_entry_list_raw := [0; 16711680; 65280; 255]; pal_indirect_color := [] |}.

Definition gfx_e : gfx_element :=
  {| gfx_width := 2; gfx_height := 3; gfx_elements := 3; gfx_rowbytes := 2;
     gfx_colors := 1; gfx_granularity := 4; gfx_colorbase := 0;
     gfx_palette := Some palette_rgb;
     gfx_get_data := fun index => [index; 1; 2; 3; 1; 2] |}.

Definition machine_view : running_machine :=
  {| palette_interfaces := [palette_rgb];
     gfx_interfaces := [ {| gfxi_slots := [Some gfx_e] |} ];
     tilemaps := []; first_screen := true; snap_name := None;
     machine_basename := "game"; image_interfaces := [] |}.

(** The viewer on [machine_view] after enumeration, and an empty renderer. *)
Definition state_view : ui_gfx_state :=
  default ui_gfx_zero
    (ui_gfx_count_devices (engine := example_engine) machine_view
       (ui_gfx_init (engine := example_engine) 0 ui_gfx_zero)).

Definition rm_empty : render_manager := {| rm_next := O; rm_freed := [] |}.

(** The first redraw of that view, two cells wide and two cells high. *)
Definition view_redrawn : render_manager * ui_gfx_state :=
  default (rm_empty, state_view)
    (gfxset_update_bitmap rm_empty state_view 2 2 gfx_e).

(** The view on [machine_view] scrolled down by one element, the world
    around it, and the export of its set in colour 0. *)
Definition state_view_scrolled : ui_gfx_state :=
  upd_gfxdev 0 (fun info => set_info_offset (set_cell (info_offset info) 0 1) info)
    state_view.

Definition world_view_scrolled : world (host := example_host) :=
  World (host := example_host) state_view_scrolled O [].

Definition export_view_scrolled : bitmap * world (host := example_host) :=
  default (bitmap_reset (st_bitmap state_view), world_view_scrolled)
    (gfxset_save_color (engine := example_engine) (host := example_host) machine_view
       0 0 gfx_e palette_rgb 32 1 4 0
       (bitmap_reset (st_bitmap state_view), world_view_scrolled)).

(** A machine with four graphics devices: the first has no sets; the third
    has an empty first slot in front of a set. *)
Definition machine_skip : running_machine :=
  {| palette_interfaces := [palette_rgb];
     gfx_interfaces := [ {| gfxi_slots := [] |};
                         {| gfxi_slots := [Some gfx_a; Some gfx_c; None; Some gfx_b] |};
                         {| gfxi_slots := [None; Some gfx_b] |};
                         {| gfxi_slots := [Some gfx_b] |} ];
     tilemaps := []; first_screen := true; snap_name := None;
     machine_basename := "game"; image_interfaces := [] |}.

Definition state_skip : ui_gfx_state :=
  default ui_gfx_zero
    (ui_gfx_count_devices (engine := example_engine) machine_skip
       (ui_gfx_init (engine := example_engine) 0 ui_gfx_zero)).

(** Three frames of a session on [machine_view]: a wide cell box with the
    End key down, a cell box too narrow for two columns with zoom out, and a
    wide one with page up. *)
Definition key_end : ui_input :=
  {| IPT_UI_ZOOM_OUT := false; IPT_UI_ZOOM_IN := false; IPT_UI_PREV_GROUP := false;
     IPT_UI_NEXT_GROUP := false; IPT_UI_ROTATE := false; IPT_UI_UP := false;
     IPT_UI_DOWN := false; IPT_UI_LEFT := false; IPT_UI_RIGHT := false;
     IPT_UI_PAGE_UP := false; IPT_UI_PAGE_DOWN := false; IPT_UI_HOME := false;
     IPT_UI_END := true; IPT_UI_SNAPSHOT := false; KEYCODE_LSHIFT := false;
     KEYCODE_LCONTROL := false |}.

Definition key_zoom_out : ui_input :=
  {| IPT_UI_ZOOM_OUT := true; IPT_UI_ZOOM_IN := false; IPT_UI_PREV_GROUP := false;
     IPT_UI_NEXT_GROUP := false; IPT_UI_ROTATE := false; IPT_UI_UP := false;
     IPT_UI_DOWN := false; IPT_UI_LEFT := false; IPT_UI_RIGHT := false;
     IPT_UI_PAGE_UP := false; IPT_UI_PAGE_DOWN := false; IPT_UI_HOME := false;
     IPT_UI_END := false; IPT_UI_SNAPSHOT := false; KEYCODE_LSHIFT := false;
     KEYCODE_LCONTROL := false |}.

Definition frames_view : list (Z * Z * ui_input) :=
  [(400, 300, key_end); (4, 300, key_zoom_out); (400, 300, key_page_up)].

(** A palette of six pens, shown four to a row. *)
Definition palette_six : palette_device :=
  {| pal_entries := 6; pal_indirect_entries := 0;
     pal_entry_list_raw := [4278190080; 4294901760; 4278255360; 4278190335;
                            4294967040; 4294967295];
     pal_indirect_color := [] |}.

(** What the bracket keys of the palette view act on: the device count, the
    device, the pens-or-colours flag and the cached device pointer. *)
Definition palette_view (state : ui_gfx_state)
    : Z * Z * Z * option palette_device :=
  (pal_devcount (palette state), pal_devindex (palette state), pal_which (palette state),
   pal_interface (palette state)).

(** The group the palette view shows: a device and its pens (0) or its
    indirect colours (1). *)
Definition palette_group (state : ui_gfx_state) : Z * Z :=
  (pal_devindex (palette state), pal_which (palette state)).

(** The palette view is on a group that exists: on the pens of its device,
    or on the colours of a device that has indirect colours. *)
Definition palette_group_ok (state : ui_gfx_state) : Prop :=
  pal_which (palette state) = 0
  \/ pal_which (palette state) = 1
     /\ exists p, pal_interface (palette state) = Some p /\ 0 < pal_indirect_entries p.

(** A palette with two indirect colours, and a machine with that palette
    and [palette_six]. *)
Definition palette_indirect : palette_device :=
  {| pal_entries := 4; pal_indirect_entries := 2;
     pal_entry_list_raw := [0; 16711680; 65280; 255];
     pal_indirect_color := [4294901760; 4278190335] |}.

Definition machine_palettes : running_machine :=
  {| palette_interfaces := [palette_indirect; palette_six]; gfx_interfaces := [];
     tilemaps := []; first_screen := true; snap_name := None; machine_basename := "game";
     image_interfaces := [] |}.

(** The viewer of [machine_palettes] on the colours of the first palette:
    the state at session start after one press of the close bracket. *)
Definition state_palettes : ui_gfx_state :=
  default ui_gfx_zero
    (s ← ui_gfx_count_devices (engine := example_engine) machine_palettes
           (ui_gfx_init (engine := example_engine) 0 ui_gfx_zero);
     palette_handle_keys machine_palettes key_next_group s).

(** [state_palettes] after a frame with the close bracket down. *)
Definition state_palettes_next : ui_gfx_state :=
  default ui_gfx_zero (palette_handle_keys machine_palettes key_next_group state_palettes).

(* ===================================================================== *)
(** * Properties *)
(* ===================================================================== *)

(** ** Machine integers *)

Lemma u8_small z : 0 <= z < 256 -> u8 z = z.
Proof. intros H. unfold u8. apply Z.mod_small. lia. Qed.

Lemma u32_small z : 0 <= z < 2 ^ 32 -> u32 z = z.
Proof. intros H. unfold u32. apply Z.mod_small. lia. Qed.

Lemma s32_small z : - 2 ^ 31 <= z < 2 ^ 31 -> s32 z = z.
Proof. intros H. unfold s32. rewrite Z.mod_small; lia. Qed.

(** ** Orientation transform *)

Lemma draw_save_item_eff_eq gw gh rotate x y :
  gfxset_draw_save_item_eff gw gh rotate x y = gfxset_draw_item_eff gw gh rotate x y.
Proof. reflexivity. Qed.

Lemma hover_eff_eq gw gh rotate x y :
  gfxset_handler_hover_eff gw gh rotate x y = gfxset_draw_item_eff gw gh rotate x y.
Proof.
  unfold gfxset_handler_hover_eff, gfxset_draw_item_eff, cell_width, cell_height.
  destruct (flag rotate ORIENTATION_SWAP_XY),
    (flag rotate ORIENTATION_FLIP_X), (flag rotate ORIENTATION_FLIP_Y);
    simpl; f_equal; lia.
Qed.





(** ** Palette viewer: the scroll offset *)


Lemma ceil_div_is_ceiling total columns :
  0 < columns ->
  total <= ceil_div total columns * columns < total + columns.
Proof.
  intros Hc. unfold ceil_div.
  pose proof (Z.div_mod (total + columns - 1) columns ltac:(lia)) as Hdm.
  pose proof (Z.mod_pos_bound (total + columns - 1) columns Hc) as Hm.
  nia.
Qed.

Section PaletteProperties.


Lemma byindex_is_Some machine i :
  0 <= i < Z.of_nat (length (palette_interfaces machine)) ->
  exists p, byindex machine i = Some p /\ p ∈ palette_interfaces machine.
Proof.
  intros Hi. unfold byindex.
  destruct (i <? 0) eqn:E; [lia|].
  destruct (palette_interfaces machine !! Z.to_nat i) as [p|] eqn:Hl.
  - exists p. split; [done|]. by eapply list_elem_of_lookup_2.
  - apply lookup_ge_None in Hl. lia.
Qed.

Lemma palette_clamp_columns_spec state :
  exists c, palette_clamp_columns state = upd_palette (set_pal_columns c) state
            /\ 4 <= c <= 64.
Proof.
  unfold palette_clamp_columns.
  destruct state as [? ? ? ? ? ? [? ? ? ? c ?] ? ? ?]; simpl.
  destruct (c <=? 4) eqn:E1; simpl.
  - exists 4. split; [reflexivity | lia].
  - destruct (64 <? c) eqn:E2; simpl.
    + exists 64. split; [reflexivity | lia].
    + exists c. split; [reflexivity | lia].
Qed.

Lemma palette_navigate_spec input total rowcount screencount state :
  exists off, palette_navigate input total rowcount screencount state
              = upd_palette (set_pal_offset off) state.
Proof.
  unfold palette_navigate.
  destruct state as [? ? ? ? ? ? [? ? ? ? ? o] ? ? ?].
  destruct (IPT_UI_UP input), (IPT_UI_DOWN input), (IPT_UI_PAGE_UP input),
    (IPT_UI_PAGE_DOWN input), (IPT_UI_HOME input), (IPT_UI_END input);
    simpl; eexists; reflexivity.
Qed.

Lemma palette_clamp_offset_spec total rowcount state :
  0 <= total -> 0 < rowcount ->
  exists off, palette_clamp_offset total rowcount (rowcount * rowcount) state
              = upd_palette (set_pal_offset off) state
    /\ 0 <= off <= Z.max 0 (ceil_div total rowcount * rowcount - rowcount * rowcount).
Proof.
  intros Ht Hr. unfold palette_clamp_offset, ceil_div.
  rewrite Z.quot_div_nonneg by lia.
  destruct state as [? ? ? ? ? ? [? ? ? ? ? o] ? ? ?]; simpl.
  set (top := (total + rowcount - 1) / rowcount * rowcount).
  destruct (top <? o + rowcount * rowcount) eqn:E1; simpl.
  - destruct (top - rowcount * rowcount <? 0) eqn:E2; simpl.
    + exists 0. split; [reflexivity | lia].
    + exists (top - rowcount * rowcount). split; [reflexivity | lia].
  - destruct (o <? 0) eqn:E2; simpl.
    + exists 0. split; [reflexivity | lia].
    + exists o. split; [reflexivity | lia].
Qed.

Local Ltac wf_done :=
  unfold palette_wf in *; repeat split; try reflexivity; simpl in *;
  try done; try lia; try (symmetry; assumption); try tauto; try congruence.

Lemma palette_wf_interface machine state :
  palette_wf machine state ->
  exists p, pal_interface (palette state) = Some p /\ p ∈ palette_interfaces machine.
Proof.
  intros (Hc & Hi & Hp). rewrite Hp. apply byindex_is_Some. lia.
Qed.

Lemma palette_prev_group_spec machine state :
  palette_wf machine state ->
  exists state' p,
    palette_prev_group machine state (pal_interface (palette state)) = Some (state', Some p)
    /\ palette_wf machine state'
    /\ pal_interface (palette state') = Some p
    /\ p ∈ palette_interfaces machine
    /\ pal_columns (palette state') = pal_columns (palette state)
    /\ pal_offset (palette state') = pal_offset (palette state).
Proof.
  intros Hwf. unfold palette_prev_group.
  destruct (palette_wf_interface _ _ Hwf) as (p & Hp & Hin).
  destruct Hwf as (Hc & Hi & Hb).
  destruct (negb (pal_which (palette state) =? 0)).
  { eexists _, p. rewrite Hp. wf_done. }
  destruct (0 <? pal_devindex (palette state)) eqn:E.
  2:{ exists state, p. rewrite Hp. wf_done. }
  destruct (byindex_is_Some machine (pal_devindex (palette state) - 1)) as (q & Hq & Hqin);
    [lia|].
  cbn zeta. unfold palette_set_device. simpl. rewrite Hq. simpl.
  eexists _, q. split; [reflexivity|]. wf_done.
Qed.

Lemma palette_next_group_spec machine state p :
  palette_wf machine state ->
  pal_interface (palette state) = Some p ->
  p ∈ palette_interfaces machine ->
  exists state' p',
    palette_next_group machine state (Some p) = Some (state', Some p')
    /\ palette_wf machine state'
    /\ pal_interface (palette state') = Some p'
    /\ p' ∈ palette_interfaces machine
    /\ pal_columns (palette state') = pal_columns (palette state)
    /\ pal_offset (palette state') = pal_offset (palette state).
Proof.
  intros Hwf Hp Hin. unfold palette_next_group.
  assert (Hadv : (pal_devindex (palette state) <? pal_devcount (palette state) - 1) = true ->
    exists q, byindex machine (pal_devindex (palette state) + 1) = Some q
              /\ q ∈ palette_interfaces machine).
  { intros Ed. destruct Hwf as (Hc & Hi & Hb). apply byindex_is_Some. lia. }
  destruct (pal_which (palette state) =? 0) eqn:Ew; simpl.
  - destruct (0 <? pal_indirect_entries p) eqn:Ei.
    + eexists _, p. wf_done.
    + destruct (pal_devindex (palette state) <? pal_devcount (palette state) - 1) eqn:Ed.
      * destruct (Hadv eq_refl) as (q & Hq & Hqin).
        unfold palette_set_device. simpl. rewrite Hq.
        eexists _, q. wf_done.
      * exists state, p. wf_done.
  - destruct (pal_devindex (palette state) <? pal_devcount (palette state) - 1) eqn:Ed.
    + destruct (Hadv eq_refl) as (q & Hq & Hqin).
      unfold palette_set_device. simpl. rewrite Hq.
      eexists _, q. wf_done.
    + exists state, p. wf_done.
Qed.

Lemma palette_select_spec machine input state :
  palette_wf machine state ->
  exists state' p,
    palette_select machine input state = Some (state', Some p)
    /\ palette_wf machine state'
    /\ pal_interface (palette state') = Some p
    /\ p ∈ palette_interfaces machine
    /\ pal_columns (palette state') = pal_columns (palette state)
    /\ pal_offset (palette state') = pal_offset (palette state).
Proof.
  intros Hwf. unfold palette_select.
  assert (Hstep1 : exists state1 p1,
    (if IPT_UI_PREV_GROUP input
     then palette_prev_group machine state (pal_interface (palette state))
     else Some (state, pal_interface (palette state))) = Some (state1, Some p1)
    /\ palette_wf machine state1
    /\ pal_interface (palette state1) = Some p1
    /\ p1 ∈ palette_interfaces machine
    /\ pal_columns (palette state1) = pal_columns (palette state)
    /\ pal_offset (palette state1) = pal_offset (palette state)).
  { destruct (IPT_UI_PREV_GROUP input).
    - by apply palette_prev_group_spec.
    - destruct (palette_wf_interface _ _ Hwf) as (p & Hp & Hin).
      exists state, p. rewrite Hp. wf_done. }
  destruct Hstep1 as (state1 & p1 & Heq & Hwf1 & Hp1 & Hin1 & Hcol1 & Hoff1).
  cbn zeta. rewrite Heq. simpl.
  destruct (IPT_UI_NEXT_GROUP input).
  - destruct (palette_next_group_spec machine state1 p1 Hwf1 Hp1 Hin1)
      as (s2 & p2 & -> & ? & ? & ? & ? & ?).
    exists s2, p2. wf_done.
  - exists state1, p1. wf_done.
Qed.

(** One frame of the palette view: it does not crash on a well-formed state,
    and afterwards the column count and the scroll offset are in range. *)
Lemma palette_handle_keys_spec machine input state :
  palette_wf machine state ->
  palette_counts_nonneg machine ->
  exists state' total,
    palette_handle_keys machine input state = Some state'
    /\ palette_wf machine state'
    /\ palette_total state' = Some total
    /\ 0 <= total
    /\ 4 <= pal_columns (palette state') <= 64
    /\ 0 <= pal_offset (palette state')
       <= Z.max 0 (ceil_div total (pal_columns (palette state')) * pal_columns (palette state')
                   - pal_columns (palette state') * pal_columns (palette state')).
Proof.
  intros Hwf Hnn. unfold palette_handle_keys.
  set (s1 := if IPT_UI_ZOOM_OUT input then _ else state).
  set (s2 := if IPT_UI_ZOOM_IN input then _ else s1).
  assert (Hwf2 : palette_wf machine s2).
  { subst s2 s1. destruct (IPT_UI_ZOOM_IN input), (IPT_UI_ZOOM_OUT input); exact Hwf. }
  destruct (palette_clamp_columns_spec s2) as (c & -> & Hc).
  assert (Hwf3 : palette_wf machine (upd_palette (set_pal_columns c) s2)) by exact Hwf2.
  destruct (palette_select_spec machine input _ Hwf3)
    as (s4 & p & -> & Hwf4 & Hp4 & Hin & Hcol4 & Hoff4).
  simpl in Hcol4. simpl.
  set (total := if negb (pal_which (palette s4) =? 0) then _ else _).
  assert (Htot : 0 <= total).
  { unfold palette_counts_nonneg in Hnn. rewrite Forall_forall in Hnn.
    destruct (Hnn p Hin). subst total. by destruct (negb _). }
  destruct (palette_navigate_spec input total (pal_columns (palette s4))
              (pal_columns (palette s4) * pal_columns (palette s4)) s4) as (o5 & ->).
  destruct (palette_clamp_offset_spec total (pal_columns (palette s4))
              (upd_palette (set_pal_offset o5) s4) Htot) as (o6 & -> & Ho6).
  { lia. }
  eexists _, total. split; [reflexivity|].
  assert (Hfin : forall s, palette s = set_pal_offset o6 (palette s4) ->
    palette_wf machine s /\ palette_total s = Some total
    /\ 4 <= pal_columns (palette s) <= 64
    /\ 0 <= pal_offset (palette s)
       <= Z.max 0 (ceil_div total (pal_columns (palette s)) * pal_columns (palette s)
                   - pal_columns (palette s) * pal_columns (palette s))).
  { intros s Hs. unfold palette_wf, palette_total. rewrite Hs. simpl.
    rewrite Hp4. simpl. destruct Hwf4 as (? & ? & ?). rewrite Hcol4.
    rewrite Hcol4 in Ho6.
    repeat split; try done; try lia. by rewrite <- Hp4. }
  destruct (IPT_UI_SNAPSHOT input).
  - destruct (Hfin (set_save true (upd_palette (set_pal_offset o6)
                                    (upd_palette (set_pal_offset o5) s4))) eq_refl)
      as (? & ? & ? & ?). tauto.
  - destruct (Hfin (upd_palette (set_pal_offset o6)
                     (upd_palette (set_pal_offset o5) s4)) eq_refl)
      as (? & ? & ? & ?). tauto.
Qed.

End PaletteProperties.

Section PaletteRun.

Lemma for_each_app {A S} (l1 l2 : list A) (body : A -> S -> option S) (s : S) :
  for_each (l1 ++ l2) body s = s' ← for_each l1 body s; for_each l2 body s'.
Proof.
  revert s. induction l1 as [|a l1 IH]; intros s; simpl.
  - reflexivity.
  - destruct (body a s) as [s1|]; simpl; [apply IH | reflexivity].
Qed.

Lemma palette_run_wf machine inputs state :
  palette_wf machine state ->
  palette_counts_nonneg machine ->
  exists state', palette_run machine inputs state = Some state'
                 /\ palette_wf machine state'.
Proof.
  intros Hwf Hnn. revert state Hwf.
  induction inputs as [|input inputs IH]; intros state Hwf.
  - exists state. by split.
  - destruct (palette_handle_keys_spec machine input state Hwf Hnn)
      as (s1 & total & Hs1 & Hwf1 & _).
    destruct (IH s1 Hwf1) as (s2 & Hs2 & Hwf2).
    exists s2. split; [|done].
    unfold palette_run in *. simpl. rewrite Hs1. simpl. exact Hs2.
Qed.

(** C4, as stated, fails: for a palette of 20 entries shown 16 to a row the
    claimed upper bound is 2*16 - 16*16 = -224, below the lower bound, while the
    offset after a frame is 0. *)
Lemma C4_counterexample :
  exists state',
    palette_run machine20 [no_keys] state20 = Some state'
    /\ palette_total state' = Some 20
    /\ pal_columns (palette state') = 16
    /\ pal_offset (palette state') = 0
    /\ ~ (0 <= pal_offset (palette state')
          <= ceil_div 20 16 * 16 - 16 * 16).
Proof.
  eexists. split; [vm_compute; reflexivity|].
  repeat split; try reflexivity. vm_compute. intros [_ Hle]. by apply Hle.
Qed.

(** C4 (amended): after any non-empty sequence of palette-view key frames,
    for any device with non-negative entry counts, the column count is in
    [4,64] and the scroll offset lies in
    [0, max(0, ceil(total/columns)*columns - columns^2)]: the lower clamp wins
    when fewer than a screenful of rows exists. *)
Theorem C4_palette_offset_in_range machine inputs input state :
  palette_wf machine state ->
  palette_counts_nonneg machine ->
  exists state' total,
    palette_run machine (inputs ++ [input]) state = Some state'
    /\ palette_total state' = Some total
    /\ 0 <= total
    /\ 4 <= pal_columns (palette state') <= 64
    /\ 0 <= pal_offset (palette state')
       <= Z.max 0 (ceil_div total (pal_columns (palette state')) * pal_columns (palette state')
                   - pal_columns (palette state') * pal_columns (palette state')).
Proof.
  intros Hwf Hnn.
  destruct (palette_run_wf machine inputs state Hwf Hnn) as (s1 & Hs1 & Hwf1).
  destruct (palette_handle_keys_spec machine input s1 Hwf1 Hnn)
    as (s2 & total & Hs2 & Hwf2 & Htot & Hnonneg & Hcols & Hoff).
  exists s2, total. split; [|done].
  unfold palette_run in *. rewrite for_each_app, Hs1. simpl. by rewrite Hs2.
Qed.

End PaletteRun.

Lemma C4_palette_offset_in_range_witness :
  exists state' total,
    palette_run machine20 ([no_keys] ++ [no_keys]) state20 = Some state'
    /\ palette_total state' = Some total
    /\ 0 <= total
    /\ 4 <= pal_columns (palette state') <= 64
    /\ 0 <= pal_offset (palette state')
       <= Z.max 0 (ceil_div total (pal_columns (palette state')) * pal_columns (palette state')
                   - pal_columns (palette state') * pal_columns (palette state')).
Proof.
  apply (C4_palette_offset_in_range machine20 [no_keys] no_keys state20).
  - vm_compute. repeat split; congruence.
  - repeat constructor; vm_compute; congruence.
Defined.

(** ** Graphics viewer: the column-shrinking loop *)

Lemma quot_quot_fits w x s :
  0 <= w -> 0 < x -> 0 < s -> x * ((w ÷ x) ÷ s) * s <= w.
Proof.
  intros Hw Hx Hs.
  rewrite (Z.quot_div_nonneg w x) by lia.
  assert (0 <= w / x) by (apply Z.div_pos; lia).
  rewrite (Z.quot_div_nonneg (w / x) s) by lia.
  pose proof (Z.mul_div_le (w / x) s Hs).
  pose proof (Z.mul_div_le w x Hx).
  assert (0 <= w / x / s) by (apply Z.div_pos; lia).
  nia.
Qed.

Lemma quot_quot_zero_two w s :
  0 <= w -> 0 < s -> (w ÷ 2) ÷ s = 0 <-> w < 2 * s.
Proof.
  intros Hw Hs.
  rewrite (Z.quot_div_nonneg w 2) by lia.
  assert (0 <= w / 2) by (apply Z.div_pos; lia).
  rewrite (Z.quot_div_nonneg (w / 2) s) by lia.
  rewrite Z.div_small_iff by lia.
  pose proof (Z.div_mod w 2 ltac:(lia)). pose proof (Z.mod_pos_bound w 2 ltac:(lia)).
  lia.
Qed.

Lemma gfxset_shrink_columns_spec fuel w s x ps0 :
  0 <= w -> 1 <= s -> (Z.to_nat x <= fuel)%nat ->
  exists fc ps,
    gfxset_shrink_columns fuel w s x ps0 = Some (fc, ps)
    /\ fc <= x
    /\ ((2 <= fc /\ ps = (w ÷ fc) ÷ s /\ 1 <= ps /\ fc * ps * s <= w)
        \/ (fc = Z.min x 1 /\ (x <= 1 -> ps = ps0) /\ (2 <= x -> ps = 0 /\ w < 2 * s))).
Proof.
  intros Hw Hs. revert x ps0.
  induction fuel as [|fuel IH]; intros x ps0 Hfuel; simpl.
  - destruct (1 <? x) eqn:Ex; [lia|].
    exists x, ps0. split; [reflexivity|]. split; [lia|]. right. lia.
  - destruct (1 <? x) eqn:Ex.
    2:{ exists x, ps0. split; [reflexivity|]. split; [lia|]. right. lia. }
    destruct (w ÷ x ÷ s =? 0) eqn:Eps; simpl.
    + destruct (IH (x - 1) (w ÷ x ÷ s) ltac:(lia)) as (fc & ps & -> & Hle & Hcases).
      exists fc, ps. split; [reflexivity|]. split; [lia|].
      destruct Hcases as [Hfit | (Hfc & Hsmall & Hbig)]; [by left|right].
      split; [lia|]. split; [lia|]. intros _.
      destruct (Z.le_gt_cases (x - 1) 1) as [Hx2 | Hx3].
      * assert (x = 2) as -> by lia.
        rewrite (Hsmall Hx2). split; [lia|].
        apply quot_quot_zero_two; lia.
      * apply Hbig. lia.
    + exists x, (w ÷ x ÷ s). split; [reflexivity|]. split; [lia|]. left.
      pose proof (quot_quot_fits w x s Hw ltac:(lia) ltac:(lia)).
      assert (0 <= w ÷ x ÷ s).
      { apply Z.quot_pos; [|lia]. apply Z.quot_pos; lia. }
      repeat split; lia.
Qed.

(** C5, as stated, fails twice over: the fixture W=400, C=16, S=33 yields
    12 columns (400/12 = 33 source pixels per cell), not 8, whether 33 is
    the cell pitch or the element width (then the pitch is 34 and 11 columns
    result); and when not even two columns fit, the loop ends on one column
    at scale 1, wider than the viewport (W=10, C=2, S=33). *)
Lemma C5_counterexample :
  gfxset_fit_columns 400 16 33 = Some (12, 1)
  /\ gfxset_fit_columns 400 16 (1 + 33) = Some (11, 1)
  /\ gfxset_fit_columns 400 16 33 <> Some (8, 1)
  /\ gfxset_fit_columns 10 2 33 = Some (1, 1)
  /\ ~ (1 * 1 * 33 <= 10).
Proof. vm_compute. repeat split; (congruence || lia || (intros Hc; by apply Hc)). Qed.

(** C5 (amended): for a viewport width [W >= 0], a requested column count
    [C] and a cell pitch [S >= 1] the loop ends with [finalColumns <= C] and
    [pixelScale >= 1]; when two columns fit ([C >= 2] and [2*S <= W]) the
    result also satisfies [finalColumns * pixelScale * S <= W], with
    [pixelScale = (W / finalColumns) / S]; otherwise it is at most one column
    at scale 1.  The fixture W=400, C=16, S=33 yields 12 columns at scale 1. *)
Theorem C5_gfxset_fit_columns (W C S : Z) :
  0 <= W -> 1 <= S ->
  exists finalColumns pixelScale,
    gfxset_fit_columns W C S = Some (finalColumns, pixelScale)
    /\ finalColumns <= C
    /\ 1 <= pixelScale
    /\ (2 <= C -> 2 * S <= W ->
        2 <= finalColumns /\ pixelScale = (W ÷ finalColumns) ÷ S
        /\ finalColumns * pixelScale * S <= W)
    /\ (~ (2 <= C /\ 2 * S <= W) -> finalColumns = Z.min C 1 /\ pixelScale = 1)
    /\ gfxset_fit_columns 400 16 33 = Some (12, 1).
Proof.
  intros HW HS. unfold gfxset_fit_columns at 1.
  destruct (gfxset_shrink_columns_spec (Z.to_nat C) W S C 0 HW HS (le_n _))
    as (fc & ps & -> & Hle & Hcases).
  simpl. exists fc, (Z.max 1 ps). split; [reflexivity|].
  split; [lia|]. split; [lia|].
  destruct Hcases as [(H2 & Hps & H1 & Hfit) | (Hfc & Hsmall & Hbig)].
  - rewrite Z.max_r by lia. split; [|split].
    + intros _ _. by repeat split.
    + intros Hno. exfalso. apply Hno. split; [lia|].
      assert (2 <= fc * ps) by nia.
      assert (2 * S <= fc * ps * S) by (apply Z.mul_le_mono_nonneg_r; lia). lia.
    + reflexivity.
  - split; [|split].
    + intros HC HS2. destruct (Hbig HC). lia.
    + intros _. split; [done|].
      destruct (Z.le_gt_cases C 1) as [HC|HC].
      * rewrite (Hsmall HC). reflexivity.
      * destruct (Hbig ltac:(lia)) as [-> _]. reflexivity.
    + reflexivity.
Qed.

Lemma C5_gfxset_fit_columns_witness :
  exists finalColumns pixelScale,
    gfxset_fit_columns 640 16 17 = Some (finalColumns, pixelScale)
    /\ finalColumns <= 16
    /\ 1 <= pixelScale
    /\ (2 <= 16 -> 2 * 17 <= 640 ->
        2 <= finalColumns /\ pixelScale = (640 ÷ finalColumns) ÷ 17
        /\ finalColumns * pixelScale * 17 <= 640)
    /\ (~ (2 <= 16 /\ 2 * 17 <= 640) -> finalColumns = Z.min 16 1 /\ pixelScale = 1)
    /\ gfxset_fit_columns 400 16 33 = Some (12, 1).
Proof. apply (C5_gfxset_fit_columns 640 16 17); lia. Defined.

(** ** The raster cache *)

Section RasterCache.
Context {engine : Engine}.

Lemma realloc_needed_iff state width height :
  realloc_needed state width height = true <->
  (bm_valid (st_bitmap state) = false \/ st_texture state = None
   \/ bm_width (st_bitmap state) <> width \/ bm_height (st_bitmap state) <> height).
Proof.
  unfold realloc_needed. rewrite !orb_true_iff, !negb_true_iff, !Z.eqb_neq.
  destruct (st_texture state); intuition congruence.
Qed.

Lemma realloc_bitmap_settled format width height rm state :
  let '(rm', state') := realloc_bitmap format width height (rm, state) in
  realloc_needed state' width height = false.
Proof.
  unfold realloc_bitmap.
  destruct (realloc_needed state width height) eqn:Hn; [|exact Hn].
  unfold realloc_needed. simpl. by rewrite !Z.eqb_refl.
Qed.

Lemma foldl_shape {A} (f : bitmap -> A -> bitmap) (l : list A) (b : bitmap) :
  (forall b a, bitmap_shape (f b a) = bitmap_shape b) ->
  bitmap_shape (foldl f b l) = bitmap_shape b.
Proof.
  intros Hf. revert b. induction l as [|a l IH]; intros b; simpl; [done|].
  by rewrite IH, Hf.
Qed.

Lemma for_each_shape {A} (body : A -> bitmap -> option bitmap) (l : list A) (b b' : bitmap) :
  (forall a b b', body a b = Some b' -> bitmap_shape b' = bitmap_shape b) ->
  for_each l body b = Some b' -> bitmap_shape b' = bitmap_shape b.
Proof.
  intros Hbody. revert b. induction l as [|a l IH]; intros b; simpl.
  - by intros [= ->].
  - destruct (body a b) as [b1|] eqn:Hb; simpl; [|done].
    intros Hrest. rewrite (IH _ Hrest). by eapply Hbody.
Qed.

Lemma bitmap_fill_shape v x0 x1 y0 y1 b :
  bitmap_shape (bitmap_fill v x0 x1 y0 y1 b) = bitmap_shape b.
Proof.
  unfold bitmap_fill. apply foldl_shape. intros b0 y.
  apply foldl_shape. intros b1 x. reflexivity.
Qed.

Lemma draw_item_with_shape eff g index dest dstx dsty color rotate dpalette dest' :
  draw_item_with eff g index dest dstx dsty color rotate dpalette = Some dest' ->
  bitmap_shape dest' = bitmap_shape dest.
Proof.
  unfold draw_item_with. destruct dpalette as [p|]; simpl; [|done].
  intros [= <-]. apply foldl_shape. intros b0 y.
  apply foldl_shape. intros b1 x.
  by destruct (eff (gfx_width g) (gfx_height g) rotate x y).
Qed.

Lemma update_bitmap_rows_shape draw info set xcells ycells cellxpix cellypix g dest dest' :
  (forall g index dest dstx dsty color rotate dpalette dest',
      draw g index dest dstx dsty color rotate dpalette = Some dest' ->
      bitmap_shape dest' = bitmap_shape dest) ->
  update_bitmap_rows draw info set xcells ycells cellxpix cellypix g dest = Some dest' ->
  bitmap_shape dest' = bitmap_shape dest.
Proof.
  intros Hdraw. unfold update_bitmap_rows. apply for_each_shape.
  intros y b b'. destruct (_ <? gfx_elements g).
  - apply for_each_shape. intros x b0 b0'. destruct (_ <? gfx_elements g).
    + apply Hdraw.
    + intros [= <-]. apply bitmap_fill_shape.
  - intros [= <-]. apply bitmap_fill_shape.
Qed.





End RasterCache.

(** ** Tilemap viewer: panning *)

Lemma s32_u32_add x m :
  - 2 ^ 31 <= x + m < 2 ^ 31 -> s32 (u32 (u32 x + m)) = x + m.
Proof.
  intros Hr. unfold s32, u32.
  rewrite Zplus_mod_idemp_l, <- Z.add_assoc, Zplus_mod_idemp_l.
  rewrite Z.mod_small; lia.
Qed.

Lemma s32_u32_sub x m :
  - 2 ^ 31 <= x - m < 2 ^ 31 -> s32 (u32 (u32 x - m)) = x - m.
Proof.
  intros Hr. unfold s32, u32.
  rewrite Zplus_mod_idemp_l.
  replace (x mod 2 ^ 32 - m + 2 ^ 31) with (x mod 2 ^ 32 + (- m + 2 ^ 31)) by lia.
  rewrite Zplus_mod_idemp_l.
  rewrite Z.mod_small; lia.
Qed.

Lemma wrap_negative_spec fuel x m :
  0 < m < 2 ^ 31 -> - 2 ^ 31 <= x < 2 ^ 31 ->
  (Z.to_nat ((- x) / m + 1) <= fuel)%nat ->
  wrap_negative fuel x m = Some (if x <? 0 then x mod m else x).
Proof.
  intros Hm. revert x. induction fuel as [|fuel IH]; intros x Hx Hfuel; simpl.
  - destruct (x <? 0) eqn:Ex; [|done].
    assert (0 <= (- x) / m) by (apply Z.div_pos; lia). lia.
  - destruct (x <? 0) eqn:Ex; [|done].
    rewrite s32_u32_add by lia.
    assert (Hdiv : (- (x + m)) / m = (- x) / m - 1).
    { replace (- (x + m)) with (- x + (-1) * m) by lia.
      rewrite Z.div_add by lia. lia. }
    assert (0 <= (- x) / m) by (apply Z.div_pos; lia).
    rewrite IH by lia.
    f_equal. destruct (x + m <? 0) eqn:Exm.
    + replace (x + m) with (x + 1 * m) by lia. by rewrite Z.mod_add by lia.
    + apply Z.mod_unique_pos with (q := -1); lia.
Qed.

Lemma wrap_overflow_spec fuel x m :
  0 < m < 2 ^ 31 -> 0 <= x < 2 ^ 31 ->
  (Z.to_nat (x / m + 1) <= fuel)%nat ->
  wrap_overflow fuel x m = Some (x mod m).
Proof.
  intros Hm. revert x. induction fuel as [|fuel IH]; intros x Hx Hfuel; simpl.
  - assert (0 <= x / m) by (apply Z.div_pos; lia). lia.
  - destruct (m <=? u32 x) eqn:Emx; rewrite u32_small in Emx by lia.
    + rewrite s32_u32_sub by lia.
      assert (Hdiv : (x - m) / m = x / m - 1).
      { replace (x - m) with (x + (-1) * m) by lia.
        rewrite Z.div_add by lia. lia. }
      assert (0 <= x / m) by (apply Z.div_pos; lia).
      rewrite IH by lia.
      f_equal. replace (x - m) with (x + (-1) * m) by lia. by rewrite Z.mod_add by lia.
    + by rewrite Z.mod_small by lia.
Qed.


Lemma wrap_both_spec fuel x m :
  0 < m < 2 ^ 31 -> - 2 ^ 31 <= x < 2 ^ 31 ->
  (wrap_fuel <= fuel)%nat ->
  (x1 ← wrap_negative fuel x m; wrap_overflow fuel x1 m) = Some (x mod m).
Proof.
  intros Hm Hx Hfuel. unfold wrap_fuel in Hfuel.
  assert (Hq : forall a, a <= 2 ^ 31 -> (Z.to_nat (a / m + 1) <= fuel)%nat).
  { intros a Ha. destruct (Z.le_gt_cases 0 a).
    - assert (a / m <= a) by (apply Z.div_le_upper_bound; nia).
      assert (0 <= a / m) by (apply Z.div_pos; lia). lia.
    - assert (a / m < 0) by (apply Z.div_lt_upper_bound; lia). lia. }
  rewrite wrap_negative_spec by (try apply Hq; lia). simpl.
  pose proof (Z.mod_pos_bound x m ltac:(lia)).
  destruct (x <? 0) eqn:Ex.
  - rewrite wrap_overflow_spec by (try apply Hq; lia).
    by rewrite Z.mod_mod by lia.
  - by rewrite wrap_overflow_spec by (try apply Hq; lia).
Qed.

Lemma wrap_both_bind {B} fuel x m (k : Z -> option B) :
  0 < m < 2 ^ 31 -> - 2 ^ 31 <= x < 2 ^ 31 ->
  (wrap_fuel <= fuel)%nat ->
  (x1 ← wrap_negative fuel x m; x2 ← wrap_overflow fuel x1 m; k x2) = k (x mod m).
Proof.
  intros Hm Hx Hfuel.
  pose proof (wrap_both_spec fuel x m Hm Hx Hfuel) as Hboth.
  destruct (wrap_negative fuel x m) as [x1|]; simpl in *; [|done].
  by rewrite Hboth.
Qed.

Section TilemapPan.
Context {engine : Engine}.

(** The tilemap fields after an offset moved by [(dx, dy)]. *)
Local Abbreviation moved dx dy t :=
  (set_tm_yoffs (tm_yoffs t + dy) (set_tm_xoffs (tm_xoffs t + dx) t)).

Lemma moved_moved dx1 dy1 dx2 dy2 t :
  moved dx2 dy2 (moved dx1 dy1 t) = moved (dx1 + dx2) (dy1 + dy2) t.
Proof. destruct t. unfold set_tm_yoffs, set_tm_xoffs. simpl. f_equal; lia. Qed.

Local Ltac key_block state :=
  cbv zeta;
  destruct state as [? ? ? ? ? ? ? ? ? [wh x y z r f]];
  cbv beta delta [tilemap_key_up tilemap_key_down tilemap_key_left tilemap_key_right] zeta;
  simpl;
  repeat match goal with
         | |- context [if ?c then _ else _] => destruct c
         end;
  unfold set_bitmap_dirty, upd_tilemap, set_tilemap, set_tm_xoffs, set_tm_yoffs;
  simpl; f_equal; lia.

Lemma tilemap_key_up_spec input state :
  let ystep := if flag (tm_rotate (tilemap state)) ORIENTATION_FLIP_Y
               then - pan_step input else pan_step input in
  let v := if IPT_UI_UP input then - ystep else 0 in
  tilemap (tilemap_key_up input state)
  = if flag (tm_rotate (tilemap state)) ORIENTATION_SWAP_XY
    then moved v 0 (tilemap state) else moved 0 v (tilemap state).
Proof. key_block state. Qed.

Lemma tilemap_key_down_spec input state :
  let ystep := if flag (tm_rotate (tilemap state)) ORIENTATION_FLIP_Y
               then - pan_step input else pan_step input in
  let v := if IPT_UI_DOWN input then ystep else 0 in
  tilemap (tilemap_key_down input state)
  = if flag (tm_rotate (tilemap state)) ORIENTATION_SWAP_XY
    then moved v 0 (tilemap state) else moved 0 v (tilemap state).
Proof. key_block state. Qed.

Lemma tilemap_key_left_spec input state :
  let xstep := if flag (tm_rotate (tilemap state)) ORIENTATION_FLIP_X
               then - pan_step input else pan_step input in
  let h := if IPT_UI_LEFT input then - xstep else 0 in
  tilemap (tilemap_key_left input state)
  = if flag (tm_rotate (tilemap state)) ORIENTATION_SWAP_XY
    then moved 0 h (tilemap state) else moved h 0 (tilemap state).
Proof. key_block state. Qed.

Lemma tilemap_key_right_spec input state :
  let xstep := if flag (tm_rotate (tilemap state)) ORIENTATION_FLIP_X
               then - pan_step input else pan_step input in
  let h := if IPT_UI_RIGHT input then xstep else 0 in
  tilemap (tilemap_key_right input state)
  = if flag (tm_rotate (tilemap state)) ORIENTATION_SWAP_XY
    then moved 0 h (tilemap state) else moved h 0 (tilemap state).
Proof. key_block state. Qed.

Lemma tilemap_navigate_spec input state :
  tilemap (tilemap_navigate input state)
  = moved (pan_delta input (tm_rotate (tilemap state))).1
          (pan_delta input (tm_rotate (tilemap state))).2 (tilemap state).
Proof.
  unfold tilemap_navigate.
  rewrite tilemap_key_right_spec, tilemap_key_left_spec, tilemap_key_down_spec,
    tilemap_key_up_spec.
  unfold pan_delta.
  destruct (flag (tm_rotate (tilemap state)) ORIENTATION_SWAP_XY) eqn:Es;
    cbn [tm_rotate set_tm_yoffs set_tm_xoffs]; rewrite ?Es;
    cbn [tm_rotate set_tm_yoffs set_tm_xoffs]; rewrite ?Es;
    cbn [tm_rotate set_tm_yoffs set_tm_xoffs]; rewrite ?Es;
    rewrite !moved_moved; cbn [fst snd]; f_equal; f_equal;
    repeat match goal with
           | |- context [if ?c then _ else _] => destruct c
           end; lia.
Qed.

Lemma pan_step_cases input : pan_step input = 1 \/ pan_step input = 8 \/ pan_step input = 64.
Proof.
  unfold pan_step. destruct (KEYCODE_LSHIFT input), (KEYCODE_LCONTROL input); auto.
Qed.

Lemma pan_delta_bound input rotate :
  - 64 <= (pan_delta input rotate).1 <= 64 /\ - 64 <= (pan_delta input rotate).2 <= 64.
Proof.
  unfold pan_delta. pose proof (pan_step_cases input) as Hstep.
  destruct (flag rotate ORIENTATION_SWAP_XY), (flag rotate ORIENTATION_FLIP_X),
    (flag rotate ORIENTATION_FLIP_Y),
    (IPT_UI_UP input), (IPT_UI_DOWN input), (IPT_UI_LEFT input), (IPT_UI_RIGHT input);
    cbn [fst snd]; lia.
Qed.

Lemma tilemap_handle_keys_pan fuel machine input state t :
  is_pan input -> pan_ready machine state t -> (wrap_fuel <= fuel)%nat ->
  exists state',
    tilemap_handle_keys fuel machine input state = Some state'
    /\ pan_ready machine state' t
    /\ tm_rotate (tilemap state') = tm_rotate (tilemap state)
    /\ tm_xoffs (tilemap state')
       = (tm_xoffs (tilemap state) + (pan_delta input (tm_rotate (tilemap state))).1)
           mod tmap_width t
    /\ tm_yoffs (tilemap state')
       = (tm_yoffs (tilemap state) + (pan_delta input (tm_rotate (tilemap state))).2)
           mod tmap_height t.
Proof.
  intros (up & down & left & right & lshift & lcontrol & ->)
         (Hfind & Hw & Hh & Hx & Hy) Hfuel.
  set (input := pan_key up down left right lshift lcontrol).
  unfold tilemap_handle_keys.
  change (tilemap_select machine input state) with state.
  rewrite Hfind. simpl.
  change (tilemap_zoom_rotate_home input state) with state.
  change (tilemap_category input state) with state.
  pose proof (tilemap_navigate_spec input state) as Hnav.
  pose proof (pan_delta_bound input (tm_rotate (tilemap state))) as Hbound.
  destruct (pan_delta input (tm_rotate (tilemap state))) as [dx dy].
  cbn [fst snd] in *.
  unfold tilemap_wrap. rewrite Hnav. cbn [tm_xoffs tm_yoffs set_tm_xoffs set_tm_yoffs].
  rewrite !u32_small by lia.
  rewrite wrap_both_bind by lia.
  cbn [tilemap upd_tilemap set_tilemap tm_xoffs tm_yoffs set_tm_xoffs set_tm_yoffs].
  rewrite Hnav. cbn [tm_xoffs tm_yoffs set_tm_xoffs set_tm_yoffs].
  rewrite wrap_both_bind by lia.
  eexists. split; [reflexivity|]. simpl. rewrite Hnav. simpl.
  pose proof (Z.mod_pos_bound (tm_xoffs (tilemap state) + dx) (tmap_width t) ltac:(lia)).
  pose proof (Z.mod_pos_bound (tm_yoffs (tilemap state) + dy) (tmap_height t) ltac:(lia)).
  unfold pan_ready. simpl. rewrite Hnav. simpl. repeat split; try done; lia.
Qed.

Lemma pan_total_app l1 l2 rotate :
  pan_total (l1 ++ l2) rotate
  = ((pan_total l1 rotate).1 + (pan_total l2 rotate).1,
     (pan_total l1 rotate).2 + (pan_total l2 rotate).2).
Proof.
  induction l1 as [|a l1 IH]; simpl.
  - by destruct (pan_total l2 rotate).
  - rewrite IH. simpl. f_equal; lia.
Qed.

Lemma pan_total_replicate n input rotate :
  pan_total (replicate n input) rotate
  = (Z.of_nat n * (pan_delta input rotate).1, Z.of_nat n * (pan_delta input rotate).2).
Proof.
  induction n as [|n IH]; [reflexivity|].
  cbn [replicate pan_total foldr]. fold (pan_total (replicate n input) rotate).
  rewrite IH. cbn [fst snd]. f_equal; lia.
Qed.

Lemma pan_delta_up_down lshift lcontrol rotate :
  (pan_delta (key_up lshift lcontrol) rotate).1
  = - (pan_delta (key_down lshift lcontrol) rotate).1
  /\ (pan_delta (key_up lshift lcontrol) rotate).2
     = - (pan_delta (key_down lshift lcontrol) rotate).2.
Proof.
  unfold pan_delta, key_up, key_down, pan_key. cbn.
  destruct (flag rotate ORIENTATION_SWAP_XY), (flag rotate ORIENTATION_FLIP_Y),
    lshift, lcontrol; cbn; split; lia.
Qed.

Lemma pan_delta_left_right lshift lcontrol rotate :
  (pan_delta (key_left lshift lcontrol) rotate).1
  = - (pan_delta (key_right lshift lcontrol) rotate).1
  /\ (pan_delta (key_left lshift lcontrol) rotate).2
     = - (pan_delta (key_right lshift lcontrol) rotate).2.
Proof.
  unfold pan_delta, key_left, key_right, pan_key. cbn.
  destruct (flag rotate ORIENTATION_SWAP_XY), (flag rotate ORIENTATION_FLIP_X),
    lshift, lcontrol; cbn; split; lia.
Qed.

(** A run of pan frames: the offsets end at the start offsets plus the sum of
    the displacements, modulo the map size, and are wrapped into the map
    after each frame. *)
Lemma tilemap_run_pan fuel machine inputs state t :
  Forall is_pan inputs -> pan_ready machine state t -> (wrap_fuel <= fuel)%nat ->
  exists state',
    tilemap_run fuel machine inputs state = Some state'
    /\ pan_ready machine state' t
    /\ tm_rotate (tilemap state') = tm_rotate (tilemap state)
    /\ tm_xoffs (tilemap state') mod tmap_width t
       = (tm_xoffs (tilemap state) + (pan_total inputs (tm_rotate (tilemap state))).1)
           mod tmap_width t
    /\ tm_yoffs (tilemap state') mod tmap_height t
       = (tm_yoffs (tilemap state) + (pan_total inputs (tm_rotate (tilemap state))).2)
           mod tmap_height t
    /\ (inputs <> [] ->
        0 <= tm_xoffs (tilemap state') < tmap_width t
        /\ 0 <= tm_yoffs (tilemap state') < tmap_height t).
Proof.
  intros Hpan Hready Hfuel. unfold tilemap_run.
  induction inputs as [|input inputs IH] using rev_ind.
  - exists state. simpl. rewrite !Z.add_0_r. repeat split; try done; apply Hready.
  - apply Forall_app in Hpan as [Hpan Hlast].
    apply Forall_cons in Hlast as [Hlast _].
    destruct (IH Hpan) as (s1 & Hs1 & Hready1 & Hrot1 & Hx1 & Hy1 & _).
    destruct (tilemap_handle_keys_pan fuel machine input s1 t Hlast Hready1 Hfuel)
      as (s2 & Hs2 & Hready2 & Hrot2 & Hx2 & Hy2).
    exists s2. rewrite for_each_app, Hs1. simpl. rewrite Hs2. simpl.
    destruct Hready as (_ & Hw & Hh & _).
    rewrite pan_total_app. cbn [fst snd pan_total foldr].
    rewrite Hrot1 in *. rewrite Hx2, Hy2, !Z.add_0_r.
    split; [done|]. split; [done|]. split; [congruence|].
    split; [|split].
    + rewrite Z.mod_mod by lia. rewrite <- Zplus_mod_idemp_l, Hx1, Zplus_mod_idemp_l.
      f_equal. lia.
    + rewrite Z.mod_mod by lia. rewrite <- Zplus_mod_idemp_l, Hy1, Zplus_mod_idemp_l.
      f_equal. lia.
    + intros _. split; apply Z.mod_pos_bound; lia.
Qed.

(** C7: from any pan offsets, under any rotation code and with either
    modifier key held (step 1, 8 or 64), [n] frames of Down followed by [n]
    frames of Up, or [n] of Right followed by [n] of Left, bring [xoffs] and
    [yoffs] back to their start values modulo the map width and height; after
    every frame of the run the offsets lie in [0, width) and [0, height). *)
Theorem C7_tilemap_pan_round_trip machine state t (lshift lcontrol : bool) (n : nat) :
  pan_ready machine state t ->
  exists fuel0, forall fuel, (fuel0 <= fuel)%nat ->
    forall inputs,
      inputs = replicate n (key_down lshift lcontrol) ++ replicate n (key_up lshift lcontrol)
      \/ inputs = replicate n (key_right lshift lcontrol) ++ replicate n (key_left lshift lcontrol) ->
      (exists state',
          tilemap_run fuel machine inputs state = Some state'
          /\ tm_xoffs (tilemap state') mod tmap_width t
             = tm_xoffs (tilemap state) mod tmap_width t
          /\ tm_yoffs (tilemap state') mod tmap_height t
             = tm_yoffs (tilemap state) mod tmap_height t)
      /\ (forall k, (0 < k <= length inputs)%nat ->
            exists state_k,
              tilemap_run fuel machine (take k inputs) state = Some state_k
              /\ 0 <= tm_xoffs (tilemap state_k) < tmap_width t
              /\ 0 <= tm_yoffs (tilemap state_k) < tmap_height t).
Proof.
  intros Hready. exists wrap_fuel. intros fuel Hfuel inputs Hinputs.
  assert (Hpan : Forall is_pan inputs).
  { destruct Hinputs as [-> | ->]; apply Forall_app; split; apply Forall_replicate;
      unfold is_pan, key_down, key_up, key_left, key_right; eauto 10. }
  assert (Hzero : pan_total inputs (tm_rotate (tilemap state)) = (0, 0)).
  { destruct Hinputs as [-> | ->]; rewrite pan_total_app, !pan_total_replicate;
      cbn [fst snd].
    - destruct (pan_delta_up_down lshift lcontrol (tm_rotate (tilemap state))) as [-> ->].
      f_equal; lia.
    - destruct (pan_delta_left_right lshift lcontrol (tm_rotate (tilemap state))) as [-> ->].
      f_equal; lia. }
  split.
  - destruct (tilemap_run_pan fuel machine inputs state t Hpan Hready Hfuel)
      as (s & Hs & _ & _ & Hx & Hy & _).
    exists s. rewrite Hzero in Hx, Hy. cbn [fst snd] in Hx, Hy.
    rewrite Z.add_0_r in Hx, Hy. by repeat split.
  - intros k Hk.
    assert (Hpank : Forall is_pan (take k inputs)) by by apply Forall_take.
    destruct (tilemap_run_pan fuel machine (take k inputs) state t Hpank Hready Hfuel)
      as (s & Hs & _ & _ & _ & _ & Hrange).
    exists s. split; [done|]. apply Hrange.
    intros Hnil. apply (f_equal length) in Hnil. rewrite length_take in Hnil.
    simpl in Hnil. lia.
Qed.

End TilemapPan.

Lemma C7_tilemap_pan_round_trip_witness :
  exists fuel0, forall fuel, (fuel0 <= fuel)%nat ->
    forall inputs,
      inputs = replicate 2 (key_down true false) ++ replicate 2 (key_up true false)
      \/ inputs = replicate 2 (key_right true false) ++ replicate 2 (key_left true false) ->
      (exists state',
          tilemap_run (engine := example_engine) fuel machine_tilemap inputs state_tilemap
          = Some state'
          /\ tm_xoffs (tilemap state') mod tmap_width example_tilemap
             = tm_xoffs (tilemap state_tilemap) mod tmap_width example_tilemap
          /\ tm_yoffs (tilemap state') mod tmap_height example_tilemap
             = tm_yoffs (tilemap state_tilemap) mod tmap_height example_tilemap)
      /\ (forall k, (0 < k <= length inputs)%nat ->
            exists state_k,
              tilemap_run (engine := example_engine) fuel machine_tilemap (take k inputs)
                state_tilemap = Some state_k
              /\ 0 <= tm_xoffs (tilemap state_k) < tmap_width example_tilemap
              /\ 0 <= tm_yoffs (tilemap state_k) < tmap_height example_tilemap).
Proof.
  apply (C7_tilemap_pan_round_trip (engine := example_engine)
           machine_tilemap state_tilemap example_tilemap true false 2).
  unfold pan_ready. simpl. repeat split; lia.
Defined.

(** The run of the witness, executed: shift held, two frames down and two up
    under the quarter-turn orientation move [xoffs] 3 -> 4 -> 5 -> 4 -> 3. *)
Example tilemap_pan_example :
  (fun state => (tm_xoffs (tilemap state), tm_yoffs (tilemap state)))
    <$> tilemap_run (engine := example_engine) 8 machine_tilemap
          (replicate 2 (key_down true false) ++ replicate 2 (key_up true false))
          state_tilemap
  = Some (3, 7).
Proof. vm_compute. reflexivity. Qed.

(** ** Enumeration of the graphics sets *)

Lemma cell_set_cell_eq {A} `{Inhabited A} (a : list A) i v :
  0 <= i -> (Z.to_nat i < length a)%nat -> cell (set_cell a i v) i = v.
Proof.
  intros Hi Hlen. unfold cell, set_cell.
  apply list_lookup_total_correct. by apply list_lookup_insert_eq.
Qed.

Lemma cell_set_cell_ne {A} `{Inhabited A} (a : list A) i j v :
  0 <= i -> 0 <= j -> i <> j -> cell (set_cell a i v) j = cell a j.
Proof.
  intros Hi Hj Hne. unfold cell, set_cell.
  rewrite !list_lookup_total_alt, list_lookup_insert_ne; [done | lia].
Qed.

Lemma length_set_cell {A} (a : list A) i v : length (set_cell a i v) = length a.
Proof. apply length_insert. Qed.

Lemma info_of_upd_eq dev f state :
  0 <= dev -> (Z.to_nat dev < length (gfxdev state))%nat ->
  info_of (upd_gfxdev dev f state) dev = f (info_of state dev).
Proof. intros. unfold info_of, upd_gfxdev. simpl. by apply cell_set_cell_eq. Qed.

Lemma info_of_upd_ne dev d f state :
  0 <= dev -> 0 <= d -> dev <> d ->
  info_of (upd_gfxdev dev f state) d = info_of state d.
Proof. intros. unfold info_of, upd_gfxdev. simpl. by apply cell_set_cell_ne. Qed.


Section Enumeration.
Context {engine : Engine}.
Hypothesis MAX_GFX_ELEMENTS_u8 : 0 <= MAX_GFX_ELEMENTS <= 255.

Lemma count_gfx_sets_spec fuel interface count :
  0 <= count <= MAX_GFX_ELEMENTS ->
  count <= count_gfx_sets fuel interface count <= MAX_GFX_ELEMENTS
  /\ forall s, count <= s < count_gfx_sets fuel interface count ->
       is_Some (gfx interface s).
Proof.
  revert count. induction fuel as [|fuel IH]; intros count Hc; simpl.
  - split; [lia|]. intros s Hs. lia.
  - destruct (count <? MAX_GFX_ELEMENTS) eqn:Elt; simpl.
    2:{ split; [lia|]. intros s Hs. lia. }
    destruct (bool_decide (is_Some (gfx interface count))) eqn:Esome; simpl.
    2:{ split; [lia|]. intros s Hs. lia. }
    apply bool_decide_eq_true in Esome.
    rewrite u8_small by lia.
    destruct (IH (count + 1) ltac:(lia)) as [Hrange Hsome].
    split; [lia|]. intros s Hs.
    destruct (decide (s = count)) as [->|Hne]; [done|].
    apply Hsome. lia.
Qed.

Lemma info_of_upd dev d f state :
  0 <= dev -> 0 <= d ->
  info_of (upd_gfxdev dev f state) d = info_of state d
  \/ (d = dev /\ info_of (upd_gfxdev dev f state) d = f (info_of state dev)).
Proof.
  intros Hdev Hd. destruct (decide (d = dev)) as [->|Hne].
  - destruct (decide (Z.to_nat dev < length (gfxdev state))%nat) as [Hin|Hout].
    + right. split; [done|]. by apply info_of_upd_eq.
    + left. unfold info_of, upd_gfxdev, set_cell. simpl.
      rewrite list_insert_ge by lia. done.
  - left. apply info_of_upd_ne; lia.
Qed.


Lemma tables_ok_upd dev f state :
  0 <= dev ->
  (forall i, length (info_color_count (f i)) = length (info_color_count i)
             /\ length (info_color (f i)) = length (info_color i)
             /\ length (info_palette (f i)) = length (info_palette i)) ->
  tables_ok state -> tables_ok (upd_gfxdev dev f state).
Proof.
  intros Hdev Hf [Hlen Htab]. split.
  - unfold upd_gfxdev. simpl. by rewrite length_set_cell.
  - intros d Hd. destruct (info_of_upd dev d f state Hdev ltac:(lia)) as [-> | [-> ->]].
    + by apply Htab.
    + destruct (Hf (info_of state dev)) as (-> & -> & ->). by apply Htab.
Qed.

Lemma keeps_counts_upd dev f state d :
  0 <= dev -> 0 <= d -> keeps_counts f ->
  info_color_count (info_of (upd_gfxdev dev f state) d) = info_color_count (info_of state d)
  /\ info_setcount (info_of (upd_gfxdev dev f state) d) = info_setcount (info_of state d)
  /\ info_interface (info_of (upd_gfxdev dev f state) d) = info_interface (info_of state d).
Proof.
  intros Hdev Hd Hf.
  destruct (info_of_upd dev d f state Hdev Hd) as [-> | [-> ->]]; [done|].
  destruct (Hf (info_of state dev)) as (-> & -> & -> & _). done.
Qed.

Lemma device_ok_same state state' d :
  info_setcount (info_of state' d) = info_setcount (info_of state d) ->
  info_interface (info_of state' d) = info_interface (info_of state d) ->
  device_ok state d -> device_ok state' d.
Proof. unfold device_ok. by intros -> ->. Qed.

Lemma device_ok_keeps dev f state d :
  0 <= dev -> 0 <= d -> keeps_counts f ->
  device_ok state d -> device_ok (upd_gfxdev dev f state) d.
Proof.
  intros Hdev Hd Hf. destruct (keeps_counts_upd dev f state d Hdev Hd Hf) as (_ & ? & ?).
  by apply device_ok_same.
Qed.

Lemma keeps_counts_color_count slot v :
  forall i, info_setcount (set_info_color_count (set_cell (info_color_count i) slot v) i)
            = info_setcount i
            /\ info_interface (set_info_color_count (set_cell (info_color_count i) slot v) i)
               = info_interface i.
Proof. done. Qed.


Lemma upd_gfxdev_twice dev f g state :
  upd_gfxdev dev f (upd_gfxdev dev g state)
  = upd_gfxdev dev (fun i => f (g i)) state.
Proof.
  unfold upd_gfxdev, set_cell, cell. simpl.
  destruct (decide (Z.to_nat dev < length (gfxdev state))%nat) as [Hin|Hout].
  - rewrite list_lookup_total_insert_eq by done. by rewrite list_insert_insert_eq.
  - rewrite !(list_insert_ge (gfxdev state)) by lia. simpl.
    rewrite ?(list_insert_ge (gfxdev state)) by lia. by destruct state.
Qed.

Lemma color_count_write_twice dev k v1 v2 state :
  upd_gfxdev dev (fun i => set_info_color_count (set_cell (info_color_count i) k v2) i)
    (upd_gfxdev dev (fun i => set_info_color_count (set_cell (info_color_count i) k v1) i)
       state)
  = upd_gfxdev dev (fun i => set_info_color_count (set_cell (info_color_count i) k v2) i)
      state.
Proof.
  rewrite upd_gfxdev_twice. unfold upd_gfxdev. do 2 f_equal.
  destruct (cell (gfxdev state) dev). unfold set_info_color_count, set_cell. simpl.
  by rewrite list_insert_insert_eq.
Qed.






Lemma tables_ok_init orientation state0 :
  tables_ok (ui_gfx_init orientation state0).
Proof.
  assert (Hrep : exists info,
    gfxdev (ui_gfx_init orientation state0) = replicate (Z.to_nat MAX_GFX_DECODERS) info
    /\ length (info_color_count info) = Z.to_nat MAX_GFX_ELEMENTS
    /\ length (info_color info) = Z.to_nat MAX_GFX_ELEMENTS
    /\ length (info_palette info) = Z.to_nat MAX_GFX_ELEMENTS).
  { eexists. split; [reflexivity|]. cbn [info_color_count info_color info_palette].
    by rewrite !length_replicate. }
  destruct Hrep as (info & Hrep & Hlens).
  split; [by rewrite Hrep, length_replicate|].
  intros dev Hdev. unfold info_of, cell. rewrite Hrep.
  rewrite list_lookup_total_alt, lookup_replicate_2 by lia. done.
Qed.


(** *** The key handler of the graphics view *)

Lemma view_preserved_refl state : view_preserved state state.
Proof. split; [done|]. split; [done|]. intros d Hd. by repeat split. Qed.



Lemma view_preserved_if (b : bool) s1 s2 :
  view_preserved s1 s2 -> view_preserved s1 (if b then s2 else s1).
Proof. destruct b; [done|]. intros _. apply view_preserved_refl. Qed.





















End Enumeration.



(** The enumeration of [machine_gfx], executed: the recorded colour counts
    are 2 for [gfx_a], 1 for [gfx_c] (4 entries / granularity 16 = 0, forced
    to 1) and 1 for [gfx_b]. *)
Example count_devices_example :
  (fun state => (gs_devcount (gfxset state),
                 color_count_of state 0 0, color_count_of state 0 1,
                 color_count_of state 1 0))
    <$> ui_gfx_count_devices (engine := example_engine) machine_gfx
          (ui_gfx_init (engine := example_engine) 0 ui_gfx_zero)
  = Some (2, 2, 1, 1).
Proof. vm_compute. reflexivity. Qed.

(** ** Snapshot export *)

Section ExportProperties.
Context {engine : Engine} {host : FileHost}.

(** A loop whose body always returns and adds events to a log: the loop
    returns, and its events are those of the iterations, in order. *)
Lemma for_each_events {A St} (log : St -> list export_event) (Inv : St -> Prop)
    (P : A -> list export_event -> Prop) (l : list A) (body : A -> St -> option St) (s : St) :
  Inv s ->
  (forall a s, a ∈ l -> Inv s ->
     exists s' events, body a s = Some s' /\ Inv s' /\ log s' = log s ++ events /\ P a events) ->
  exists s' chunks,
    for_each l body s = Some s' /\ Inv s' /\ log s' = log s ++ concat chunks
    /\ Forall2 P l chunks.
Proof.
  revert s. induction l as [|a l IH]; intros s Hinv Hbody.
  - exists s, []. simpl. rewrite app_nil_r. repeat split; [done | constructor].
  - destruct (Hbody a s) as (s1 & events & Hrun & Hinv1 & Hlog1 & HP);
      [apply list_elem_of_here | done |].
    destruct (IH s1 Hinv1) as (s' & chunks & Hrest & Hinv' & Hlog' & Hall).
    { intros a' s0 Hin. apply Hbody. by apply list_elem_of_further. }
    exists s', (events :: chunks). simpl. rewrite Hrun. simpl.
    repeat split; [done | done | | by constructor].
    rewrite Hlog', Hlog1, <- app_assoc. done.
Qed.

(** The chunks of a loop over [l] whose iterations each handle the instance
    [f a] are the chunks of the instances [omap f l]. *)
Lemma Forall2_omap_instances {A B} (f : A -> option B) (Q : B -> list export_event -> Prop)
    (l : list A) (chunks : list (list export_event)) :
  Forall2 (fun a events => exists b, f a = Some b /\ Q b events) l chunks ->
  Forall2 Q (omap f l) chunks.
Proof.
  induction 1 as [|a events l chunks (b & Hb & HQ) _ IH]; simpl.
  - constructor.
  - rewrite Hb. by constructor.
Qed.

(** The chunks of nested loops, flattened. *)
Lemma Forall2_bind_instances {A B} (f : A -> list B) (Q : B -> list export_event -> Prop)
    (l : list A) (outer : list (list export_event)) :
  Forall2 (fun a events => exists chunks, events = concat chunks /\ Forall2 Q (f a) chunks)
    l outer ->
  exists chunks, concat outer = concat chunks /\ Forall2 Q (l ≫= f) chunks.
Proof.
  induction 1 as [|a events l outer (inner & -> & Hinner) _ (chunks & Hcat & Hall)].
  - exists []. split; [done | constructor].
  - exists (inner ++ chunks). split.
    + simpl. rewrite concat_app. by rewrite Hcat.
    + simpl. by apply Forall2_app.
Qed.

Lemma attempts_app log1 log2 : attempts (log1 ++ log2) = attempts log1 ++ attempts log2.
Proof. unfold attempts. apply omap_app. Qed.

Lemma attempts_encoder image entries colors error :
  attempts (encoder_events image entries colors error) = [].
Proof. unfold encoder_events. by destruct (error =? 0). Qed.

(** [open_next_file] leaves the viewer state alone and logs its attempt. *)
Lemma open_next_file_spec machine name extension w :
  template_ok machine ->
  exists opened w',
    open_next_file machine name extension w = Some (opened, w')
    /\ w_state w' = w_state w
    /\ w_log w' = w_log w ++ [EvOpen name extension opened].
Proof.
  intros Hok. unfold open_next_file.
  destruct (Hok extension) as [snapstr ->]. simpl.
  destruct (open_numbered (w_files w) snapstr name) as [opened disk].
  by exists opened, (World (w_state w) disk (w_log w ++ [EvOpen name extension opened])).
Qed.

Lemma gfxset_save_snapshot_spec image entries pal w :
  exists error,
    w_state (gfxset_save_snapshot image entries pal w) = w_state w
    /\ w_log (gfxset_save_snapshot image entries pal w)
       = w_log w ++ encoder_events image entries pal error.
Proof.
  unfold gfxset_save_snapshot, encoder_events.
  destruct (png_write_bitmap (w_files w) image entries pal) as [error disk].
  exists error. destruct (error =? 0); simpl; [done|].
  by rewrite <- app_assoc.
Qed.

(** [export_kept] is a preorder. *)
Lemma export_kept_refl state : export_kept state state.
Proof. unfold export_kept. repeat split. Qed.

Lemma export_kept_trans state1 state2 state3 :
  export_kept state1 state2 -> export_kept state2 state3 -> export_kept state1 state3.
Proof.
  unfold export_kept.
  intros (A1 & A2 & A3 & A4 & A5 & A6 & A7 & A8 & A9 & A10 & A11 & A12 & A13)
         (B1 & B2 & B3 & B4 & B5 & B6 & B7 & B8 & B9 & B10 & B11 & B12 & B13).
  repeat split; try congruence;
    destruct (A13 d ltac:(done)) as (C1 & C2 & C3 & C4 & C5 & C6 & C7);
    destruct (B13 d ltac:(done)) as (D1 & D2 & D3 & D4 & D5 & D6 & D7); congruence.
Qed.

Lemma export_kept_palette f state :
  pal_devcount (f (palette state)) = pal_devcount (palette state) ->
  pal_columns (f (palette state)) = pal_columns (palette state) ->
  pal_offset (f (palette state)) = pal_offset (palette state) ->
  export_kept state (upd_palette f state).
Proof. intros H1 H2 H3. unfold export_kept. simpl. repeat split; done. Qed.

Lemma export_kept_palette_set_device machine state :
  export_kept state (palette_set_device machine state).
Proof. by apply export_kept_palette. Qed.

Lemma export_kept_set state v : export_kept state (upd_gfxset (set_gs_set v) state).
Proof. unfold export_kept. simpl. repeat split; done. Qed.

Lemma export_kept_color dev set color state :
  0 <= dev ->
  export_kept state
    (upd_gfxdev dev (fun info => set_info_color (set_cell (info_color info) set color) info)
       state).
Proof.
  intros Hdev. unfold export_kept. repeat split; try done;
    destruct (info_of_upd dev d
                (fun info => set_info_color (set_cell (info_color info) set color) info)
                state Hdev ltac:(done)) as [-> | [-> ->]]; done.
Qed.

Lemma for_each_total {A St} (l : list A) (body : A -> St -> option St) (s : St) :
  (forall a s, is_Some (body a s)) -> is_Some (for_each l body s).
Proof.
  intros Hbody. revert s. induction l as [|a l IH]; intros s; simpl; [done|].
  destruct (Hbody a s) as [s1 ->]. simpl. apply IH.
Qed.

Lemma update_bitmap_rows_total eff info set xcells ycells cellxpix cellypix g dest :
  is_Some (cell (info_palette info) set) ->
  is_Some (update_bitmap_rows (draw_item_with eff) info set xcells ycells cellxpix cellypix
             g dest).
Proof.
  intros [p Hp]. unfold update_bitmap_rows. apply for_each_total. intros y b.
  destruct (_ <? gfx_elements g); [|done].
  apply for_each_total. intros x b0.
  destruct (_ <? gfx_elements g); [|done].
  unfold draw_item_with. rewrite Hp. done.
Qed.

(** [gfxset_update_save_bitmap] returns a raster of [xcells] by [ycells]
    cells, in a buffer of its own. *)
Lemma gfxset_update_save_bitmap_spec dest state xcells ycells g :
  let info := info_of state (gs_devindex (gfxset state)) in
  let set := gs_set (gfxset state) in
  is_Some (cell (info_palette info) set) ->
  exists image,
    gfxset_update_save_bitmap dest state xcells ycells g = Some image
    /\ bitmap_shape image
       = (true, cell_width (gfx_width g) (gfx_height g) (cell (info_rotate info) set) * xcells,
          cell_height (gfx_width g) (gfx_height g) (cell (info_rotate info) set) * ycells).
Proof.
  intros info set Hpal. unfold gfxset_update_save_bitmap.
  fold (info_of state (gs_devindex (gfxset state))). fold info. fold set.
  match goal with |- context [update_bitmap_rows ?d ?i ?s ?x ?y ?cx ?cy ?g ?b] =>
    destruct (update_bitmap_rows_total gfxset_draw_save_item_eff i s x y cx cy g b Hpal)
      as [image Himage]
  end.
  exists image. split; [exact Himage|].
  apply update_bitmap_rows_shape in Himage; [|apply draw_item_with_shape].
  rewrite Himage. reflexivity.
Qed.

Lemma export_kept_info state state' d :
  export_kept state state' -> 0 <= d ->
  info_interface (info_of state' d) = info_interface (info_of state d)
  /\ info_setcount (info_of state' d) = info_setcount (info_of state d)
  /\ info_rotate (info_of state' d) = info_rotate (info_of state d)
  /\ info_palette (info_of state' d) = info_palette (info_of state d).
Proof.
  intros (_ & _ & _ & _ & _ & _ & _ & _ & _ & _ & _ & _ & Hinfo) Hd.
  destruct (Hinfo d Hd) as (H1 & H2 & H3 & _ & _ & H6 & _). done.
Qed.

Lemma export_kept_devindex state state' :
  export_kept state state' -> gs_devindex (gfxset state') = gs_devindex (gfxset state).
Proof. by intros (_ & _ & _ & _ & _ & _ & _ & _ & H & _). Qed.

(** One colour of one set: the body returns, keeps what an export keeps, and
    its events are those of the instance. *)
Lemma gfxset_save_color_spec machine state0 set g gpal num_colors color image w :
  template_ok machine -> gfxset_export_ready state0 ->
  export_kept state0 (w_state w) ->
  0 <= set < info_setcount (info_of state0 (gs_devindex (gfxset state0))) ->
  gfx_palette g = Some gpal ->
  exists acc' events,
    gfxset_save_color machine (gs_devindex (gfxset state0)) set g gpal 32
      ((gfx_elements g + 32 - 1) ÷ 32) num_colors color (image, w) = Some acc'
    /\ export_kept state0 (w_state acc'.2)
    /\ w_log acc'.2 = w_log w ++ events
    /\ gfxset_instance_events state0 (set, g, color) events.
Proof.
  intros Hok (Hdev & Hcount & interface & Hint & Hsets) Hkept Hset Hgpal.
  set (dev := gs_devindex (gfxset state0)) in *.
  unfold gfxset_save_color.
  set (state1 := upd_gfxdev dev _ (upd_gfxset (set_gs_set (u8 set)) (w_state w))).
  assert (Hkept1 : export_kept state0 state1).
  { eapply export_kept_trans; [exact Hkept|].
    eapply export_kept_trans; [apply export_kept_set|]. by apply export_kept_color. }
  assert (Hdev1 : gs_devindex (gfxset state1) = dev) by by apply export_kept_devindex.
  assert (Hset1 : gs_set (gfxset state1) = set) by (simpl; apply u8_small; lia).
  destruct (export_kept_info _ _ dev Hkept1 Hdev) as (_ & Hsc1 & Hrot1 & Hpal1).
  destruct (Hsets set Hset) as [Hpal _].
  destruct (gfxset_update_save_bitmap_spec image state1 32 ((gfx_elements g + 32 - 1) ÷ 32) g)
    as (image' & Hupd & Hshape).
  { rewrite Hdev1, Hset1, Hpal1. exact Hpal. }
  rewrite Hdev1, Hset1, Hrot1 in Hshape.
  rewrite Hupd. cbn [mbind option_bind].
  set (state2 := palette_set_device machine _).
  assert (Hkept2 : export_kept state0 state2).
  { eapply export_kept_trans; [exact Hkept1|].
    eapply export_kept_trans; [|apply export_kept_palette_set_device].
    eapply export_kept_trans; by apply export_kept_palette. }
  destruct (open_next_file_spec machine (gfxset_filename set g color) "png"
              (World state2 (w_files w) (w_log w)) Hok) as (opened & w1 & Hopen & Hst & Hlog).
  rewrite Hopen. cbn [mbind option_bind]. simpl in Hst, Hlog.
  destruct opened.
  - match goal with |- context [gfxset_save_snapshot ?i ?n ?p ?w] =>
      destruct (gfxset_save_snapshot_spec i n p w) as (error & Hst2 & Hlog2);
      set (w2 := gfxset_save_snapshot i n p w) in *
    end.
    eexists (_, _), _. split; [reflexivity|]. cbn [snd emit w_state w_log].
    split; [by rewrite Hst2, Hst|]. split.
    + rewrite Hlog2, Hlog, <- !app_assoc. reflexivity.
    + right. exists image', num_colors, error. split; [exact Hshape|].
      cbn [app]. rewrite Hgpal. cbn [from_option].
      rewrite Hst2, Hst.
      fold (info_of state2 dev).
      destruct (export_kept_info _ _ dev Hkept2 Hdev) as (_ & -> & _). reflexivity.
  - eexists (_, _), _. split; [reflexivity|]. cbn [snd].
    split; [by rewrite Hst|]. split; [exact Hlog|]. by left.
Qed.

(** One set: the loop over its colours. *)
Lemma gfxset_save_set_spec machine state0 interface set image w :
  template_ok machine -> gfxset_export_ready state0 ->
  info_interface (info_of state0 (gs_devindex (gfxset state0))) = Some interface ->
  export_kept state0 (w_state w) ->
  0 <= set < info_setcount (info_of state0 (gs_devindex (gfxset state0))) ->
  exists acc' events,
    gfxset_save_set machine (gs_devindex (gfxset state0)) interface set (image, w) = Some acc'
    /\ export_kept state0 (w_state acc'.2)
    /\ w_log acc'.2 = w_log w ++ events
    /\ exists chunks,
         events = concat chunks
         /\ Forall2 (gfxset_instance_events state0)
              (match gfx interface set with
               | Some g => (fun color => (set, g, color)) <$> seqZ 0 (Z.min (gfx_colors g) 32)
               | None => []
               end) chunks.
Proof.
  intros Hok Hready Hint Hkept Hset.
  pose proof Hready as (Hdev & Hcount & interface' & Hint' & Hsets).
  rewrite Hint in Hint'. injection Hint' as <-.
  destruct (Hsets set Hset) as (_ & g & Hg & gpal & Hgpal).
  unfold gfxset_save_set. rewrite Hg. cbn [mbind option_bind]. rewrite Hgpal.
  cbn [mbind option_bind].
  set (w1 := if 0 <? pal_indirect_entries gpal then _ else w).
  assert (Hkept1 : export_kept state0 (w_state w1)).
  { subst w1. destruct (0 <? pal_indirect_entries gpal); [|done].
    eapply export_kept_trans; [exact Hkept|]. by apply export_kept_palette. }
  assert (Hlog1 : w_log w1 = w_log w) by (subst w1; by destruct (0 <? _)).
  set (num_colors := if pal_which _ =? 0 then _ else _).
  destruct (for_each_events (fun acc : bitmap * world => w_log acc.2)
              (fun acc => export_kept state0 (w_state acc.2))
              (fun color => gfxset_instance_events state0 (set, g, color))
              (seqZ 0 (if 32 <? gfx_colors g then 32 else gfx_colors g))
              (gfxset_save_color machine (gs_devindex (gfxset state0)) set g gpal 32
                 ((gfx_elements g + 32 - 1) ÷ 32) num_colors)
              (image, w1) Hkept1) as (acc' & chunks & Hrun & Hkept' & Hlog' & Hall).
  { intros color [image0 w0] _ Hinv. by apply gfxset_save_color_spec. }
  exists acc', (concat chunks). split; [exact Hrun|]. split; [exact Hkept'|].
  split; [by rewrite Hlog'; cbn [snd]; rewrite Hlog1|].
  exists chunks. split; [done|].
  apply Forall2_fmap_l.
  replace (Z.min (gfx_colors g) 32) with (if 32 <? gfx_colors g then 32 else gfx_colors g);
    [exact Hall|].
  destruct (32 <? gfx_colors g) eqn:E; lia.
Qed.

(** [gfxset_handle_save] returns; it keeps what an export keeps, and its
    events are those of the instances of the current device, one after the
    other, then the closing message. *)
Lemma gfxset_handle_save_spec machine w :
  template_ok machine -> gfxset_export_ready (w_state w) ->
  exists w' chunks,
    gfxset_handle_save machine w = Some w'
    /\ export_kept (w_state w) (w_state w')
    /\ w_log w' = w_log w ++ concat chunks ++ [EvPrintf gfxset_finished]
    /\ Forall2 (gfxset_instance_events (w_state w)) (gfxset_current_instances (w_state w))
         chunks.
Proof.
  intros Hok Hready.
  pose proof Hready as (Hdev & Hcount & interface & Hint & Hsets).
  unfold gfxset_handle_save, gfxset_current_instances.
  fold (info_of (w_state w) (gs_devindex (gfxset (w_state w)))).
  rewrite Hint. cbn [mbind option_bind].
  match goal with |- context [for_each ?l ?body ?s] =>
    destruct (for_each_events (fun acc : bitmap * world => w_log acc.2)
                (fun acc => export_kept (w_state w) (w_state acc.2))
                (fun set events => exists chunks,
                   events = concat chunks
                   /\ Forall2 (gfxset_instance_events (w_state w))
                        (match gfx interface set with
                         | Some g =>
                             (fun color => (set, g, color)) <$> seqZ 0 (Z.min (gfx_colors g) 32)
                         | None => []
                         end) chunks)
                l body s (export_kept_refl _))
      as ([image' w'] & outer & Hrun & Hkept' & Hlog' & Hall)
  end.
  { intros set [image0 w0] Hin Hinv. apply elem_of_seqZ in Hin.
    apply gfxset_save_set_spec; [done | done | done | done | lia]. }
  rewrite Hrun. cbn [mbind option_bind].
  destruct (Forall2_bind_instances _ _ _ _ Hall) as (chunks & Hcat & Hflat).
  exists (emit (EvPrintf gfxset_finished) w'), chunks.
  split; [reflexivity|]. split; [exact Hkept'|]. split.
  - cbn [emit w_log snd] in *. rewrite Hlog', Hcat, <- app_assoc. reflexivity.
  - exact Hflat.
Qed.

(** One tilemap. *)
Lemma tilemap_save_map_spec machine map w :
  template_ok machine -> 0 <= map < tilemap_count machine ->
  exists w' events,
    tilemap_save_map machine map w = Some w'
    /\ w_state w' = w_state w
    /\ w_log w' = w_log w ++ events
    /\ exists instance,
         (fun t => (map, t)) <$> tilemap_find machine map = Some instance
         /\ tilemap_instance_events machine (w_state w) instance events.
Proof.
  intros Hok Hmap. unfold tilemap_save_map.
  assert (Hfind : is_Some (tilemap_find machine map)).
  { unfold tilemap_find, tilemap_count in *. destruct (map <? 0) eqn:E; [lia|].
    apply lookup_lt_is_Some. lia. }
  destruct Hfind as [t Ht]. rewrite Ht. cbn [mbind option_bind fmap option_fmap option_map].
  unfold tilemap_instance_events.
  destruct (flag (tm_rotate (tilemap (w_state w))) ORIENTATION_SWAP_XY);
    match goal with |- context [open_next_file machine ?name "png" w] =>
      destruct (open_next_file_spec machine name "png" w Hok)
        as (opened & w1 & Hopen & Hst & Hlog); rewrite Hopen
    end; cbn [mbind option_bind]; destruct opened;
    try (eexists _, [EvOpen _ "png" false]; split; [reflexivity|];
         split; [done|]; split; [done|]; eexists; split; [reflexivity|]; by left);
    (unfold gfxset_save_snapshot_ind16;
     match goal with |- context [gfxset_save_snapshot ?i ?n ?p ?w0] =>
       destruct (gfxset_save_snapshot_spec i n p w0) as (error & Hst2 & Hlog2)
     end;
     eexists _, _; split; [reflexivity|]; cbn [emit w_state w_log];
     split; [by rewrite Hst2|]; split;
     [rewrite Hlog2, Hlog, <- !app_assoc; reflexivity|];
     eexists; split; [reflexivity|]; right; exists error; reflexivity).
Qed.

(** [tilemap_handle_save] returns and leaves the viewer state as it was; its
    events are those of the tilemaps, one after the other, then the closing
    message. *)
Lemma tilemap_handle_save_spec machine w :
  template_ok machine ->
  exists w' chunks,
    tilemap_handle_save machine w = Some w'
    /\ w_state w' = w_state w
    /\ w_log w' = w_log w ++ concat chunks ++ [EvPrintf tilemap_finished]
    /\ Forall2 (tilemap_instance_events machine (w_state w)) (tilemap_export_instances machine)
         chunks.
Proof.
  intros Hok. unfold tilemap_handle_save, tilemap_export_instances.
  destruct (for_each_events w_log (fun w' => w_state w' = w_state w)
              (fun map events => exists instance,
                 (fun t => (map, t)) <$> tilemap_find machine map = Some instance
                 /\ tilemap_instance_events machine (w_state w) instance events)
              (seqZ 0 (tilemap_count machine)) (tilemap_save_map machine) w eq_refl)
    as (w' & chunks & Hrun & Hst & Hlog & Hall).
  { intros map w0 Hin Hinv. apply elem_of_seqZ in Hin.
    destruct (tilemap_save_map_spec machine map w0 Hok ltac:(lia))
      as (w1 & events & H1 & H2 & H3 & H4).
    exists w1, events. rewrite <- Hinv. repeat split; [done | congruence | done | done]. }
  rewrite Hrun. cbn [mbind option_bind].
  exists (emit (EvPrintf tilemap_finished) w'), chunks.
  split; [reflexivity|]. split; [exact Hst|]. split.
  - cbn [emit w_log]. rewrite Hlog, <- app_assoc. reflexivity.
  - by apply Forall2_omap_instances.
Qed.

(** As [for_each_events], with an invariant that sees the iterations done
    so far. *)
Lemma for_each_events_done {A St} (log : St -> list export_event)
    (Inv : list A -> St -> Prop) (P : A -> list export_event -> Prop)
    (l : list A) (body : A -> St -> option St) (s : St) :
  Inv [] s ->
  (forall past a s, a ∈ l -> Inv past s ->
     exists s' events,
       body a s = Some s' /\ Inv (past ++ [a]) s' /\ log s' = log s ++ events /\ P a events) ->
  exists s' chunks,
    for_each l body s = Some s' /\ Inv l s' /\ log s' = log s ++ concat chunks
    /\ Forall2 P l chunks.
Proof.
  revert Inv s. induction l as [|a l IH]; intros Inv s Hinv Hbody.
  - exists s, []. simpl. rewrite app_nil_r. repeat split; [done | constructor].
  - destruct (Hbody [] a s) as (s1 & events & Hrun & Hinv1 & Hlog1 & HP);
      [apply list_elem_of_here | done |].
    destruct (IH (fun past => Inv (a :: past)) s1 Hinv1)
      as (s' & chunks & Hrest & Hinv' & Hlog' & Hall).
    { intros past a' s0 Hin Hpast.
      apply (Hbody (a :: past) a' s0); [by apply list_elem_of_further | done]. }
    exists s', (events :: chunks). simpl. rewrite Hrun. simpl.
    repeat split; [done | done | | by constructor].
    rewrite Hlog', Hlog1, <- app_assoc. done.
Qed.

Lemma foldl_puts {A} (f : world -> A -> world) (l : list A) (w : world) :
  (forall w a, exists lines,
      Forall is_puts lines /\ f w a = World (w_state w) (w_files w) (w_log w ++ lines)) ->
  exists lines,
    Forall is_puts lines /\ foldl f w l = World (w_state w) (w_files w) (w_log w ++ lines).
Proof.
  intros Hf. revert w. induction l as [|a l IH]; intros w; simpl.
  - exists []. split; [constructor|]. rewrite app_nil_r. by destruct w.
  - destruct (Hf w a) as (lines1 & Hl1 & ->).
    destruct (IH (World (w_state w) (w_files w) (w_log w ++ lines1))) as (lines2 & Hl2 & ->).
    exists (lines1 ++ lines2). split; [by apply Forall_app|].
    simpl. by rewrite <- app_assoc.
Qed.

(** The body of the text file: lines, and nothing else. *)
Lemma palette_save_text_spec p which total columns size_x size_y w :
  exists lines,
    Forall is_puts lines
    /\ palette_save_text p which total columns size_x size_y w
       = World (w_state w) (w_files w) (w_log w ++ lines).
Proof.
  unfold palette_save_text. apply foldl_puts. intros w0 y.
  apply foldl_puts. intros w1 x.
  destruct (y * columns + x <? total).
  - eexists [_]. split; [|reflexivity]. by repeat constructor.
  - exists []. split; [constructor|]. rewrite app_nil_r. by destruct w1.
Qed.

Lemma export_kept_palette_layout state state' :
  export_kept state state' ->
  pal_devcount (palette state') = pal_devcount (palette state)
  /\ pal_columns (palette state') = pal_columns (palette state).
Proof. by intros (_ & _ & _ & _ & _ & _ & _ & _ & _ & H1 & H2 & _). Qed.

(** One palette device in one pass. *)
Lemma palette_save_device_spec machine state0 which palidx pal w :
  template_ok machine -> palette_export_ready machine state0 ->
  export_kept state0 (w_state w) ->
  pal_which (palette (w_state w)) = which ->
  0 <= palidx < pal_devcount (palette state0) ->
  exists acc' events,
    palette_save_device machine palidx (pal, w) = Some acc'
    /\ export_kept state0 (w_state acc'.2)
    /\ pal_which (palette (w_state acc'.2)) = which
    /\ pal_devindex (palette (w_state acc'.2)) = palidx
    /\ acc'.1 = byindex machine palidx
    /\ w_log acc'.2 = w_log w ++ events
    /\ exists instance,
         (fun p => (which, palidx, p)) <$> byindex machine palidx = Some instance
         /\ palette_instance_events (pal_devcount (palette state0)) instance events.
Proof.
  intros Hok (Hcount & Hcols & Hdevs) Hkept Hwhich Hidx.
  unfold palette_save_device.
  set (state1 := palette_set_device machine _).
  assert (Hkept1 : export_kept state0 state1).
  { eapply export_kept_trans; [exact Hkept|].
    eapply export_kept_trans; [|apply export_kept_palette_set_device].
    by apply export_kept_palette. }
  destruct (export_kept_palette_layout _ _ Hkept1) as [Hdc1 Hcol1].
  destruct (Hdevs palidx Hidx) as [p Hp].
  change (pal_interface (palette state1)) with (byindex machine palidx).
  change (pal_which (palette state1)) with (pal_which (palette (w_state w))).
  rewrite Hp, Hwhich. cbn [mbind option_bind fmap option_fmap option_map].
  destruct (open_next_file_spec machine (palette_filename palidx p which) "txt"
              (World state1 (w_files w) (w_log w)) Hok) as (opened & w1 & Hopen & Hst & Hlog).
  rewrite Hopen. cbn [mbind option_bind]. simpl in Hst, Hlog.
  destruct opened.
  - rewrite Hst, Hcol1. unfold div_int.
    destruct (pal_columns (palette state0) =? 0) eqn:Ecol; [lia|]. cbn [mbind option_bind].
    match goal with |- context [palette_save_text ?p ?wh ?t ?c ?sx ?sy ?w0] =>
      destruct (palette_save_text_spec p wh t c sx sy w0) as (lines & Hlines & ->)
    end.
    match goal with |- context [open_next_file machine ?n "png" ?w0] =>
      destruct (open_next_file_spec machine n "png" w0 Hok)
        as (opened & w2 & Hopen2 & Hst2 & Hlog2)
    end.
    rewrite Hopen2. cbn [mbind option_bind]. cbn [emit w_state w_log] in Hst2, Hlog2.
    destruct opened.
    + match goal with |- context [gfxset_save_snapshot ?i ?n ?c ?w0] =>
        destruct (gfxset_save_snapshot_spec i n c w0) as (error & Hst3 & Hlog3);
        set (w3 := gfxset_save_snapshot i n c w0) in *
      end.
      eexists (_, _), _. split; [reflexivity|]. cbn [fst snd emit w_state w_log].
      rewrite Hst3, Hst2, Hst, Hdc1.
      split; [exact Hkept1|]. split; [exact Hwhich|]. split; [reflexivity|].
      split; [reflexivity|]. split.
      * rewrite Hlog3, Hlog2, Hlog, <- !app_assoc. reflexivity.
      * eexists. split; [reflexivity|]. right.
        eexists (_ :: _ :: _ :: lines), (_ :: _). split; [|split].
        2: { cbn [app]. reflexivity. }
        2: { right. by eexists _, _. }
        repeat (apply Forall_cons; split; [exact I|]). exact Hlines.
    + eexists (_, _), _. split; [reflexivity|]. cbn [fst snd emit w_state w_log].
      rewrite Hst2, Hst, Hdc1.
      split; [exact Hkept1|]. split; [exact Hwhich|]. split; [reflexivity|].
      split; [reflexivity|]. split.
      * rewrite Hlog2, Hlog, <- !app_assoc. reflexivity.
      * eexists. split; [reflexivity|]. right.
        eexists (_ :: _ :: _ :: lines), [_]. split; [|split].
        2: { cbn [app]. reflexivity. }
        2: { by left. }
        repeat (apply Forall_cons; split; [exact I|]). exact Hlines.
  - eexists (_, _), _. split; [reflexivity|]. cbn [fst snd]. rewrite Hst.
    split; [exact Hkept1|]. split; [exact Hwhich|]. split; [reflexivity|].
    split; [reflexivity|]. split; [exact Hlog|].
    eexists. split; [reflexivity|]. by left.
Qed.

Lemma last_seqZ n : 0 < n -> last (seqZ 0 n) = Some (n - 1).
Proof.
  intros Hn. rewrite last_lookup, length_seqZ, lookup_seqZ_lt by lia. f_equal. lia.
Qed.

(** One pass over the palette devices. *)
Lemma palette_save_pass_spec machine state0 which pal w :
  template_ok machine -> palette_export_ready machine state0 ->
  export_kept state0 (w_state w) ->
  pal_which (palette (w_state w)) = which ->
  let devcount := pal_devcount (palette state0) in
  exists acc' chunks,
    palette_save_pass machine (pal, w) = Some acc'
    /\ export_kept state0 (w_state acc'.2)
    /\ pal_which (palette (w_state acc'.2)) = which
    /\ pal_devindex (palette (w_state acc'.2)) = devcount - 1
    /\ acc'.1 = byindex machine (devcount - 1)
    /\ w_log acc'.2 = w_log w ++ concat chunks
    /\ Forall2 (palette_instance_events devcount)
         (palette_pass_instances machine devcount which) chunks.
Proof.
  intros Hok Hready Hkept Hwhich devcount.
  pose proof Hready as (Hcount & _).
  unfold palette_save_pass. cbn [snd].
  destruct (export_kept_palette_layout _ _ Hkept) as [-> _]. fold devcount.
  destruct (for_each_events_done (fun acc : option palette_device * world => w_log acc.2)
              (fun past acc =>
                 export_kept state0 (w_state acc.2)
                 /\ pal_which (palette (w_state acc.2)) = which
                 /\ forall a, last past = Some a ->
                      pal_devindex (palette (w_state acc.2)) = a /\ acc.1 = byindex machine a)
              (fun palidx events => exists instance,
                 (fun p => (which, palidx, p)) <$> byindex machine palidx = Some instance
                 /\ palette_instance_events devcount instance events)
              (seqZ 0 devcount) (palette_save_device machine) (pal, w))
    as (acc' & chunks & Hrun & (Hkept' & Hwhich' & Hlast) & Hlog & Hall).
  { split; [done|]. split; [done|]. by intros a [=]. }
  { intros past palidx [pal0 w0] Hin (Hk & Hw & _). apply elem_of_seqZ in Hin.
    destruct (palette_save_device_spec machine state0 which palidx pal0 w0 Hok Hready Hk Hw
                ltac:(fold devcount; lia))
      as (acc1 & events & H1 & H2 & H3 & H4 & H5 & H6 & H7).
    exists acc1, events. split; [done|]. split; [|done].
    split; [done|]. split; [done|].
    intros a. rewrite last_snoc. by intros [= <-]. }
  destruct (Hlast (devcount - 1)) as [Hidx Hpal]; [apply last_seqZ; done|].
  exists acc', chunks. split; [done|]. split; [done|]. split; [done|].
  split; [done|]. split; [done|]. split; [done|].
  by apply Forall2_omap_instances.
Qed.

(** [palette_handle_save] returns; it keeps what an export keeps and leaves
    the palette view on the last device; its events are those of the
    instances, one after the other, then the closing message. *)
Lemma palette_handle_save_spec machine w :
  template_ok machine -> palette_export_ready machine (w_state w) ->
  let devcount := pal_devcount (palette (w_state w)) in
  exists w' chunks,
    palette_handle_save machine w = Some w'
    /\ export_kept (w_state w) (w_state w')
    /\ pal_devindex (palette (w_state w')) = devcount - 1
    /\ w_log w' = w_log w ++ concat chunks ++ [EvPrintf palette_finished]
    /\ Forall2 (palette_instance_events devcount) (palette_export_instances machine devcount)
         chunks.
Proof.
  intros Hok Hready devcount.
  pose proof Hready as (Hcount & _ & Hdevs).
  unfold palette_handle_save, palette_export_instances.
  set (w0 := on_state (upd_palette (set_pal_which 0)) w).
  assert (Hkept0 : export_kept (w_state w) (w_state w0)) by by apply export_kept_palette.
  destruct (palette_save_pass_spec machine (w_state w) 0 (pal_interface (palette (w_state w)))
              w0 Hok Hready Hkept0 eq_refl)
    as ([pal1 w1] & chunks0 & Hrun0 & Hkept1 & Hwhich1 & Hidx1 & Hpal1 & Hlog1 & Hall0).
  fold devcount in Hidx1, Hpal1, Hall0.
  rewrite Hrun0. cbn [mbind option_bind]. cbn [fst snd] in *.
  destruct (Hdevs (devcount - 1)) as [p Hp]; [fold devcount; lia|].
  rewrite Hpal1, Hp. cbn [mbind option_bind].
  destruct (0 <? pal_indirect_entries p).
  - set (w2 := on_state (upd_palette (set_pal_which 1)) w1).
    assert (Hkept2 : export_kept (w_state w) (w_state w2)).
    { eapply export_kept_trans; [exact Hkept1|]. by apply export_kept_palette. }
    destruct (palette_save_pass_spec machine (w_state w) 1 (Some p) w2 Hok Hready Hkept2
                eq_refl)
      as ([pal3 w3] & chunks1 & Hrun1 & Hkept3 & Hwhich3 & Hidx3 & Hpal3 & Hlog3 & Hall1).
    fold devcount in Hidx3, Hall1.
    rewrite Hrun1. cbn [mbind option_bind]. cbn [fst snd] in *.
    exists (emit (EvPrintf palette_finished) w3), (chunks0 ++ chunks1).
    split; [reflexivity|]. split; [exact Hkept3|]. split; [exact Hidx3|]. split.
    + cbn [emit w_log]. rewrite Hlog3. subst w2. cbn [on_state w_log].
      rewrite Hlog1. subst w0. cbn [on_state w_log].
      rewrite concat_app, <- !app_assoc. reflexivity.
    + by apply Forall2_app.
  - exists (emit (EvPrintf palette_finished) w1), chunks0.
    split; [reflexivity|]. split; [exact Hkept1|]. split; [exact Hidx1|]. split.
    + cbn [emit w_log]. rewrite Hlog1. subst w0. cbn [on_state w_log].
      rewrite <- !app_assoc. reflexivity.
    + rewrite app_nil_r. exact Hall0.
Qed.

(** The default template can always be filled in. *)
Lemma template_ok_default machine : snap_name machine = None -> template_ok machine.
Proof.
  intros Hname extension. unfold open_next_file_template. rewrite Hname. simpl. done.
Qed.

(** In graphics-set mode with a device to show, the switch of the handler
    runs the graphics-set export when a snapshot is requested. *)
Lemma ui_gfx_switch_gfxset again machine w :
  mode (w_state w) = UI_GFX_GFXSET -> 0 < gs_devcount (gfxset (w_state w)) ->
  ui_gfx_switch again machine w = save_if_requested (gfxset_handle_save machine) w.
Proof.
  intros Hmode Hcount.
  destruct again; simpl; rewrite Hmode; simpl;
    (destruct (0 <? gs_devcount (gfxset (w_state w))) eqn:E; [reflexivity | lia]).
Qed.

Lemma attempts_open name extension opened log :
  attempts (EvOpen name extension opened :: log) = (name, extension) :: attempts log.
Proof. reflexivity. Qed.

Lemma gfxset_instance_attempts state instance events :
  gfxset_instance_events state instance events ->
  attempts events = [gfxset_instance_file instance].
Proof.
  destruct instance as [[set g] color]. unfold gfxset_instance_events, gfxset_instance_file.
  intros [-> | (image & entries & error & _ & ->)]; [done|].
  rewrite attempts_open, attempts_app, attempts_encoder. done.
Qed.

Lemma attempts_chunks {A} (P : A -> list export_event -> Prop) (file : A -> formatted * string)
    (instances : list A) (chunks : list (list export_event)) :
  (forall instance events, P instance events -> attempts events = [file instance]) ->
  Forall2 P instances chunks ->
  attempts (concat chunks) = file <$> instances.
Proof.
  intros Hone. induction 1 as [|instance events instances chunks HP _ IH]; [done|].
  simpl. rewrite attempts_app, IH, (Hone _ _ HP). done.
Qed.

(** C2 (what the code does): when a snapshot is requested in graphics-set
    mode, the handler runs the export, clears the request, and the export
    goes through the sets of the device [state.gfxset.devindex] only: for each
    of its sets and each colour from 0 below min(colours, 32) it opens one
    file, and when the file opens hands a raster of 32 cells per row to the
    encoder.  No file is opened for a set of another device. *)
Theorem C2_gfxset_export_current_device again machine w :
  template_ok machine -> gfxset_export_ready (w_state w) ->
  mode (w_state w) = UI_GFX_GFXSET -> 0 < gs_devcount (gfxset (w_state w)) ->
  save (w_state w) = true ->
  exists w' chunks,
    ui_gfx_switch again machine w = Some w'
    /\ save (w_state w') = false
    /\ w_log w' = w_log w ++ concat chunks ++ [EvPrintf gfxset_finished]
    /\ Forall2 (gfxset_instance_events (w_state w)) (gfxset_current_instances (w_state w))
         chunks
    /\ attempts (w_log w')
       = attempts (w_log w) ++ (gfxset_instance_file <$> gfxset_current_instances (w_state w)).
Proof.
  intros Hok Hready Hmode Hcount Hsave.
  destruct (gfxset_handle_save_spec machine w Hok Hready)
    as (w' & chunks & Hrun & Hkept & Hlog & Hall).
  exists (on_state (set_save false) w'), chunks.
  rewrite ui_gfx_switch_gfxset by done. unfold save_if_requested.
  rewrite Hsave, Hrun. cbn [mbind option_bind].
  split; [reflexivity|]. split; [reflexivity|]. cbn [on_state w_log].
  split; [exact Hlog|]. split; [exact Hall|].
  rewrite Hlog, !attempts_app.
  rewrite (attempts_chunks _ _ _ _ (gfxset_instance_attempts (w_state w)) Hall).
  simpl. by rewrite app_nil_r.
Qed.

End ExportProperties.

Lemma gfxset_export_ready_example : gfxset_export_ready state_export.
Proof.
  unfold gfxset_export_ready. split; [by vm_compute|]. split; [by vm_compute|].
  eexists. split; [vm_compute; reflexivity|].
  intros set Hset.
  assert (Hcases : set = 0 \/ set = 1).
  { assert (Hcount : info_setcount (info_of state_export (gs_devindex (gfxset state_export))) = 2)
      by (vm_compute; reflexivity).
    rewrite Hcount in Hset. lia. }
  destruct Hcases as [-> | ->]; (split; [vm_compute; eauto | eexists; split; vm_compute; eauto]).
Qed.

Lemma C2_gfxset_export_current_device_witness :
  exists w' chunks,
    ui_gfx_switch (engine := example_engine) (host := example_host) 0 machine_export
      world_export = Some w'
    /\ save (w_state w') = false
    /\ w_log w' = w_log world_export ++ concat chunks ++ [EvPrintf gfxset_finished]
    /\ Forall2 (gfxset_instance_events (w_state world_export))
         (gfxset_current_instances (w_state world_export)) chunks
    /\ attempts (w_log w')
       = attempts (w_log world_export)
         ++ (gfxset_instance_file <$> gfxset_current_instances (w_state world_export)).
Proof.
  apply (C2_gfxset_export_current_device (engine := example_engine) (host := example_host)
           0%nat machine_export world_export).
  - by apply template_ok_default.
  - exact gfxset_export_ready_example.
  - reflexivity.
  - vm_compute. reflexivity.
  - reflexivity.
Defined.

(** The export of the example machine from its first device: three files,
    for the two colours of the 2x3 set and the one of the 4x4 set; none for
    the 8x8 set of the second device. *)
Example gfxset_export_example :
  (fun w => attempts (w_log w))
    <$> ui_gfx_switch (engine := example_engine) (host := example_host) 0 machine_export
          world_export
  = Some [(gfxset_filename 0 gfx_a 0, "png"%string); (gfxset_filename 0 gfx_a 1, "png"%string);
          (gfxset_filename 1 gfx_b 0, "png"%string)].
Proof. vm_compute. reflexivity. Qed.

(** ** What an export overwrites, and what it keeps (C3) *)

Section ExportFrame.
Context {engine : Engine} {host : FileHost}.

Lemma for_each_invariant {A St} (Inv : St -> Prop) (l : list A) (body : A -> St -> option St)
    (s s' : St) :
  (forall a s s', body a s = Some s' -> Inv s -> Inv s') ->
  Inv s -> for_each l body s = Some s' -> Inv s'.
Proof.
  intros Hbody. revert s. induction l as [|a l IH]; intros s Hinv; simpl.
  - by intros [= <-].
  - destruct (body a s) as [s1|] eqn:Hs1; simpl; [|done].
    apply IH. by eapply Hbody.
Qed.

Lemma open_next_file_state machine name extension w opened w' :
  open_next_file machine name extension w = Some (opened, w') -> w_state w' = w_state w.
Proof.
  unfold open_next_file.
  destruct (open_next_file_template machine extension) as [snapstr|]; simpl; [|done].
  destruct (open_numbered (w_files w) snapstr name) as [o disk]. by intros [= _ <-].
Qed.

(** The palette export writes to the palette view only: the graphics view
    and the device tables are as before. *)
Lemma palette_save_device_gfx machine palidx acc acc' :
  palette_save_device machine palidx acc = Some acc' ->
  gfxset (w_state acc'.2) = gfxset (w_state acc.2)
  /\ gfxdev (w_state acc'.2) = gfxdev (w_state acc.2).
Proof.
  destruct acc as [pal w]. unfold palette_save_device.
  set (state1 := palette_set_device machine _).
  destruct (pal_interface (palette state1)) as [p|]; cbn [mbind option_bind]; [|done].
  destruct (open_next_file machine _ "txt" _) as [[opened w1]|] eqn:Hopen;
    cbn [mbind option_bind]; [|done].
  apply open_next_file_state in Hopen. simpl in Hopen.
  destruct opened; [|by intros [= <-]; cbn [snd]; rewrite Hopen].
  destruct (div_int _ _) as [size_y|]; cbn [mbind option_bind]; [|done].
  match goal with |- context [palette_save_text ?p ?wh ?t ?c ?sx ?sy ?w0] =>
    destruct (palette_save_text_spec p wh t c sx sy w0) as (lines & _ & ->)
  end.
  destruct (open_next_file machine _ "png" _) as [[opened w2]|] eqn:Hopen2;
    cbn [mbind option_bind]; [|done].
  apply open_next_file_state in Hopen2. cbn [emit w_state] in Hopen2.
  intros [= <-]. cbn [snd emit w_state].
  destruct opened.
  - match goal with |- context [gfxset_save_snapshot ?i ?n ?c ?w0] =>
      destruct (gfxset_save_snapshot_spec i n c w0) as (error & -> & _)
    end.
    by rewrite Hopen2, Hopen.
  - by rewrite Hopen2, Hopen.
Qed.

Lemma palette_save_pass_gfx machine acc acc' :
  palette_save_pass machine acc = Some acc' ->
  gfxset (w_state acc'.2) = gfxset (w_state acc.2)
  /\ gfxdev (w_state acc'.2) = gfxdev (w_state acc.2).
Proof.
  unfold palette_save_pass.
  apply (for_each_invariant
           (fun a => gfxset (w_state a.2) = gfxset (w_state acc.2)
                     /\ gfxdev (w_state a.2) = gfxdev (w_state acc.2))); [|done].
  intros palidx s s' Hs [H1 H2].
  destruct (palette_save_device_gfx _ _ _ _ Hs) as [-> ->]. done.
Qed.

Lemma palette_handle_save_gfx machine w w' :
  palette_handle_save machine w = Some w' ->
  gfxset (w_state w') = gfxset (w_state w) /\ gfxdev (w_state w') = gfxdev (w_state w).
Proof.
  unfold palette_handle_save.
  destruct (palette_save_pass machine _) as [[pal1 w1]|] eqn:Hpass0;
    cbn [mbind option_bind]; [|done].
  apply palette_save_pass_gfx in Hpass0. cbn [snd on_state w_state] in Hpass0.
  destruct pal1 as [p|]; cbn [mbind option_bind]; [|done].
  destruct (0 <? pal_indirect_entries p).
  - destruct (palette_save_pass machine _) as [[pal2 w2]|] eqn:Hpass1;
      cbn [mbind option_bind]; [|done].
    apply palette_save_pass_gfx in Hpass1. cbn [snd on_state w_state] in Hpass1.
    intros [= <-]. cbn [emit w_state].
    destruct Hpass0 as [H1 H2], Hpass1 as [H3 H4]. simpl in *. split; congruence.
  - cbn [mbind option_bind]. intros [= <-]. cbn [emit w_state].
    destruct Hpass0 as [H1 H2]. simpl in *. split; congruence.
Qed.

(** C3 (amended): every export returns and leaves the raster cache (bitmap,
    texture, dirty flag) as it was, with the mode, the tilemap view, the
    current graphics device, the palette layout and, of every device, all
    tables but the selected colours.  A tilemap export leaves the whole viewer
    state as it was; a palette export leaves the graphics view and the device
    tables as they were and the palette view on the last device.  The
    graphics-set export may overwrite the current set, the selected colours
    and the palette view. *)
Theorem C3_export_keeps_raster_cache machine w :
  template_ok machine ->
  (gfxset_export_ready (w_state w) ->
   exists w', gfxset_handle_save machine w = Some w'
              /\ export_kept (w_state w) (w_state w'))
  /\ (palette_export_ready machine (w_state w) ->
      exists w', palette_handle_save machine w = Some w'
                 /\ export_kept (w_state w) (w_state w')
                 /\ gfxset (w_state w') = gfxset (w_state w)
                 /\ gfxdev (w_state w') = gfxdev (w_state w)
                 /\ pal_devindex (palette (w_state w'))
                    = pal_devcount (palette (w_state w)) - 1)
  /\ (exists w', tilemap_handle_save machine w = Some w' /\ w_state w' = w_state w).
Proof.
  intros Hok. split; [|split].
  - intros Hready.
    destruct (gfxset_handle_save_spec machine w Hok Hready) as (w' & _ & Hrun & Hkept & _).
    by exists w'.
  - intros Hready.
    destruct (palette_handle_save_spec machine w Hok Hready)
      as (w' & _ & Hrun & Hkept & Hidx & _).
    destruct (palette_handle_save_gfx _ _ _ Hrun) as [Hset Hdev].
    by exists w'.
  - destruct (tilemap_handle_save_spec machine w Hok) as (w' & _ & Hrun & Hst & _).
    by exists w'.
Qed.

End ExportFrame.

Lemma palette_export_ready_example : palette_export_ready machine_export state_export.
Proof.
  unfold palette_export_ready. split; [by vm_compute|]. split; [by vm_compute|].
  intros palidx Hidx.
  assert (Hcases : palidx = 0 \/ palidx = 1).
  { assert (Hcount : pal_devcount (palette state_export) = 2) by (vm_compute; reflexivity).
    rewrite Hcount in Hidx. lia. }
  destruct Hcases as [-> | ->]; vm_compute; eauto.
Qed.

(** C3, counterexample: on the example machine the viewer shows set 0 of the
    first device in colour 0 and the first palette; after the graphics-set
    export it shows set 1 and colour 1 is selected for set 0, and after the
    palette export the palette view is on the second palette. *)
Lemma C3_counterexample :
  (gs_set (gfxset state_export), color_of state_export 0 0,
   pal_devindex (palette state_export)) = (0, 0, 0)
  /\ (fun w' => (gs_set (gfxset (w_state w')), color_of (w_state w') 0 0))
       <$> gfxset_handle_save (engine := example_engine) (host := example_host)
             machine_export world_export
     = Some (1, 1)
  /\ (fun w' => pal_devindex (palette (w_state w')))
       <$> palette_handle_save (engine := example_engine) (host := example_host)
             machine_export world_export
     = Some 1.
Proof. repeat split; vm_compute; reflexivity. Qed.

Lemma C3_export_keeps_raster_cache_witness :
  (exists w', gfxset_handle_save (engine := example_engine) (host := example_host)
                machine_export world_export = Some w'
              /\ export_kept (w_state world_export) (w_state w'))
  /\ (exists w', palette_handle_save (engine := example_engine) (host := example_host)
                   machine_export world_export = Some w'
                 /\ export_kept (w_state world_export) (w_state w')
                 /\ gfxset (w_state w') = gfxset (w_state world_export)
                 /\ gfxdev (w_state w') = gfxdev (w_state world_export)
                 /\ pal_devindex (palette (w_state w'))
                    = pal_devcount (palette (w_state world_export)) - 1)
  /\ (exists w', tilemap_handle_save (engine := example_engine) (host := example_host)
                   machine_export world_export = Some w'
                 /\ w_state w' = w_state world_export).
Proof.
  destruct (C3_export_keeps_raster_cache (engine := example_engine) (host := example_host)
              machine_export world_export (template_ok_default machine_export eq_refl))
    as (Hgfx & Hpal & Htilemap).
  split; [apply Hgfx; exact gfxset_export_ready_example|].
  split; [apply Hpal; exact palette_export_ready_example|].
  exact Htilemap.
Defined.

(** ** A file that cannot be opened (C8) *)

Section ExportFailure.
Context {engine : Engine} {host : FileHost}.

(** C8 (amended): in each of the three modes the export returns whatever the
    host answers to each open, and its events are those of its instances, in
    order, followed by the closing message.  The events of an instance whose
    file cannot be opened are the failed open alone: the instance is skipped
    without a message, and the instances after it are gone through as after
    a success.  (For a palette the image file is tried only when the text file
    opened, and the saved message follows even if the image file failed.) *)
Theorem C8_failed_open_skips_instance machine w :
  template_ok machine ->
  (gfxset_export_ready (w_state w) ->
   exists w' chunks,
     gfxset_handle_save machine w = Some w'
     /\ w_log w' = w_log w ++ concat chunks ++ [EvPrintf gfxset_finished]
     /\ Forall2 (gfxset_instance_events (w_state w)) (gfxset_current_instances (w_state w))
          chunks)
  /\ (palette_export_ready machine (w_state w) ->
      exists w' chunks,
        palette_handle_save machine w = Some w'
        /\ w_log w' = w_log w ++ concat chunks ++ [EvPrintf palette_finished]
        /\ Forall2 (palette_instance_events (pal_devcount (palette (w_state w))))
             (palette_export_instances machine (pal_devcount (palette (w_state w)))) chunks)
  /\ (exists w' chunks,
        tilemap_handle_save machine w = Some w'
        /\ w_log w' = w_log w ++ concat chunks ++ [EvPrintf tilemap_finished]
        /\ Forall2 (tilemap_instance_events machine (w_state w))
             (tilemap_export_instances machine) chunks).
Proof.
  intros Hok. split; [|split].
  - intros Hready.
    destruct (gfxset_handle_save_spec machine w Hok Hready)
      as (w' & chunks & Hrun & _ & Hlog & Hall).
    by exists w', chunks.
  - intros Hready.
    destruct (palette_handle_save_spec machine w Hok Hready)
      as (w' & chunks & Hrun & _ & _ & Hlog & Hall).
    by exists w', chunks.
  - destruct (tilemap_handle_save_spec machine w Hok) as (w' & chunks & Hrun & _ & Hlog & Hall).
    by exists w', chunks.
Qed.

End ExportFailure.

(** C8, counterexample: the second file of the graphics-set export of the
    example machine cannot be opened.  Its open is followed by the open of the
    third file: nothing is printed for it. *)
Lemma C8_counterexample :
  (fun w' => without_png (w_log w'))
    <$> gfxset_handle_save (engine := example_engine) (host := example_host)
          machine_export world_export
  = Some [EvOpen (gfxset_filename 0 gfx_a 0) "png" true;
          EvPrintf (gfxset_saved 0 2 gfx_a 0);
          EvOpen (gfxset_filename 0 gfx_a 1) "png" false;
          EvOpen (gfxset_filename 1 gfx_b 0) "png" true;
          EvPrintf (gfxset_saved 1 2 gfx_b 0);
          EvPrintf gfxset_finished].
Proof. vm_compute. reflexivity. Qed.

Lemma C8_failed_open_skips_instance_witness :
  (exists w' chunks,
     gfxset_handle_save (engine := example_engine) (host := example_host)
       machine_export world_export = Some w'
     /\ w_log w' = w_log world_export ++ concat chunks ++ [EvPrintf gfxset_finished]
     /\ Forall2 (gfxset_instance_events (w_state world_export))
          (gfxset_current_instances (w_state world_export)) chunks)
  /\ (exists w' chunks,
        palette_handle_save (engine := example_engine) (host := example_host)
          machine_export world_export = Some w'
        /\ w_log w' = w_log world_export ++ concat chunks ++ [EvPrintf palette_finished]
        /\ Forall2
             (palette_instance_events (pal_devcount (palette (w_state world_export))))
             (palette_export_instances machine_export
                (pal_devcount (palette (w_state world_export)))) chunks)
  /\ (exists w' chunks,
        tilemap_handle_save (engine := example_engine) (host := example_host)
          machine_export world_export = Some w'
        /\ w_log w' = w_log world_export ++ concat chunks ++ [EvPrintf tilemap_finished]
        /\ Forall2 (tilemap_instance_events machine_export (w_state world_export))
             (tilemap_export_instances machine_export) chunks).
Proof.
  destruct (C8_failed_open_skips_instance (engine := example_engine) (host := example_host)
              machine_export world_export (template_ok_default machine_export eq_refl))
    as (Hgfx & Hpal & Htilemap).
  split; [apply Hgfx; exact gfxset_export_ready_example|].
  split; [apply Hpal; exact palette_export_ready_example|].
  exact Htilemap.
Defined.

(** ** The name template (C9) *)

Lemma string_app_assoc (a b c : string) : (a +:+ b) +:+ c = a +:+ (b +:+ c).
Proof.
  induction a as [|ch a IH]; [done|].
  change (String ch ((a +:+ b) +:+ c) = String ch (a +:+ (b +:+ c))). by rewrite IH.
Qed.

Lemma string_length_app (a b : string) :
  String.length (a +:+ b) = (String.length a + String.length b)%nat.
Proof.
  induction a as [|ch a IH]; [done|].
  change (S (String.length (a +:+ b)) = S (String.length a + String.length b)). by rewrite IH.
Qed.

Lemma substring_skip (a s : string) (m : nat) :
  String.substring (String.length a) m (a +:+ s) = String.substring 0 m s.
Proof.
  induction a as [|ch a IH]; [done|].
  change (String.substring (String.length a) m (a +:+ s) = String.substring 0 m s). exact IH.
Qed.

(** The token is where it was put. *)
Lemma token_at (a rest : string) :
  String.substring (String.length a) (String.length "%d_") (a +:+ "%d_" +:+ rest) = "%d_"%string.
Proof.
  rewrite substring_skip. by destruct rest.
Qed.

Section NameTemplate.
Context {engine : Engine} {host : FileHost}.

(** With the token twice in the stem of the template, the first match is
    followed by a second one. *)
Lemma two_tokens_found (s : string) :
  has_two_tokens s ->
  exists pos, find s "%d_" 0 = pos /\ 0 <= pos /\ find s "%d_" (pos + 3) <> -1.
Proof.
  intros (a & b & c & ->). unfold find. change (Z.to_nat 0) with 0%nat.
  destruct (String.index 0 "%d_" (a +:+ "%d_" +:+ b +:+ "%d_" +:+ c)) as [p|] eqn:Hp.
  - exists (Z.of_nat p). split; [done|]. split; [lia|].
    assert (Hle : (p <= String.length a)%nat).
    { destruct (le_lt_dec p (String.length a)) as [Hle|Hlt]; [done|].
      exfalso. apply (index_correct2 _ _ _ _ Hp (String.length a)); [lia | done |].
      apply token_at. }
    destruct (String.index (Z.to_nat (Z.of_nat p + 3)) "%d_" _) as [q|] eqn:Hq; [lia|].
    exfalso.
    apply (index_correct3 _ (String.length (a +:+ "%d_" +:+ b)) _ _ Hq); [done | |].
    + rewrite !string_length_app. simpl. lia.
    + replace (a +:+ "%d_" +:+ b +:+ "%d_" +:+ c)
        with ((a +:+ "%d_" +:+ b) +:+ "%d_" +:+ c) by (by rewrite !string_app_assoc).
      apply token_at.
  - exfalso. apply (index_correct3 _ (String.length a) _ _ Hp); [done | lia |].
    apply token_at.
Qed.

(** C9 (amended): when the template, once the part from its last dot on is
    dropped, still holds the device token twice, [open_next_file] does not
    fail on it and goes on with the default template: the name it builds is
    the one it builds when no template is configured, for every export
    instance.  A token after the last dot of the template is dropped with the
    extension and does not count. *)
Theorem C9_two_tokens_default_template machine template extension :
  snap_name machine = Some template ->
  has_two_tokens (strip_extension template) ->
  open_next_file_template machine extension
  = Some (default_template_name machine extension)
  /\ forall name w,
       open_next_file machine name extension w
       = open_next_file (set_snap_name None machine) name extension w.
Proof.
  intros Hname Htwo.
  assert (Htemplate : open_next_file_template machine extension
                      = Some (default_template_name machine extension)).
  { unfold open_next_file_template. rewrite Hname.
    destruct template as [|ch template].
    { destruct Htwo as (a & b & c & Hs). exfalso.
      apply (f_equal String.length) in Hs. rewrite !string_length_app in Hs.
      simpl in Hs. lia. }
    destruct (two_tokens_found _ Htwo) as (pos & -> & Hpos & Hnext).
    destruct (pos =? -1) eqn:E1; [lia|].
    destruct (find (strip_extension (String ch template)) "%d_" (pos + 3) =? -1) eqn:E2; [lia|].
    reflexivity. }
  split; [exact Htemplate|].
  intros name w. unfold open_next_file. rewrite Htemplate. reflexivity.
Qed.

End NameTemplate.

(** C9, counterexample: the template of the example machine holds the token
    twice, the second time after its last dot.  With the cartridge mounted
    the file is named after the cartridge, not after the default template. *)
Lemma C9_counterexample :
  snap_name machine_snap = Some ("%g/" +:+ "%d_" +:+ "cart.v2/" +:+ "%d_" +:+ "flop/%i")
  /\ open_next_file_template (engine := example_engine) machine_snap "png"
     = Some "game/mario.png"%string
  /\ default_template_name (engine := example_engine) machine_snap "png"
     = "game/%i.png"%string.
Proof. repeat split; vm_compute; reflexivity. Qed.

Lemma C9_two_tokens_default_template_witness :
  open_next_file_template (engine := example_engine)
    (set_snap_name (Some "%g/%d_cart/%d_flop/%i"%string) machine_snap) "png"
  = Some (default_template_name (engine := example_engine)
            (set_snap_name (Some "%g/%d_cart/%d_flop/%i"%string) machine_snap) "png")
  /\ forall name w,
       open_next_file (engine := example_engine) (host := example_host)
         (set_snap_name (Some "%g/%d_cart/%d_flop/%i"%string) machine_snap) name "png" w
       = open_next_file (engine := example_engine) (host := example_host)
           (set_snap_name None
              (set_snap_name (Some "%g/%d_cart/%d_flop/%i"%string) machine_snap))
           name "png" w.
Proof.
  apply (C9_two_tokens_default_template (engine := example_engine) (host := example_host)
           (set_snap_name (Some "%g/%d_cart/%d_flop/%i"%string) machine_snap)
           "%g/%d_cart/%d_flop/%i"%string "png"%string).
  - reflexivity.
  - exists "%g/"%string, "cart/"%string, "flop/%i"%string. vm_compute. reflexivity.
Defined.

(** The names the example engine builds: the default one for a template with
    two tokens, the cartridge's for a template with one. *)
Example template_example :
  open_next_file_template (engine := example_engine)
    (set_snap_name (Some "%g/%d_cart/%d_flop/%i"%string) machine_snap) "png"
  = Some "game/%i.png"%string
  /\ open_next_file_template (engine := example_engine)
       (set_snap_name (Some "%g/%d_cart/%i"%string) machine_snap) "png"
     = Some "game/mario/%i.png"%string.
Proof. split; vm_compute; reflexivity. Qed.

(* ===================================================================== *)
(** * Further properties of the viewer *)
(* ===================================================================== *)

(** ** Colour components of the palette text file *)

(** The four components that [palette_handle_save] prints for a pen are
    bytes, and they recompose the 32-bit pen: a << 24 | r << 16 | g << 8 | b. *)
Theorem pen_bytes_recompose (pen : Z) :
  (0 <= pen_byte pen 24 <= 255 /\ 0 <= pen_byte pen 16 <= 255
   /\ 0 <= pen_byte pen 8 <= 255 /\ 0 <= pen_byte pen 0 <= 255)
  /\ pen_byte pen 24 * 2 ^ 24 + pen_byte pen 16 * 2 ^ 16 + pen_byte pen 8 * 2 ^ 8
     + pen_byte pen 0 = u32 pen.
Proof.
  unfold pen_byte. change 255 with (Z.ones 8).
  rewrite !Z.land_ones, !Z.shiftr_div_pow2 by lia.
  assert (Hp : 0 <= u32 pen < 2 ^ 32) by (unfold u32; apply Z.mod_pos_bound; lia).
  generalize dependent (u32 pen). intros p Hp.
  change (2 ^ 0) with 1. rewrite Z.div_1_r.
  change (Z.ones 8) with 255 in *.
  Z.div_mod_to_equations. lia.
Qed.

(** ** The name template: extension and device token *)








Section NameTemplateImages.
Context {engine : Engine}.



End NameTemplateImages.


(** ** The mode switch of the handler *)

Section ModeSwitch.
Context {engine : Engine} {host : FileHost}.

Lemma set_mode_same state : set_mode (mode state) state = state.
Proof. by destruct state. Qed.

(** When the viewer is relevant, the switch of [ui_gfx_ui_handler] ends on
    the first mode that has content, looking from the current mode on in the
    order palette, graphics sets, tilemaps and round again; it goes back to
    its label at most once and changes nothing but the mode. *)
Theorem ui_gfx_switch_selects machine state0 state disk log :
  ui_gfx_is_relevant machine state0 = Some (true, state) ->
  0 <= mode state <= 2 ->
  save state = false ->
  let m := next_mode_with_content machine state (mode state) in
  ui_gfx_switch 1 machine (World state disk log) = Some (World (set_mode m state) disk log)
  /\ mode_has_content machine state m = true.
Proof.
  unfold ui_gfx_is_relevant.
  destruct (if negb (started state0) then _ else _) as [state1|]; simpl; [|done].
  intros [= Hrel ->] Hmode Hsave.
  assert (Hcases : mode state = 0 \/ mode state = 1 \/ mode state = 2) by lia.
  unfold next_mode_with_content, mode_has_content.
  destruct state as [st md sv dirty bm tex pal gs devs tm]. cbn in Hsave, Hcases, Hrel |- *.
  subst sv.
  destruct (0 <? pal_devcount pal) eqn:Epal,
           (0 <? gs_devcount gs) eqn:Egfx,
           (0 <? tilemap_count machine) eqn:Etm; try discriminate Hrel;
    destruct Hcases as [-> | [-> | ->]];
    cbn -[tilemap_count]; rewrite ?Epal, ?Egfx, ?Etm;
    repeat (cbn -[tilemap_count]; rewrite ?Epal, ?Egfx, ?Etm);
    unfold save_if_requested, set_mode;
    repeat (cbn -[tilemap_count]; rewrite ?Epal, ?Egfx, ?Etm);
    split; reflexivity.
Qed.

(** Without content in any mode the switch goes round for ever: whatever the
    number of returns to its label it is given, it does not end.  The test of
    [ui_gfx_is_relevant] before it is what keeps the handler from spinning. *)
Theorem ui_gfx_switch_spins again machine state disk log :
  pal_devcount (palette state) <= 0 ->
  gs_devcount (gfxset state) <= 0 ->
  tilemap_count machine <= 0 ->
  0 <= mode state <= 2 ->
  ui_gfx_switch again machine (World state disk log) = None.
Proof.
  intros Hpal Hgfx Htm. revert state Hpal Hgfx.
  induction again as [|again IH]; intros state Hpal Hgfx Hmode;
    assert (Hcases : mode state = 0 \/ mode state = 1 \/ mode state = 2) by lia;
    destruct state as [st md sv dirty bm tex pal gs devs tm];
    cbn in Hpal, Hgfx, Hcases |- *;
    destruct (0 <? pal_devcount pal) eqn:Epal; try (apply Z.ltb_lt in Epal; lia);
    destruct (0 <? gs_devcount gs) eqn:Egfx; try (apply Z.ltb_lt in Egfx; lia);
    destruct (0 <? tilemap_count machine) eqn:Etm; try (apply Z.ltb_lt in Etm; lia);
    destruct Hcases as [-> | [-> | ->]];
    repeat (cbn -[tilemap_count ui_gfx_switch]; rewrite ?Epal, ?Egfx, ?Etm);
    try reflexivity;
    (unfold on_state; cbn [w_state w_files w_log]; apply IH; cbn;
     unfold UI_GFX_PALETTE; lia).
Qed.

End ModeSwitch.

Lemma ui_gfx_switch_selects_witness :
  ui_gfx_switch (engine := example_engine) (host := example_host) 1 machine_gfx
    (World (host := example_host) state_gfx_mode2 O [])
  = Some (World (host := example_host)
            (set_mode (next_mode_with_content machine_gfx state_gfx_mode2
                         (mode state_gfx_mode2)) state_gfx_mode2) O [])
  /\ mode_has_content machine_gfx state_gfx_mode2
       (next_mode_with_content machine_gfx state_gfx_mode2 (mode state_gfx_mode2)) = true.
Proof.
  apply (ui_gfx_switch_selects (engine := example_engine) (host := example_host) machine_gfx
           (set_mode UI_GFX_TILEMAP (ui_gfx_init (engine := example_engine) 0 ui_gfx_zero))
           state_gfx_mode2 O []).
  - vm_compute. reflexivity.
  - vm_compute. split; discriminate.
  - reflexivity.
Defined.

Lemma ui_gfx_switch_spins_witness :
  ui_gfx_switch (engine := example_engine) (host := example_host) 5 machine_empty
    (World (host := example_host) (ui_gfx_init (engine := example_engine) 0 ui_gfx_zero) O [])
  = None.
Proof.
  apply (ui_gfx_switch_spins (engine := example_engine) (host := example_host) 5 machine_empty
           (ui_gfx_init (engine := example_engine) 0 ui_gfx_zero) O []);
    vm_compute; try split; discriminate.
Defined.

(** The mode the example ends on: the palette, two cases after the tilemap
    mode it started in. *)
Example ui_gfx_switch_example :
  next_mode_with_content machine_gfx state_gfx_mode2 (mode state_gfx_mode2) = UI_GFX_PALETTE.
Proof. vm_compute. reflexivity. Qed.

(** ** The save request *)

Section SaveRequest.
Context {engine : Engine} {host : FileHost}.

Lemma ui_gfx_switch_palette again machine w :
  mode (w_state w) = UI_GFX_PALETTE -> 0 < pal_devcount (palette (w_state w)) ->
  ui_gfx_switch again machine w = save_if_requested (palette_handle_save machine) w.
Proof.
  intros Hmode Hcount.
  destruct again; simpl; rewrite Hmode; simpl;
    (destruct (0 <? pal_devcount (palette (w_state w))) eqn:E; [reflexivity | lia]).
Qed.

Lemma ui_gfx_switch_tilemap again machine w :
  mode (w_state w) = UI_GFX_TILEMAP -> 0 < tilemap_count machine ->
  ui_gfx_switch again machine w = save_if_requested (tilemap_handle_save machine) w.
Proof.
  intros Hmode Hcount.
  destruct again; cbn -[tilemap_count]; rewrite Hmode; cbn -[tilemap_count];
    (destruct (0 <? tilemap_count machine) eqn:E; [reflexivity | lia]).
Qed.

Lemma export_kept_switch state state' :
  export_kept state state' ->
  mode state' = mode state
  /\ gs_devcount (gfxset state') = gs_devcount (gfxset state)
  /\ pal_devcount (palette state') = pal_devcount (palette state).
Proof. by intros (_ & H1 & _ & _ & _ & _ & _ & H2 & _ & H3 & _). Qed.

(** A save request is served once: the frame that finds [state.save] set
    runs the export of the current mode, which writes at least its closing
    message, and clears the flag; the switch of the next frame, on the state
    the export left, exports nothing and changes nothing. *)
Theorem save_request_is_one_shot again machine w :
  template_ok machine -> switch_ready machine (w_state w) -> save (w_state w) = true ->
  exists w' events,
    ui_gfx_switch again machine w = Some w'
    /\ save (w_state w') = false
    /\ w_log w' = w_log w ++ events /\ events <> []
    /\ ui_gfx_switch again machine w' = Some w'.
Proof.
  intros Hok Hready Hsave.
  destruct Hready as [[Hmode Hready] | [(Hmode & Hcount & Hready) | [Hmode Hcount]]].
  - pose proof Hready as (Hcount & _).
    destruct (palette_handle_save_spec machine w Hok Hready)
      as (w1 & chunks & Hrun & Hkept & _ & Hlog & _).
    destruct (export_kept_switch _ _ Hkept) as (Hm & _ & Hpc).
    exists (on_state (set_save false) w1), (concat chunks ++ [EvPrintf palette_finished]).
    rewrite !ui_gfx_switch_palette by (cbn; congruence || lia).
    unfold save_if_requested. rewrite Hsave, Hrun. cbn.
    repeat split; [done | by destruct (concat chunks)].
  - destruct (gfxset_handle_save_spec machine w Hok Hready)
      as (w1 & chunks & Hrun & Hkept & Hlog & _).
    destruct (export_kept_switch _ _ Hkept) as (Hm & Hgc & _).
    exists (on_state (set_save false) w1), (concat chunks ++ [EvPrintf gfxset_finished]).
    rewrite !ui_gfx_switch_gfxset by (cbn; congruence || lia).
    unfold save_if_requested. rewrite Hsave, Hrun. cbn.
    repeat split; [done | by destruct (concat chunks)].
  - destruct (tilemap_handle_save_spec machine w Hok)
      as (w1 & chunks & Hrun & Hst & Hlog & _).
    exists (on_state (set_save false) w1), (concat chunks ++ [EvPrintf tilemap_finished]).
    rewrite !ui_gfx_switch_tilemap by (cbn; congruence || lia).
    unfold save_if_requested. rewrite Hsave, Hrun. cbn.
    repeat split; [done | by destruct (concat chunks)].
Qed.

End SaveRequest.

Lemma save_request_is_one_shot_witness :
  exists w' events,
    ui_gfx_switch (engine := example_engine) (host := example_host) 1 machine_export
      world_export = Some w'
    /\ save (w_state w') = false
    /\ w_log w' = w_log world_export ++ events /\ events <> []
    /\ ui_gfx_switch (engine := example_engine) (host := example_host) 1 machine_export w'
       = Some w'.
Proof.
  apply (save_request_is_one_shot (engine := example_engine) (host := example_host)
           1%nat machine_export world_export).
  - by apply template_ok_default.
  - right. left. split; [reflexivity|]. split; [by vm_compute|].
    exact gfxset_export_ready_example.
  - reflexivity.
Defined.

(** ** Export: the palette text file and sets without a palette *)

(** Rows of [columns] cells visited row by row are the cells in index
    order. *)
Lemma foldl_rows {St} (f : St -> Z -> St) (columns : Z) (rows : nat) (s : St) :
  0 <= columns ->
  foldl (fun s y => foldl (fun s x => f s (y * columns + x)) s (seqZ 0 columns)) s
    (seqZ 0 (Z.of_nat rows))
  = foldl f s (seqZ 0 (Z.of_nat rows * columns)).
Proof.
  intros Hc. induction rows as [|rows IH].
  - reflexivity.
  - rewrite seqZ_S, foldl_snoc, IH.
    replace (Z.of_nat (S rows) * columns) with (Z.of_nat rows * columns + columns) by lia.
    rewrite seqZ_app, foldl_app by nia.
    replace (0 + Z.of_nat rows) with (Z.of_nat rows) by lia.
    replace (0 + Z.of_nat rows * columns) with (Z.of_nat rows * columns + 0) by lia.
    rewrite <- fmap_add_seqZ, foldl_fmap. reflexivity.
Qed.

Section PaletteText.
Context {engine : Engine} {host : FileHost}.

Lemma foldl_emit_all (line : Z -> export_event) (total : Z) (l : list Z) (w : world) :
  Forall (fun index => index < total) l ->
  foldl (fun w index => if index <? total then emit (line index) w else w) w l
  = World (w_state w) (w_files w) (w_log w ++ (line <$> l)).
Proof.
  intros Hall. revert w. induction Hall as [|index l Hlt _ IH]; intros w; simpl.
  - rewrite app_nil_r. by destruct w.
  - apply Z.ltb_lt in Hlt. rewrite Hlt, IH. cbn. by rewrite <- app_assoc.
Qed.

Lemma foldl_emit_none (line : Z -> export_event) (total : Z) (l : list Z) (w : world) :
  Forall (fun index => total <= index) l ->
  foldl (fun w index => if index <? total then emit (line index) w else w) w l = w.
Proof.
  intros Hall. revert w. induction Hall as [|index l Hge _ IH]; intros w; simpl; [done|].
  apply Z.ltb_ge in Hge. by rewrite Hge, IH.
Qed.

Lemma palette_save_text_rows p which total columns (rows : nat) w :
  0 <= columns ->
  palette_save_text p which total columns columns (Z.of_nat rows) w
  = foldl (fun w index => if index <? total then emit (palette_line p which index) w else w)
      w (seqZ 0 (Z.of_nat rows * columns)).
Proof.
  intros Hc. unfold palette_save_text.
  exact (foldl_rows
           (fun w index => if index <? total then emit (palette_line p which index) w else w)
           columns rows w Hc).
Qed.

(** The text file of a palette lists each of its [total] entries once, in
    index order, whatever the column count: the rows the loops go through
    cover the entries, and the cells past the last entry write nothing. *)
Theorem palette_text_lists_entries p which total columns w :
  0 <= total -> 0 < columns ->
  palette_save_text p which total columns columns ((total + columns - 1) ÷ columns) w
  = World (w_state w) (w_files w) (w_log w ++ (palette_line p which <$> seqZ 0 total)).
Proof.
  intros Htotal Hcolumns.
  set (rows := (total + columns - 1) ÷ columns).
  assert (Hrows : 0 <= rows /\ total <= rows * columns).
  { unfold rows. rewrite Z.quot_div_nonneg by lia.
    pose proof (Z.div_mod (total + columns - 1) columns ltac:(lia)).
    pose proof (Z.mod_pos_bound (total + columns - 1) columns ltac:(lia)).
    assert (0 <= (total + columns - 1) / columns) by (apply Z.div_pos; lia).
    split; [done | lia]. }
  destruct Hrows as [Hrows Hcover].
  rewrite <- (Z2Nat.id rows Hrows), palette_save_text_rows, Z2Nat.id by lia.
  replace (rows * columns) with (total + (rows * columns - total)) by lia.
  rewrite seqZ_app, foldl_app by lia.
  rewrite (foldl_emit_all _ total (seqZ 0 total)), foldl_emit_none.
  - reflexivity.
  - apply Forall_forall. intros index Hin. apply elem_of_seqZ in Hin. lia.
  - apply Forall_forall. intros index Hin. apply elem_of_seqZ in Hin. lia.
Qed.

Lemma for_each_crash {A St} (l : list A) (body : A -> St -> option St) (s : St) (a : A) :
  a ∈ l -> (forall s, body a s = None) -> for_each l body s = None.
Proof.
  intros Hin Hcrash. revert s. induction l as [|b l IH]; intros s.
  - by apply elem_of_nil in Hin.
  - apply elem_of_cons in Hin as [<- | Hin]; simpl.
    + by rewrite Hcrash.
    + destruct (body b s); simpl; [by apply IH | done].
Qed.

(** [gfxset_handle_save] goes through [gfx.palette()] for every set of the
    current device.  A set without a palette of its own, which the enumeration
    accepts and shows with the default palette, ends the export in a null
    dereference: it does not return and writes no closing message. *)
Theorem gfxset_export_needs_own_palette machine w interface set g :
  info_interface (info_of (w_state w) (gs_devindex (gfxset (w_state w)))) = Some interface ->
  0 <= set < info_setcount (info_of (w_state w) (gs_devindex (gfxset (w_state w)))) ->
  gfx interface set = Some g ->
  has_palette g = false ->
  gfxset_handle_save machine w = None.
Proof.
  intros Hint Hset Hg Hpal. unfold gfxset_handle_save.
  fold (info_of (w_state w) (gs_devindex (gfxset (w_state w)))).
  rewrite Hint. cbn [mbind option_bind].
  rewrite (for_each_crash _ _ _ set); [reflexivity | by apply elem_of_seqZ; lia |].
  intros [image w0]. unfold gfxset_save_set. rewrite Hg. cbn [mbind option_bind].
  unfold has_palette in Hpal. destruct (gfx_palette g); [done | reflexivity].
Qed.

End PaletteText.

Lemma palette_text_lists_entries_witness :
  palette_save_text (host := example_host) (example_palette 4) 0 4 16 16 ((4 + 16 - 1) ÷ 16)
    world_export
  = World (host := example_host) (w_state world_export) (w_files world_export)
      (w_log world_export ++ (palette_line (example_palette 4) 0 <$> seqZ 0 4)).
Proof.
  apply (palette_text_lists_entries (host := example_host) (example_palette 4) 0 4 16
           world_export); lia.
Defined.

Lemma gfxset_export_needs_own_palette_witness :
  gfxset_handle_save (engine := example_engine) (host := example_host) machine_gfx
    (World (host := example_host) state_gfx_mode2 O []) = None.
Proof.
  apply (gfxset_export_needs_own_palette (engine := example_engine) (host := example_host)
           machine_gfx (World (host := example_host) state_gfx_mode2 O [])
           {| gfxi_slots := [Some gfx_a; Some gfx_c] |} 1 gfx_c).
  - vm_compute. reflexivity.
  - vm_compute. split; [discriminate | reflexivity].
  - reflexivity.
  - reflexivity.
Defined.

(** ** Tilemap viewer: every key *)

Section TilemapKeys.
Context {engine : Engine}.

Local Ltac tilemap_cases state :=
  destruct state as [? ? ? ? ? ? ? ? ? [wh x y z r f]];
  cbn -[Z.ltb Z.eqb tilemap_count u8 u32] in *;
  repeat match goal with
         | |- context [if ?c then _ else _] => destruct c eqn:?
         end;
  cbn -[Z.ltb Z.eqb tilemap_count u8 u32] in *.

Lemma tilemap_select_fields machine input state :
  0 <= tm_which (tilemap state) < tilemap_count machine ->
  let t' := tilemap (tilemap_select machine input state) in
  0 <= tm_which t' < tilemap_count machine
  /\ tm_xoffs t' = tm_xoffs (tilemap state) /\ tm_yoffs t' = tm_yoffs (tilemap state)
  /\ tm_zoom t' = tm_zoom (tilemap state).
Proof.
  unfold tilemap_select. intros Hwhich. tilemap_cases state;
    repeat match goal with
           | H : (_ && _) = true |- _ => apply andb_prop in H as [_ H]
           | H : (_ <? _) = true |- _ => apply Z.ltb_lt in H
           end; repeat split; lia.
Qed.

Lemma tilemap_zoom_rotate_home_fields input state :
  0 <= tm_zoom (tilemap state) <= 8 ->
  let t' := tilemap (tilemap_zoom_rotate_home input state) in
  tm_which t' = tm_which (tilemap state)
  /\ 0 <= tm_zoom t' <= 8
  /\ ((tm_xoffs t' = tm_xoffs (tilemap state) /\ tm_yoffs t' = tm_yoffs (tilemap state))
      \/ (tm_xoffs t' = 0 /\ tm_yoffs t' = 0)).
Proof.
  unfold tilemap_zoom_rotate_home. intros Hzoom. tilemap_cases state;
    repeat match goal with
           | H : (_ && _) = true |- _ => apply andb_prop in H as [_ H]
           | H : (_ <? _) = true |- _ => apply Z.ltb_lt in H
           end; (split; [reflexivity|]); (split; [lia|]); auto.
Qed.

Lemma tilemap_category_fields input state :
  let t' := tilemap (tilemap_category input state) in
  tm_which t' = tm_which (tilemap state) /\ tm_zoom t' = tm_zoom (tilemap state)
  /\ tm_xoffs t' = tm_xoffs (tilemap state) /\ tm_yoffs t' = tm_yoffs (tilemap state)
  /\ tm_rotate t' = tm_rotate (tilemap state).
Proof. unfold tilemap_category. tilemap_cases state; repeat split. Qed.

Lemma tilemap_find_sized machine which :
  tilemaps_sized machine -> 0 <= which < tilemap_count machine ->
  exists t, tilemap_find machine which = Some t
            /\ 0 < tmap_width t <= 2 ^ 31 - 64 /\ 0 < tmap_height t <= 2 ^ 31 - 64.
Proof.
  unfold tilemaps_sized, tilemap_find, tilemap_count. intros Hsized Hwhich.
  destruct (which <? 0) eqn:E; [apply Z.ltb_lt in E; lia|].
  destruct (lookup_lt_is_Some_2 (tilemaps machine) (Z.to_nat which) ltac:(lia)) as [t Ht].
  exists t. split; [done|]. by apply (Forall_lookup_1 _ _ _ _ Hsized Ht).
Qed.

(** One frame, whatever keys are down. *)
Lemma tilemap_keys_keep_view fuel machine input state :
  tilemaps_sized machine -> tilemap_view_ok machine state -> (wrap_fuel <= fuel)%nat ->
  exists state',
    tilemap_handle_keys fuel machine input state = Some state'
    /\ tilemap_view_ok machine state'.
Proof.
  intros Hsized (Hzoom & t & Hfind & Hwhich & Hx & Hy) Hfuel.
  destruct (tilemap_find_sized machine _ Hsized Hwhich) as (t0 & Hfind0 & Hw0 & Hh0).
  rewrite Hfind in Hfind0. injection Hfind0 as <-.
  unfold tilemap_handle_keys.
  destruct (tilemap_select_fields machine input state Hwhich) as (Hwhich1 & Hx1 & Hy1 & Hz1).
  set (s1 := tilemap_select machine input state) in *.
  destruct (tilemap_find_sized machine _ Hsized Hwhich1) as (t1 & Hfind1 & Hw1 & Hh1).
  rewrite Hfind1. cbn [mbind option_bind].
  destruct (tilemap_zoom_rotate_home_fields input s1 ltac:(lia)) as (Hwh2 & Hz2 & Hoffs2).
  set (s2 := tilemap_zoom_rotate_home input s1) in *.
  destruct (tilemap_category_fields input s2) as (Hwh3 & Hz3 & Hx3 & Hy3 & _).
  set (s3 := tilemap_category input s2) in *.
  pose proof (tilemap_navigate_spec input s3) as Hnav.
  pose proof (pan_delta_bound input (tm_rotate (tilemap s3))) as Hbound.
  destruct (pan_delta input (tm_rotate (tilemap s3))) as [dx dy].
  cbn [fst snd] in *.
  assert (Hxr : 0 <= tm_xoffs (tilemap s3) < 2 ^ 31 - 64) by (destruct Hoffs2; lia).
  assert (Hyr : 0 <= tm_yoffs (tilemap s3) < 2 ^ 31 - 64) by (destruct Hoffs2; lia).
  unfold tilemap_wrap. rewrite Hnav. cbn [tm_xoffs tm_yoffs set_tm_xoffs set_tm_yoffs].
  rewrite !u32_small by lia.
  rewrite wrap_both_bind by lia.
  cbn [tilemap upd_tilemap set_tilemap tm_xoffs tm_yoffs set_tm_xoffs set_tm_yoffs].
  rewrite Hnav. cbn [tm_xoffs tm_yoffs set_tm_xoffs set_tm_yoffs].
  rewrite wrap_both_bind by lia.
  eexists. split; [reflexivity|].
  pose proof (Z.mod_pos_bound (tm_xoffs (tilemap s3) + dx) (tmap_width t1) ltac:(lia)).
  pose proof (Z.mod_pos_bound (tm_yoffs (tilemap s3) + dy) (tmap_height t1) ltac:(lia)).
  assert (Hfinal : forall s : ui_gfx_state,
            tilemap s = set_tm_yoffs ((tm_yoffs (tilemap s3) + dy) mod tmap_height t1)
                          (set_tm_xoffs ((tm_xoffs (tilemap s3) + dx) mod tmap_width t1)
                             (set_tm_yoffs (tm_yoffs (tilemap s3) + dy)
                                (set_tm_xoffs (tm_xoffs (tilemap s3) + dx) (tilemap s3)))) ->
            tilemap_view_ok machine s).
  { intros s Hs. unfold tilemap_view_ok. rewrite Hs. cbn.
    split; [lia|]. exists t1.
    replace (tm_which (tilemap s3)) with (tm_which (tilemap s1)) by congruence.
    split; [done|]. split; [lia|]. split; lia. }
  destruct (IPT_UI_SNAPSHOT input); apply Hfinal; cbn; rewrite Hnav; reflexivity.
Qed.

(** [ui_gfx_init] leaves the tilemap view on the first tilemap, if the
    machine has one. *)
Lemma tilemap_view_ok_init machine orientation state0 :
  tilemaps_sized machine -> tilemaps machine <> [] ->
  tilemap_view_ok machine (ui_gfx_init orientation state0).
Proof.
  intros Hsized Hne.
  destruct (tilemap_find_sized machine 0 Hsized) as (t & Hfind & Hw & Hh).
  { unfold tilemap_count. destruct (tilemaps machine); [done | simpl; lia]. }
  unfold tilemap_view_ok. cbn -[tilemap_find tilemap_count].
  split; [lia|]. exists t. split; [done|].
  split; [|lia]. unfold tilemap_count. destruct (tilemaps machine); [done | simpl; lia].
Qed.

(** From initialisation on, whatever keys are down in each frame,
    [tilemap_handle_keys] returns: it finds the tilemap it selects and its
    four wrap loops end.  After every frame the view is on an existing
    tilemap, at a zoom between 0 and 8 and at an offset inside that tilemap,
    also when the frame moved to a tilemap of another size. *)
Theorem tilemap_run_keeps_view fuel machine orientation state0 inputs :
  tilemaps_sized machine -> tilemaps machine <> [] -> (wrap_fuel <= fuel)%nat ->
  exists state',
    tilemap_run fuel machine inputs (ui_gfx_init orientation state0) = Some state'
    /\ tilemap_view_ok machine state'.
Proof.
  intros Hsized Hne Hfuel.
  pose proof (tilemap_view_ok_init machine orientation state0 Hsized Hne) as Hok.
  revert Hok. generalize (ui_gfx_init orientation state0).
  induction inputs as [|input inputs IH]; intros state Hok.
  - by exists state.
  - destruct (tilemap_keys_keep_view fuel machine input state Hsized Hok Hfuel)
      as (state1 & Hrun1 & Hok1).
    destruct (IH state1 Hok1) as (state' & Hrun & Hok').
    exists state'. split; [|done].
    unfold tilemap_run in *. simpl. rewrite Hrun1. exact Hrun.
Qed.

End TilemapKeys.

Lemma tilemap_run_keeps_view_witness :
  exists state',
    tilemap_run (engine := example_engine) wrap_fuel machine_tilemap
      [no_keys; key_down false true] (ui_gfx_init (engine := example_engine) 5 ui_gfx_zero)
    = Some state'
    /\ tilemap_view_ok machine_tilemap state'.
Proof.
  apply (tilemap_run_keeps_view (engine := example_engine) wrap_fuel machine_tilemap 5
           ui_gfx_zero [no_keys; key_down false true]).
  - repeat constructor; simpl; lia.
  - discriminate.
  - apply le_n.
Defined.

(** ** Tilemap viewer: the category *)

Section TilemapCategory.
Context {engine : Engine}.


End TilemapCategory.


(** From "all categories" page down shows category 0, and page up from there
    shows all again. *)
Example tilemap_category_example :
  tm_flags (tilemap state_tilemap) = 512
  /\ tm_flags (tilemap (tilemap_category (engine := example_engine) key_page_down
                          state_tilemap)) = 0
  /\ tm_flags (tilemap (tilemap_category (engine := example_engine) key_page_up
                          (tilemap_category (engine := example_engine) key_page_down
                             state_tilemap))) = 512.
Proof. repeat split. Qed.

(** ** Graphics viewer: selection *)

Section GfxSelection.
Context {engine : Engine}.
Hypothesis MAX_GFX_ELEMENTS_fits : 0 <= MAX_GFX_ELEMENTS <= 255.





End GfxSelection.


(** The walk on [machine_gfx], executed: from the second set of the first
    device, close bracket moves to the first set of the second device, and
    open bracket comes back. *)
Example gfxset_select_example :
  let there := gfxset_select key_next_group state_gfx_second_set in
  let back := gfxset_select key_prev_group there in
  (gs_devindex (gfxset state_gfx_second_set), gs_set (gfxset state_gfx_second_set),
   gs_devindex (gfxset there), gs_set (gfxset there),
   gs_devindex (gfxset back), gs_set (gfxset back))
  = (0, 1, 1, 0, 0, 1).
Proof. vm_compute. reflexivity. Qed.

(** ** Graphics viewer: the rasterizer *)

Section Rasterizer.
Context {engine : Engine}.

(** A row of pixel writes: the pixels of the row segment get their values,
    every other pixel stays. *)
Lemma foldl_put_row (val : Z -> Z) (f : bitmap -> Z -> bitmap) X y px py :
  (forall b x, f b x = bitmap_put (X + x) y (val x) b) ->
  forall (n : nat) x0 b,
    bm_pix (foldl f b (seqZ x0 (Z.of_nat n))) !! (px, py)
    = if bool_decide (py = y /\ X + x0 <= px < X + x0 + Z.of_nat n)
      then Some (val (px - X)) else bm_pix b !! (px, py).
Proof.
  intros Hf. induction n as [|n IH]; intros x0 b.
  - simpl. case_bool_decide; [lia|done].
  - rewrite seqZ_cons by lia. simpl foldl.
    replace (Z.pred (Z.of_nat (S n))) with (Z.of_nat n) by lia.
    rewrite IH, Hf. unfold bitmap_put. simpl.
    destruct (decide ((px, py) = (X + x0, y))) as [[= -> ->]|Hne].
    + rewrite lookup_insert_eq. repeat case_bool_decide; try lia.
      f_equal. f_equal. lia.
    + rewrite lookup_insert_ne by congruence.
      repeat case_bool_decide; try done; try lia.
      exfalso. apply Hne. f_equal; lia.
Qed.

Lemma foldl_put_row_Z (val : Z -> Z) (f : bitmap -> Z -> bitmap) X y px py w x0 b :
  (forall b x, f b x = bitmap_put (X + x) y (val x) b) ->
  bm_pix (foldl f b (seqZ x0 w)) !! (px, py)
  = if bool_decide (py = y /\ X + x0 <= px < X + x0 + w)
    then Some (val (px - X)) else bm_pix b !! (px, py).
Proof.
  intros Hf. replace (seqZ x0 w) with (seqZ x0 (Z.of_nat (Z.to_nat w))).
  2:{ unfold seqZ. by rewrite Nat2Z.id. }
  rewrite (foldl_put_row val f X y px py Hf).
  repeat case_bool_decide; try done; lia.
Qed.

(** A grid of pixel writes, row by row. *)
Lemma foldl_put_grid (val : Z -> Z -> Z) (f : bitmap -> Z -> Z -> bitmap) X Y x0 w px py :
  (forall b x y, f b x y = bitmap_put (X + x) (Y + y) (val x y) b) ->
  forall (n : nat) y0 b,
    bm_pix (foldl (fun b y => foldl (fun b x => f b x y) b (seqZ x0 w)) b
              (seqZ y0 (Z.of_nat n))) !! (px, py)
    = if bool_decide (X + x0 <= px < X + x0 + w /\ Y + y0 <= py < Y + y0 + Z.of_nat n)
      then Some (val (px - X) (py - Y)) else bm_pix b !! (px, py).
Proof.
  intros Hf. induction n as [|n IH]; intros y0 b.
  - simpl. case_bool_decide; [lia|done].
  - rewrite (seqZ_cons y0) by lia. simpl foldl.
    replace (Z.pred (Z.of_nat (S n))) with (Z.of_nat n) by lia.
    rewrite IH.
    rewrite (foldl_put_row_Z (fun x => val x y0) (fun b x => f b x y0) X (Y + y0))
      by (intros; apply Hf).
    repeat case_bool_decide; try done; try lia.
    f_equal. f_equal. lia.
Qed.

Lemma foldl_put_grid_Z (val : Z -> Z -> Z) (f : bitmap -> Z -> Z -> bitmap)
    X Y x0 w y0 h px py b :
  (forall b x y, f b x y = bitmap_put (X + x) (Y + y) (val x y) b) ->
  bm_pix (foldl (fun b y => foldl (fun b x => f b x y) b (seqZ x0 w)) b (seqZ y0 h))
    !! (px, py)
  = if bool_decide (X + x0 <= px < X + x0 + w /\ Y + y0 <= py < Y + y0 + h)
    then Some (val (px - X) (py - Y)) else bm_pix b !! (px, py).
Proof.
  intros Hf. replace (seqZ y0 h) with (seqZ y0 (Z.of_nat (Z.to_nat h))).
  2:{ unfold seqZ. by rewrite Nat2Z.id. }
  rewrite (foldl_put_grid val f X Y x0 w px py Hf).
  repeat case_bool_decide; try done; lia.
Qed.

(** [gfxset_draw_item] with a palette: the pixels of the cell get the
    colours of the element, every other pixel stays. *)
Lemma gfxset_draw_item_pixels g index dest dstx dsty color rotate p :
  exists dest',
    gfxset_draw_item g index dest dstx dsty color rotate (Some p) = Some dest'
    /\ bitmap_shape dest' = bitmap_shape dest
    /\ forall px py,
         bm_pix dest' !! (px, py)
         = if bool_decide
                (dstx <= px < dstx + cell_width (gfx_width g) (gfx_height g) rotate
                 /\ dsty <= py < dsty + cell_height (gfx_width g) (gfx_height g) rotate)
           then Some (item_pixel g index color rotate p (px - dstx) (py - dsty))
           else bm_pix dest !! (px, py).
Proof.
  eexists. split; [reflexivity|]. split.
  - apply (draw_item_with_shape gfxset_draw_item_eff g index dest dstx dsty color rotate
             (Some p)). reflexivity.
  - intros px py.
    rewrite (foldl_put_grid_Z (item_pixel g index color rotate p)
               (fun dest x y =>
                  let '(effx, effy) :=
                    gfxset_draw_item_eff (gfx_width g) (gfx_height g) rotate x y in
                  let s := cell (gfx_get_data g index) (effy * gfx_rowbytes g + effx) in
                  bitmap_put (dstx + x) (dsty + y)
                    (Z.lor 4278190080
                       (cell (pal_entry_list_raw p)
                          (gfx_colorbase g + color * gfx_granularity g + s))) dest)
               dstx dsty 0).
    + unfold cell_width, cell_height. repeat case_bool_decide; try done; lia.
    + intros b x y. unfold item_pixel.
      by destruct (gfxset_draw_item_eff (gfx_width g) (gfx_height g) rotate x y).
Qed.

(** [bitmap.fill]: the pixels of the bounds that lie in the bitmap get the
    value, every other pixel stays. *)
Lemma bitmap_fill_pixels v min_x max_x min_y max_y b px py :
  bm_pix (bitmap_fill v min_x max_x min_y max_y b) !! (px, py)
  = if bool_decide (Z.max min_x 0 <= px <= Z.min max_x (bm_width b - 1)
                    /\ Z.max min_y 0 <= py <= Z.min max_y (bm_height b - 1))
    then Some v else bm_pix b !! (px, py).
Proof.
  unfold bitmap_fill.
  rewrite (foldl_put_grid_Z (fun _ _ => v) (fun b x y => bitmap_put x y v b) 0 0)
    by done.
  repeat case_bool_decide; try done; lia.
Qed.

(** A loop whose steps leave a pixel alone leaves it alone. *)
Lemma for_each_pix_frame {A} (body : A -> bitmap -> option bitmap) (l : list A) b b' P :
  (forall a b b', a ∈ l -> body a b = Some b' -> bm_pix b' !! P = bm_pix b !! P) ->
  for_each l body b = Some b' -> bm_pix b' !! P = bm_pix b !! P.
Proof.
  revert b. induction l as [|a l IH]; intros b Hbody; simpl.
  - by intros [= ->].
  - destruct (body a b) as [b1|] eqn:Hb; simpl; [|done].
    intros Hrest. rewrite (IH b1); [|intros; eapply Hbody; [by right|done]|done].
    eapply Hbody; [by left|done].
Qed.

(** A loop over [0 .. n-1] of which only step [k] touches a pixel: the
    pixel is what step [k] made of it. *)
Lemma for_each_step_at (body : Z -> bitmap -> option bitmap) n k b b' P :
  0 <= k < n ->
  (forall a b b', body a b = Some b' -> bitmap_shape b' = bitmap_shape b) ->
  (forall a b b', 0 <= a < n -> a <> k -> body a b = Some b' ->
     bm_pix b' !! P = bm_pix b !! P) ->
  for_each (seqZ 0 n) body b = Some b' ->
  exists b1 b2,
    bitmap_shape b1 = bitmap_shape b /\ bm_pix b1 !! P = bm_pix b !! P
    /\ body k b1 = Some b2 /\ bm_pix b' !! P = bm_pix b2 !! P.
Proof.
  intros Hk Hshape Hframe.
  replace n with (k + (n - k)) at 1 by lia.
  rewrite seqZ_app by lia. rewrite (seqZ_cons (0 + k)) by lia.
  rewrite for_each_app.
  destruct (for_each (seqZ 0 k) body b) as [b1|] eqn:Hb1; simpl; [|done].
  replace (0 + k) with k by lia.
  destruct (body k b1) as [b2|] eqn:Hb2; simpl; [|done].
  intros Hrest. exists b1, b2. split; [|split; [|split; [done|]]].
  - eapply for_each_shape; [|exact Hb1]. apply Hshape.
  - eapply for_each_pix_frame; [|exact Hb1].
    intros a c c' Ha. apply elem_of_seqZ in Ha. apply Hframe; lia.
  - eapply for_each_pix_frame; [|exact Hrest].
    intros a c c' Ha. apply elem_of_seqZ in Ha. apply Hframe; lia.
Qed.

Lemma cells_apart pitch c a x :
  0 <= x < pitch -> a <> c -> ~ (a * pitch <= c * pitch + x < (a + 1) * pitch).
Proof. intros Hx Hne Hin. assert (a < c \/ c < a) as [H|H] by lia; nia. Qed.

(** One cell of the bitmap after the row loop of [gfxset_update_bitmap] and
    [gfxset_update_save_bitmap], for a cell pitch of at least the size of an
    element. *)
Lemma update_bitmap_rows_pixels info set xcells ycells cellxpix cellypix g dest dest'
    cx cy x y :
  let rotate := cell (info_rotate info) set in
  let color := cell (info_color info) set in
  let width := cell_width (gfx_width g) (gfx_height g) rotate in
  let height := cell_height (gfx_width g) (gfx_height g) rotate in
  let index := cell (info_offset info) set + cy * xcells + cx in
  width <= cellxpix -> height <= cellypix ->
  bm_width dest = cellxpix * xcells -> bm_height dest = cellypix * ycells ->
  update_bitmap_rows gfxset_draw_item info set xcells ycells cellxpix cellypix g dest
  = Some dest' ->
  0 <= cx < xcells -> 0 <= cy < ycells -> 0 <= x < cellxpix -> 0 <= y < cellypix ->
  if index <? gfx_elements g then
    (x < width -> y < height ->
     exists p, cell (info_palette info) set = Some p
       /\ bm_pix dest' !! (cx * cellxpix + x, cy * cellypix + y)
          = Some (item_pixel g index color rotate p x y))
    /\ (width <= x \/ height <= y ->
        bm_pix dest' !! (cx * cellxpix + x, cy * cellypix + y)
        = bm_pix dest !! (cx * cellxpix + x, cy * cellypix + y))
  else bm_pix dest' !! (cx * cellxpix + x, cy * cellypix + y) = Some 0.
Proof.
  intros rotate color width height index Hcw Hch Hw Hh Hrun Hcx Hcy Hx Hy.
  set (P := (cx * cellxpix + x, cy * cellypix + y)).
  assert (Hdrawshape : forall i b dx dy b',
            gfxset_draw_item g i b dx dy color rotate (cell (info_palette info) set) = Some b' ->
            bitmap_shape b' = bitmap_shape b).
  { intros i b dx dy b'. apply draw_item_with_shape. }
  (* the body of the inner loop, for the row [r] *)
  set (inner := fun (r : Z) (c : Z) (b : bitmap) =>
         if cell (info_offset info) set + r * xcells + c <? gfx_elements g
         then gfxset_draw_item g (cell (info_offset info) set + r * xcells + c) b
                (c * cellxpix) (r * cellypix) color rotate (cell (info_palette info) set)
         else Some (bitmap_fill 0 (c * cellxpix) ((c + 1) * cellxpix - 1)
                      (r * cellypix) ((r + 1) * cellypix - 1) b)).
  set (outer := fun (r : Z) (b : bitmap) =>
         if cell (info_offset info) set + r * xcells <? gfx_elements g
         then for_each (seqZ 0 xcells) (inner r) b
         else Some (bitmap_fill 0 0 (bm_width b - 1)
                      (r * cellypix) ((r + 1) * cellypix - 1) b)).
  change (for_each (seqZ 0 ycells) outer dest = Some dest') in Hrun.
  assert (Hinner_shape : forall r c b b', inner r c b = Some b' ->
            bitmap_shape b' = bitmap_shape b).
  { intros r c b b'. unfold inner. destruct (_ <? gfx_elements g).
    - apply Hdrawshape.
    - intros [= <-]. apply bitmap_fill_shape. }
  assert (Houter_shape : forall r b b', outer r b = Some b' ->
            bitmap_shape b' = bitmap_shape b).
  { intros r b b'. unfold outer. destruct (_ <? gfx_elements g).
    - apply for_each_shape. intros c. apply Hinner_shape.
    - intros [= <-]. apply bitmap_fill_shape. }
  (* a cell other than ours is drawn or cleared elsewhere *)
  assert (Hinner_frame : forall r c b b', r <> cy \/ c <> cx -> inner r c b = Some b' ->
            bm_pix b' !! P = bm_pix b !! P).
  { intros r c b b' Hne. unfold inner. destruct (_ <? gfx_elements g).
    - destruct (cell (info_palette info) set) as [p|]; [|done].
      destruct (gfxset_draw_item_pixels g (cell (info_offset info) set + r * xcells + c) b
                  (c * cellxpix) (r * cellypix) color rotate p) as (b0 & -> & _ & Hpix).
      intros [= <-]. unfold P. rewrite Hpix. fold width height.
      case_bool_decide as Hin; [|done]. exfalso.
      destruct Hne as [Hr | Hc].
      + apply (cells_apart cellypix cy r y Hy Hr). lia.
      + apply (cells_apart cellxpix cx c x Hx Hc). lia.
    - intros [= <-]. unfold P. rewrite bitmap_fill_pixels.
      case_bool_decide as Hin; [|done]. exfalso.
      destruct Hne as [Hr | Hc].
      + apply (cells_apart cellypix cy r y Hy Hr). lia.
      + apply (cells_apart cellxpix cx c x Hx Hc). lia. }
  assert (Houter_frame : forall r b b', r <> cy -> outer r b = Some b' ->
            bm_pix b' !! P = bm_pix b !! P).
  { intros r b b' Hr. unfold outer. destruct (_ <? gfx_elements g).
    - apply for_each_pix_frame. intros c b0 b0' _. apply Hinner_frame. by left.
    - intros [= <-]. unfold P. rewrite bitmap_fill_pixels.
      case_bool_decide as Hin; [|done]. exfalso.
      apply (cells_apart cellypix cy r y Hy Hr). lia. }
  destruct (for_each_step_at outer ycells cy dest dest' P Hcy Houter_shape
              ltac:(intros a b b' _ Ha; by apply Houter_frame) Hrun)
    as (b1 & b2 & Hshape1 & Hpix1 & Hstep & Hpix2).
  assert (Hw1 : bm_width b1 = cellxpix * xcells)
    by (injection Hshape1 as _ Hbw _; lia).
  assert (Hh1 : bm_height b1 = cellypix * ycells)
    by (injection Hshape1 as _ _ Hbh; lia).
  assert (Hxin : cx * cellxpix + x <= cellxpix * xcells - 1) by nia.
  assert (Hyin : cy * cellypix + y <= cellypix * ycells - 1) by nia.
  assert (Hx0 : 0 <= cx * cellxpix) by nia.
  assert (Hy0 : 0 <= cy * cellypix) by nia.
  rewrite Hpix2. unfold outer in Hstep.
  destruct (cell (info_offset info) set + cy * xcells <? gfx_elements g) eqn:Erow.
  - destruct (for_each_step_at (inner cy) xcells cx b1 b2 P Hcx
                ltac:(intros c; apply Hinner_shape)
                ltac:(intros a b b' _ Ha; apply Hinner_frame; by right) Hstep)
      as (c1 & c2 & Hshape2 & Hpix3 & Hcell & Hpix4).
    rewrite Hpix4. unfold inner in Hcell. fold index in Hcell.
    destruct (index <? gfx_elements g).
    + destruct (cell (info_palette info) set) as [p|]; [|done].
      destruct (gfxset_draw_item_pixels g index c1 (cx * cellxpix) (cy * cellypix)
                  color rotate p) as (c0 & Hc0 & _ & Hpix).
      rewrite Hc0 in Hcell. injection Hcell as <-.
      unfold P. rewrite Hpix. fold width height. split.
      * intros Hxl Hyl. exists p. split; [done|].
        rewrite bool_decide_eq_true_2 by lia. do 2 f_equal; lia.
      * intros Hsep. rewrite bool_decide_eq_false_2 by lia.
        fold P. by rewrite Hpix3.
    + injection Hcell as <-. unfold P. rewrite bitmap_fill_pixels.
      injection Hshape2 as _ Hbw Hbh.
      rewrite bool_decide_eq_true_2; [done|]. nia.
  - apply Z.ltb_ge in Erow.
    assert (Hidx : (index <? gfx_elements g) = false).
    { apply Z.ltb_ge. unfold index. lia. }
    rewrite Hidx. injection Hstep as <-. unfold P. rewrite bitmap_fill_pixels.
    rewrite bool_decide_eq_true_2; [done|]. nia.
Qed.

(** A redraw by [gfxset_update_bitmap]: when the bitmap is dirty or has to
    be reallocated, the row loop runs on a bitmap of the size of the grid,
    and its result is the bitmap of the view. *)
Lemma gfxset_update_bitmap_redraw rm state xcells ycells g rm' state' :
  let set := gs_set (gfxset state) in
  let info := cell (gfxdev state) (gs_devindex (gfxset state)) in
  let rotate := cell (info_rotate info) set in
  let cellxpix := 1 + cell_width (gfx_width g) (gfx_height g) rotate in
  let cellypix := 1 + cell_height (gfx_width g) (gfx_height g) rotate in
  bitmap_dirty state = true
    \/ realloc_needed state (cellxpix * xcells) (cellypix * ycells) = true ->
  gfxset_update_bitmap rm state xcells ycells g = Some (rm', state') ->
  bitmap_dirty state' = false
  /\ exists dest,
       bitmap_shape dest = (true, cellxpix * xcells, cellypix * ycells)
       /\ update_bitmap_rows gfxset_draw_item info set xcells ycells cellxpix cellypix g dest
          = Some (st_bitmap state').
Proof.
  intros set info rotate cellxpix cellypix Hredraw Hrun.
  unfold gfxset_update_bitmap in Hrun. cbv zeta in Hrun.
  fold set info rotate in Hrun.
  change (1 + (if flag rotate ORIENTATION_SWAP_XY then gfx_height g else gfx_width g))
    with cellxpix in Hrun.
  change (1 + (if flag rotate ORIENTATION_SWAP_XY then gfx_width g else gfx_height g))
    with cellypix in Hrun.
  pose proof (realloc_bitmap_settled TEXFORMAT_ARGB32 (cellxpix * xcells)
                (cellypix * ycells) rm state) as Hsettled.
  assert (Hdirty : bitmap_dirty
            (realloc_bitmap TEXFORMAT_ARGB32 (cellxpix * xcells) (cellypix * ycells)
               (rm, state)).2 = true).
  { unfold realloc_bitmap.
    destruct (realloc_needed state (cellxpix * xcells) (cellypix * ycells)) eqn:En;
      [done|]. by destruct Hredraw. }
  destruct (realloc_bitmap TEXFORMAT_ARGB32 (cellxpix * xcells) (cellypix * ycells)
              (rm, state)) as [rm1 state1].
  simpl in Hdirty. rewrite Hdirty in Hrun.
  assert (Hnot : ~ (bm_valid (st_bitmap state1) = false \/ st_texture state1 = None
                    \/ bm_width (st_bitmap state1) <> cellxpix * xcells
                    \/ bm_height (st_bitmap state1) <> cellypix * ycells)).
  { intros Hc. apply realloc_needed_iff in Hc. congruence. }
  destruct (update_bitmap_rows gfxset_draw_item info set xcells ycells cellxpix cellypix g
              (st_bitmap state1)) as [dest'|] eqn:Hrows; simpl in Hrun; [|done].
  destruct (st_texture state1) as [texture|] eqn:Htex; simpl in Hrun; [|done].
  injection Hrun as <- <-. simpl.
  assert (Hw : bm_width (st_bitmap state1) = cellxpix * xcells).
  { destruct (decide (bm_width (st_bitmap state1) = cellxpix * xcells)); [done|].
    exfalso. apply Hnot. auto. }
  assert (Hh : bm_height (st_bitmap state1) = cellypix * ycells).
  { destruct (decide (bm_height (st_bitmap state1) = cellypix * ycells)); [done|].
    exfalso. apply Hnot. auto. }
  assert (Hv : bm_valid (st_bitmap state1) = true).
  { destruct (bm_valid (st_bitmap state1)) eqn:Ev; [done|]. exfalso. apply Hnot. auto. }
  split; [done|]. exists (st_bitmap state1). split; [|done].
  unfold bitmap_shape. by rewrite Hv, Hw, Hh.
Qed.

(** After a redraw by [gfxset_update_bitmap] (the bitmap was dirty, or had to
    be reallocated) the view bitmap has [xcells] x [ycells] cells of
    [cellxpix] x [cellypix] pixels and is clean.  The cell in column [cx] of
    row [cy] shows the element [offset + cy * xcells + cx]: its pixel
    [(x, y)] is the opaque palette colour of the source pixel that the
    orientation maps it to; the cells past the last element are transparent
    (zero), including their separator line. *)
Theorem gfxset_update_bitmap_cells rm state xcells ycells g rm' state' cx cy x y :
  let set := gs_set (gfxset state) in
  let info := cell (gfxdev state) (gs_devindex (gfxset state)) in
  let rotate := cell (info_rotate info) set in
  let color := cell (info_color info) set in
  let cellxpix := 1 + cell_width (gfx_width g) (gfx_height g) rotate in
  let cellypix := 1 + cell_height (gfx_width g) (gfx_height g) rotate in
  let index := cell (info_offset info) set + cy * xcells + cx in
  0 <= gfx_width g -> 0 <= gfx_height g ->
  bitmap_dirty state = true
    \/ realloc_needed state (cellxpix * xcells) (cellypix * ycells) = true ->
  gfxset_update_bitmap rm state xcells ycells g = Some (rm', state') ->
  0 <= cx < xcells -> 0 <= cy < ycells -> 0 <= x < cellxpix -> 0 <= y < cellypix ->
  bitmap_dirty state' = false
  /\ bitmap_shape (st_bitmap state') = (true, cellxpix * xcells, cellypix * ycells)
  /\ if index <? gfx_elements g then
       x < cellxpix - 1 -> y < cellypix - 1 ->
       exists p, cell (info_palette info) set = Some p
         /\ bm_pix (st_bitmap state') !! (cx * cellxpix + x, cy * cellypix + y)
            = Some (item_pixel g index color rotate p x y)
     else bm_pix (st_bitmap state') !! (cx * cellxpix + x, cy * cellypix + y) = Some 0.
Proof.
  intros set info rotate color cellxpix cellypix index Hgw Hgh Hredraw Hrun Hcx Hcy Hx Hy.
  destruct (gfxset_update_bitmap_redraw rm state xcells ycells g rm' state' Hredraw Hrun)
    as (Hclean & dest & Hshape & Hrows).
  fold set info rotate cellxpix cellypix in Hrows, Hshape.
  split; [done|]. split.
  { rewrite (update_bitmap_rows_shape _ _ _ _ _ _ _ _ _ _
               ltac:(intros; by eapply draw_item_with_shape) Hrows). exact Hshape. }
  injection Hshape as _ Hw Hh.
  assert (Hcw : cell_width (gfx_width g) (gfx_height g) rotate <= cellxpix)
    by (unfold cellxpix; lia).
  assert (Hch : cell_height (gfx_width g) (gfx_height g) rotate <= cellypix)
    by (unfold cellypix; lia).
  pose proof (update_bitmap_rows_pixels info set xcells ycells cellxpix cellypix g dest
                (st_bitmap state') cx cy x y Hcw Hch Hw Hh Hrows Hcx Hcy Hx Hy) as Hcell.
  cbv zeta in Hcell. fold rotate color index in Hcell.
  destruct (index <? gfx_elements g); [|exact Hcell].
  destruct Hcell as [Hdrawn _]. intros Hxl Hyl.
  apply Hdrawn; fold rotate; unfold cellxpix, cellypix in *; lia.
Qed.

(** The title of the graphics view agrees with the picture: when the view is
    redrawn and the pointer is over the pixel [(subx, suby)] of the bitmap,
    inside the cell [(cellx, celly)], the pen that the title reports for it
    is the palette entry whose colour the bitmap holds at that pixel, and the
    code is that of the element drawn in that cell. *)
Theorem gfxset_hover_matches_view rm state xcells ycells g rm' state'
    cellx celly subx suby h :
  let set := gs_set (gfxset state) in
  let info := cell (gfxdev state) (gs_devindex (gfxset state)) in
  let rotate := cell (info_rotate info) set in
  let cellxpix := 1 + cell_width (gfx_width g) (gfx_height g) rotate in
  let cellypix := 1 + cell_height (gfx_width g) (gfx_height g) rotate in
  0 <= gfx_width g -> 0 <= gfx_height g ->
  bitmap_dirty state = true
    \/ realloc_needed state (cellxpix * xcells) (cellypix * ycells) = true ->
  gfxset_update_bitmap rm state xcells ycells g = Some (rm', state') ->
  0 <= cellx < xcells -> 0 <= celly < ycells ->
  cellx * cellxpix <= subx < (cellx + 1) * cellxpix ->
  celly * cellypix <= suby < (celly + 1) * cellypix ->
  gfxset_handler_hover info set xcells g cellx celly subx suby = Some h ->
  hov_code h = cell (info_offset info) set + celly * xcells + cellx
  /\ exists p, cell (info_palette info) set = Some p
       /\ bm_pix (st_bitmap state') !! (subx, suby)
          = Some (Z.lor 4278190080 (cell (pal_entry_list_raw p) (hov_pen h))).
Proof.
  intros set info rotate cellxpix cellypix Hgw Hgh Hredraw Hrun Hcx Hcy Hsx Hsy Hhover.
  assert (Hxpos : 1 <= cellxpix).
  { unfold cellxpix, cell_width. destruct (flag rotate ORIENTATION_SWAP_XY); lia. }
  assert (Hypos : 1 <= cellypix).
  { unfold cellypix, cell_height. destruct (flag rotate ORIENTATION_SWAP_XY); lia. }
  set (x := subx - cellx * cellxpix). set (y := suby - celly * cellypix).
  assert (Hx0 : 0 <= cellx * cellxpix) by nia.
  assert (Hy0 : 0 <= celly * cellypix) by nia.
  assert (Hremx : Z.rem subx cellxpix = x).
  { rewrite Z.rem_mod_nonneg by lia. symmetry.
    apply (Z.mod_unique_pos subx cellxpix cellx x); unfold x; lia. }
  assert (Hremy : Z.rem suby cellypix = y).
  { rewrite Z.rem_mod_nonneg by lia. symmetry.
    apply (Z.mod_unique_pos suby cellypix celly y); unfold y; lia. }
  unfold gfxset_handler_hover in Hhover. cbv zeta in Hhover.
  fold rotate in Hhover.
  change (1 + (if flag rotate ORIENTATION_SWAP_XY then gfx_height g else gfx_width g))
    with cellxpix in Hhover.
  change (1 + (if flag rotate ORIENTATION_SWAP_XY then gfx_width g else gfx_height g))
    with cellypix in Hhover.
  rewrite Hremx, Hremy in Hhover.
  set (code := cell (info_offset info) set + cellx + celly * xcells) in Hhover.
  destruct (code <? gfx_elements g) eqn:Ecode; simpl in Hhover; [|done].
  destruct (x <? cellxpix - 1) eqn:Ex; simpl in Hhover; [|done].
  destruct (y <? cellypix - 1) eqn:Ey; simpl in Hhover; [|done].
  apply Z.ltb_lt in Ex, Ey.
  rewrite hover_eff_eq in Hhover.
  destruct (gfxset_update_bitmap_redraw rm state xcells ycells g rm' state' Hredraw Hrun)
    as (_ & dest & Hshape & Hrows).
  fold set info rotate cellxpix cellypix in Hrows, Hshape.
  injection Hshape as _ Hw Hh.
  assert (Hx : 0 <= x < cellxpix) by (unfold x; lia).
  assert (Hy : 0 <= y < cellypix) by (unfold y; lia).
  assert (Hcw : cell_width (gfx_width g) (gfx_height g) rotate <= cellxpix)
    by (unfold cellxpix; lia).
  assert (Hch : cell_height (gfx_width g) (gfx_height g) rotate <= cellypix)
    by (unfold cellypix; lia).
  pose proof (update_bitmap_rows_pixels info set xcells ycells cellxpix cellypix g dest
                (st_bitmap state') cellx celly x y Hcw Hch Hw Hh Hrows Hcx Hcy Hx Hy)
    as Hcell.
  cbv zeta in Hcell. fold rotate in Hcell.
  replace (cell (info_offset info) set + celly * xcells + cellx) with code in Hcell
    by (unfold code; lia).
  rewrite Ecode in Hcell. destruct Hcell as [Hcell _].
  destruct (Hcell ltac:(unfold cellxpix in Ex; lia) ltac:(unfold cellypix in Ey; lia))
    as (p & Hp & Hpix).
  replace (cellx * cellxpix + x) with subx in Hpix by (unfold x; lia).
  replace (celly * cellypix + y) with suby in Hpix by (unfold y; lia).
  unfold item_pixel in Hpix.
  destruct (gfxset_draw_item_eff (gfx_width g) (gfx_height g) rotate x y) as [effx effy].
  injection Hhover as <-. simpl. split; [unfold code; lia|].
  exists p. split; [done|]. rewrite Hpix. replace (effx + effy * gfx_rowbytes g) with (effy * gfx_rowbytes g + effx) by lia. reflexivity.
Qed.

(** The export raster follows the view: [gfxset_handle_save] draws the
    image of a set and colour through the entry [info.offset[set]] and the
    orientation [info.rotate[set]] that the view left.  The cell [cx] of row
    [cy] of the image, cells being as large as an element, shows the element
    [offset + cy * xcells + cx] in the colour of the instance, and the cells
    past the last element are zero: with the view scrolled to [offset], the
    first [offset] elements of the set are not in the file. *)
Theorem gfxset_export_starts_at_view_offset {host : FileHost} machine set g gpal
    xcells ycells num_colors color image0 w image w' cx cy x y :
  let state := w_state w in
  let dev := gs_devindex (gfxset state) in
  let info := info_of state dev in
  let rotate := cell (info_rotate info) set in
  let width := cell_width (gfx_width g) (gfx_height g) rotate in
  let height := cell_height (gfx_width g) (gfx_height g) rotate in
  let index := cell (info_offset info) set + cy * xcells + cx in
  tables_ok state -> 0 <= dev < MAX_GFX_DECODERS ->
  0 <= set < MAX_GFX_ELEMENTS -> set <= 255 ->
  gfxset_save_color machine dev set g gpal xcells ycells num_colors color (image0, w)
  = Some (image, w') ->
  0 <= cx < xcells -> 0 <= cy < ycells -> 0 <= x < width -> 0 <= y < height ->
  bitmap_shape image = (true, width * xcells, height * ycells)
  /\ if index <? gfx_elements g then
       exists p, cell (info_palette info) set = Some p
         /\ bm_pix image !! (cx * width + x, cy * height + y)
            = Some (item_pixel g index color rotate p x y)
     else bm_pix image !! (cx * width + x, cy * height + y) = Some 0.
Proof.
  intros state dev info rotate width height index Htab Hdev Hset Hset8 Hrun Hcx Hcy Hx Hy.
  unfold gfxset_save_color in Hrun. cbv zeta in Hrun. fold state dev in Hrun.
  set (state1 := upd_gfxdev dev _ (upd_gfxset (set_gs_set (u8 set)) state)) in Hrun.
  destruct (gfxset_update_save_bitmap image0 state1 xcells ycells g) as [image1|] eqn:Himg;
    cbn [mbind option_bind] in Hrun; [|done].
  assert (Himage : image = image1).
  { destruct (open_next_file _ _ _ _) as [[[] w1]|]; cbn in Hrun; [| |done];
      by injection Hrun as <- _. }
  subst image1. clear Hrun.
  destruct Htab as [Hlen Hcells]. destruct (Hcells dev Hdev) as (_ & Hclen & _).
  fold state info in Hclen.
  assert (Hinfo1 : cell (gfxdev state1) dev
                   = set_info_color (set_cell (info_color info) set color) info).
  { unfold state1. change (cell (gfxdev ?s) dev) with (info_of s dev).
    rewrite info_of_upd_eq; [done | lia | simpl; fold state; lia]. }
  unfold gfxset_update_save_bitmap in Himg. cbv zeta in Himg.
  replace (gs_devindex (gfxset state1)) with dev in Himg by reflexivity.
  replace (gs_set (gfxset state1)) with set in Himg
    by (unfold state1; simpl; symmetry; apply u8_small; lia).
  rewrite Hinfo1 in Himg. cbn [info_rotate set_info_color] in Himg.
  fold rotate in Himg.
  change (if flag rotate ORIENTATION_SWAP_XY then gfx_height g else gfx_width g)
    with width in Himg.
  change (if flag rotate ORIENTATION_SWAP_XY then gfx_width g else gfx_height g)
    with height in Himg.
  set (dest := bitmap_allocate _ _ _) in Himg.
  split.
  { rewrite (update_bitmap_rows_shape _ _ _ _ _ _ _ _ _ _
               ltac:(intros; by eapply draw_item_with_shape) Himg). reflexivity. }
  pose proof (update_bitmap_rows_pixels
                (set_info_color (set_cell (info_color info) set color) info)
                set xcells ycells width height g dest image cx cy x y) as Hcell.
  cbv zeta in Hcell. cbn [info_rotate info_color info_offset info_palette set_info_color]
    in Hcell.
  fold rotate width height index in Hcell.
  rewrite cell_set_cell_eq in Hcell by lia.
  specialize (Hcell ltac:(lia) ltac:(lia) eq_refl eq_refl Himg Hcx Hcy Hx Hy).
  destruct (index <? gfx_elements g); [|exact Hcell].
  destruct Hcell as [Hdrawn _]. apply Hdrawn; lia.
Qed.

End Rasterizer.

Lemma gfxset_update_bitmap_cells_witness :
  bitmap_dirty view_redrawn.2 = false
  /\ bitmap_shape (st_bitmap view_redrawn.2) = (true, 3 * 2, 4 * 2)
  /\ (1 < 3 - 1 -> 2 < 4 - 1 ->
      exists p, cell (info_palette (cell (gfxdev state_view) 0)) 0 = Some p
        /\ bm_pix (st_bitmap view_redrawn.2) !! (1 * 3 + 1, 0 * 4 + 2)
           = Some (item_pixel gfx_e 1 0 0 p 1 2)).
Proof.
  apply (gfxset_update_bitmap_cells
           rm_empty state_view 2 2 gfx_e view_redrawn.1 view_redrawn.2 1 0 1 2).
  - vm_compute. congruence.
  - vm_compute. congruence.
  - right. vm_compute. reflexivity.
  - vm_compute. reflexivity.
  - lia.
  - lia.
  - vm_compute. split; congruence.
  - vm_compute. split; congruence.
Defined.

(** The redraw of [state_view], executed: the second cell shows element 1,
    whose pixel (1, 2) is source byte 2, green; the third cell shows element
    2, whose pixel (1, 1) is source byte 3, blue; the fourth cell is past the
    last element and transparent; the separator column of the first cell was
    not written. *)
Example gfxset_update_bitmap_example :
  (bm_pix (st_bitmap view_redrawn.2) !! (4, 2),
   bm_pix (st_bitmap view_redrawn.2) !! (1, 5),
   bm_pix (st_bitmap view_redrawn.2) !! (5, 7),
   bm_pix (st_bitmap view_redrawn.2) !! (2, 0))
  = (Some 4278255360, Some 4278190335, Some 0, None).
Proof. vm_compute. reflexivity. Qed.

Lemma gfxset_hover_matches_view_witness :
  hov_code {| hov_code := 1; hov_color := 0; hov_xpixel := 1; hov_ypixel := 2; hov_pen := 2 |}
  = cell (info_offset (cell (gfxdev state_view) 0)) 0 + 0 * 2 + 1
  /\ exists p, cell (info_palette (cell (gfxdev state_view) 0)) 0 = Some p
       /\ bm_pix (st_bitmap view_redrawn.2) !! (4, 2)
          = Some (Z.lor 4278190080 (cell (pal_entry_list_raw p) 2)).
Proof.
  apply (gfxset_hover_matches_view
           rm_empty state_view 2 2 gfx_e view_redrawn.1 view_redrawn.2 1 0 4 2).
  - vm_compute. congruence.
  - vm_compute. congruence.
  - right. vm_compute. reflexivity.
  - vm_compute. reflexivity.
  - lia.
  - lia.
  - vm_compute. split; congruence.
  - vm_compute. split; congruence.
  - vm_compute. reflexivity.
Defined.

Lemma gfxset_export_starts_at_view_offset_witness :
  bitmap_shape export_view_scrolled.1 = (true, 2 * 32, 3 * 1)
  /\ exists p, cell (info_palette (info_of state_view_scrolled 0)) 0 = Some p
       /\ bm_pix export_view_scrolled.1 !! (0 * 2 + 1, 0 * 3 + 2)
          = Some (item_pixel gfx_e (1 + 0 * 32 + 0) 0 0 p 1 2).
Proof.
  apply (gfxset_export_starts_at_view_offset (engine := example_engine)
           (host := example_host) machine_view 0 gfx_e palette_rgb 32 1 4 0
           (bitmap_reset (st_bitmap state_view)) world_view_scrolled
           export_view_scrolled.1 export_view_scrolled.2 0 0 1 2).
  - split; [reflexivity|]. intros dev Hdev.
    assert (Hcases : dev = 0 \/ dev = 1 \/ dev = 2 \/ dev = 3 \/ dev = 4 \/ dev = 5
                     \/ dev = 6 \/ dev = 7) by (unfold MAX_GFX_DECODERS in Hdev; lia).
    repeat (destruct Hcases as [-> | Hcases]); try subst dev; by vm_compute.
  - vm_compute. split; congruence.
  - vm_compute. split; congruence.
  - vm_compute. congruence.
  - vm_compute. reflexivity.
  - lia.
  - lia.
  - vm_compute. split; congruence.
  - vm_compute. split; congruence.
Defined.

(** The export of the scrolled view, executed: the first cell of the image
    shows element 1 (its first source byte is 1, red), not element 0, and the
    third cell, where the last element would be without the scroll, is
    blank. *)
Example gfxset_export_scrolled_example :
  (bm_pix export_view_scrolled.1 !! (0, 0), bm_pix export_view_scrolled.1 !! (2, 0),
   bm_pix export_view_scrolled.1 !! (4, 0))
  = (Some 4294901760, Some 4278255360, Some 0).
Proof. vm_compute. reflexivity. Qed.

(** ** Enumeration: which devices are listed *)

Section EnumerationOrder.
Context {engine : Engine}.
Hypothesis MAX_GFX_ELEMENTS_range : 0 <= MAX_GFX_ELEMENTS <= 255.

(** A loop over [0 .. n-1] that returned: an invariant that the steps that
    return hand on holds at the end. *)
Lemma for_each_seqZ_run {St} (body : Z -> St -> option St) (Inv : Z -> St -> Prop) n s s' :
  0 <= n -> Inv 0 s ->
  (forall k s s', 0 <= k < n -> Inv k s -> body k s = Some s' -> Inv (k + 1) s') ->
  for_each (seqZ 0 n) body s = Some s' -> Inv n s'.
Proof.
  intros Hn H0 Hstep.
  assert (Hgen : forall m k s, 0 <= k -> k + Z.of_nat m = n -> Inv k s ->
            for_each (seqZ k (Z.of_nat m)) body s = Some s' -> Inv n s').
  { induction m as [|m IH]; intros k s0 Hk Hsum Hinv.
    - simpl. intros [= <-]. by replace n with k by lia.
    - rewrite seqZ_cons by lia. simpl.
      destruct (body k s0) as [s1|] eqn:Hs1; simpl; [|done].
      replace (Z.pred (Z.of_nat (S m))) with (Z.of_nat m) by lia.
      apply IH; [lia | lia |]. apply (Hstep k s0); [lia | done | done]. }
  intros Hrun. apply (Hgen (Z.to_nat n) 0 s); [lia | lia | done |].
  by rewrite Z2Nat.id.
Qed.

(** The body of the slot loop is one write to the palette table and one to
    the colour counts of the device being counted. *)
Lemma count_devices_slot_writes interface k state state' :
  count_devices_slot interface k state = Some state' ->
  exists g v,
    gfx interface k = Some g
    /\ (if has_palette g then True else is_Some (pal_interface (palette state)))
    /\ state'
       = upd_gfxdev (gs_devcount (gfxset state))
           (fun i => set_info_color_count (set_cell (info_color_count i) k v)
                       (set_info_palette
                          (set_cell (info_palette i) k
                             (if has_palette g then gfx_palette g
                              else pal_interface (palette state))) i))
           state.
Proof.
  unfold count_devices_slot.
  destruct (gfx interface k) as [g|]; cbn -[upd_gfxdev cell set_cell has_palette]; [|done].
  destruct (has_palette g) eqn:Ehas.
  - intros [= <-]. exists g, (gfx_colors g). rewrite Ehas.
    split; [done|]. split; [done|]. by rewrite upd_gfxdev_twice.
  - change (palette (upd_gfxdev ?d ?f ?s)) with (palette s).
    destruct (pal_interface (palette state)) as [p|] eqn:Hp;
      cbn -[upd_gfxdev cell set_cell]; [|done].
    destruct (div_int (pal_entries p) (gfx_granularity g)) as [q|];
      cbn -[upd_gfxdev cell set_cell]; [|done].
    destruct (_ =? 0).
    + intros [= <-]. exists g, 1. rewrite Ehas. split; [done|]. split; [by eexists|].
      by rewrite color_count_write_twice, upd_gfxdev_twice.
    + intros [= <-]. exists g, q. rewrite Ehas. split; [done|]. split; [by eexists|].
      by rewrite upd_gfxdev_twice.
Qed.

(** The slot loop of a device with [count] sets: it records a palette for
    each of them and leaves everything else of the state alone. *)
Lemma count_devices_slots_record interface count state state' :
  let dev := gs_devcount (gfxset state) in
  tables_ok state -> 0 <= dev < MAX_GFX_DECODERS -> 0 <= count <= MAX_GFX_ELEMENTS ->
  for_each (seqZ 0 count) (count_devices_slot interface) state = Some state' ->
  gfxset state' = gfxset state /\ palette state' = palette state /\ tables_ok state'
  /\ (forall d, 0 <= d -> d <> dev -> info_of state' d = info_of state d)
  /\ info_interface (info_of state' dev) = info_interface (info_of state dev)
  /\ info_setcount (info_of state' dev) = info_setcount (info_of state dev)
  /\ view_tables (info_of state' dev) = view_tables (info_of state dev)
  /\ forall s, 0 <= s < count ->
       exists g, gfx interface s = Some g
         /\ cell (info_palette (info_of state' dev)) s
            = (if has_palette g then gfx_palette g else pal_interface (palette state))
         /\ is_Some (cell (info_palette (info_of state' dev)) s).
Proof.
  intros dev Htab Hdev Hcount Hrun.
  apply (for_each_seqZ_run (count_devices_slot interface)
           (fun k st =>
              gfxset st = gfxset state /\ palette st = palette state /\ tables_ok st
              /\ (forall d, 0 <= d -> d <> dev -> info_of st d = info_of state d)
              /\ info_interface (info_of st dev) = info_interface (info_of state dev)
              /\ info_setcount (info_of st dev) = info_setcount (info_of state dev)
              /\ view_tables (info_of st dev) = view_tables (info_of state dev)
              /\ forall s, 0 <= s < k ->
                   exists g, gfx interface s = Some g
                     /\ cell (info_palette (info_of st dev)) s
                        = (if has_palette g then gfx_palette g
                           else pal_interface (palette state))
                     /\ is_Some (cell (info_palette (info_of st dev)) s))
           count state state'); [lia | | | exact Hrun].
  { do 7 (split; [done|]). intros s Hs. lia. }
  intros k st st' Hk (Hg & Hp & Htabst & Hother & Hif & Hsc & Hview & Hpal) Hstep.
  destruct (count_devices_slot_writes interface k st st' Hstep) as (g & v & Hgk & Hsome & ->).
  rewrite Hg, Hp. fold dev.
  set (F := fun i => set_info_color_count _ (set_info_palette _ i)).
  assert (Hin : (Z.to_nat dev < length (gfxdev st))%nat).
  { destruct Htabst as [-> _]. lia. }
  assert (Hdevinfo : info_of (upd_gfxdev dev F st) dev = F (info_of st dev))
    by (apply info_of_upd_eq; [lia | done]).
  assert (Hklen : (Z.to_nat k < length (info_palette (info_of st dev)))%nat).
  { destruct Htabst as [_ Hcells]. destruct (Hcells dev Hdev) as (_ & _ & ->). lia. }
  split; [done|]. split; [done|]. split.
  { apply tables_ok_upd; [lia| |done]. intros i. unfold F. simpl.
    by rewrite !length_set_cell. }
  split. { intros d Hd Hne. rewrite info_of_upd_ne by lia. by apply Hother. }
  rewrite Hdevinfo. split; [done|]. split; [done|]. split; [done|].
  intros s Hs. unfold F. cbn [info_palette set_info_color_count set_info_palette].
  destruct (decide (s = k)) as [->|Hne].
  - exists g. rewrite cell_set_cell_eq by (exact Hklen || lia).
    split; [done|]. split; [done|]. rewrite Hp in Hsome.
    destruct (has_palette g) eqn:Ehas; [|done].
    unfold has_palette in Ehas. by destruct (gfx_palette g).
  - rewrite cell_set_cell_ne by lia. apply Hpal. lia.
Qed.

(** The device loop: the devices with sets are listed in their order, from
    the index [devcount] on, until the table is full; the devices listed
    before, the palette state and the tables of the view stay. *)
Lemma count_devices_loop_records interfaces state state' :
  let n := gs_devcount (gfxset state) in
  let kept := filter (fun interface =>
                0 < count_gfx_sets (Z.to_nat MAX_GFX_ELEMENTS) interface 0) interfaces in
  tables_ok state -> 0 <= n < MAX_GFX_DECODERS ->
  count_devices_loop interfaces state = Some state' ->
  gs_devcount (gfxset state') = Z.min (n + Z.of_nat (length kept)) MAX_GFX_DECODERS
  /\ palette state' = palette state /\ tables_ok state'
  /\ (forall d, 0 <= d < n -> info_of state' d = info_of state d)
  /\ (forall d, 0 <= d -> view_tables (info_of state' d) = view_tables (info_of state d))
  /\ forall (j : nat) interface,
       kept !! j = Some interface -> n + Z.of_nat j < MAX_GFX_DECODERS ->
       device_recorded (pal_interface (palette state)) state' (n + Z.of_nat j) interface.
Proof.
  revert state. induction interfaces as [|interface rest IH]; intros state n kept Htab Hn.
  { simpl. intros [= <-]. subst kept. simpl. split; [lia|].
    do 4 (split; [done|]). intros j i Hj. done. }
  simpl. subst kept. rewrite filter_cons.
  destruct (count_gfx_sets_spec MAX_GFX_ELEMENTS_range (Z.to_nat MAX_GFX_ELEMENTS)
              interface 0 ltac:(lia)) as [Hcount _].
  set (count := count_gfx_sets (Z.to_nat MAX_GFX_ELEMENTS) interface 0) in *.
  destruct (0 <? count) eqn:Epos.
  2:{ apply Z.ltb_ge in Epos. rewrite decide_False by lia. by apply IH. }
  apply Z.ltb_lt in Epos. rewrite decide_True by lia.
  fold n.
  set (state1 := upd_gfxdev n (set_info_interface (Some interface)) state).
  set (state2 := upd_gfxdev n (set_info_setcount count) state1).
  assert (Htab1 : tables_ok state1) by (apply tables_ok_upd; [lia|done|done]).
  assert (Htab2 : tables_ok state2) by (apply tables_ok_upd; [lia|done|done]).
  assert (Hin : (Z.to_nat n < length (gfxdev state))%nat).
  { destruct Htab as [-> _]. lia. }
  assert (Hin1 : (Z.to_nat n < length (gfxdev state1))%nat).
  { destruct Htab1 as [-> _]. lia. }
  assert (Hinfo2 : info_of state2 n
                   = set_info_setcount count
                       (set_info_interface (Some interface) (info_of state n))).
  { unfold state2, state1. rewrite info_of_upd_eq by (lia || done).
    by rewrite info_of_upd_eq by (lia || done). }
  assert (Hother2 : forall d, 0 <= d -> d <> n -> info_of state2 d = info_of state d).
  { intros d Hd Hne. unfold state2, state1. by rewrite !info_of_upd_ne by lia. }
  destruct (for_each (seqZ 0 count) (count_devices_slot interface) state2) as [s3|] eqn:Hslots;
    cbn [mbind option_bind]; [|done].
  destruct (count_devices_slots_record interface count state2 s3 Htab2 Hn ltac:(lia) Hslots)
    as (Hg3 & Hp3 & Htab3 & Hother3 & Hif3 & Hsc3 & Hview3 & Hpal3).
  change (gs_devcount (gfxset state2)) with n in *.
  rewrite Hinfo2 in Hif3, Hsc3, Hview3. simpl in Hif3, Hsc3.
  change (view_tables (set_info_setcount count
            (set_info_interface (Some interface) (info_of state n))))
    with (view_tables (info_of state n)) in Hview3.
  set (s4 := upd_gfxset (set_gs_devcount (u8 (gs_devcount (gfxset s3) + 1))) s3).
  assert (Hdc4 : gs_devcount (gfxset s4) = n + 1).
  { unfold s4. simpl. rewrite Hg3. change (gs_devcount (gfxset state2)) with n.
    apply u8_small. unfold MAX_GFX_DECODERS in Hn. lia. }
  assert (Hrec4 : device_recorded (pal_interface (palette state)) s4 n interface).
  { unfold device_recorded. change (info_of s4 n) with (info_of s3 n).
    rewrite Hif3, Hsc3. split; [done|]. split; [done|]. exact Hpal3. }
  assert (Hold4 : forall d, 0 <= d < n -> info_of s4 d = info_of state d).
  { intros d Hd. change (info_of s4 d) with (info_of s3 d).
    rewrite Hother3 by lia. apply Hother2; lia. }
  assert (Hview4 : forall d, 0 <= d -> view_tables (info_of s4 d) = view_tables (info_of state d)).
  { intros d Hd. change (info_of s4 d) with (info_of s3 d).
    destruct (decide (d = n)) as [->|Hne]; [done|].
    rewrite Hother3 by lia. by rewrite Hother2 by lia. }
  change (u8 (gs_devcount (gfxset s3) + 1)) with (gs_devcount (gfxset s4)).
  rewrite Hdc4. simpl length.
  destruct (n + 1 =? MAX_GFX_DECODERS) eqn:Efull.
  - apply Z.eqb_eq in Efull. intros [= <-].
    split; [lia|]. split; [done|]. split; [done|]. split; [done|]. split; [done|].
    intros j i Hj Hroom. assert (j = O) as -> by lia. simpl in Hj. injection Hj as <-.
    by replace (n + Z.of_nat 0) with n by lia.
  - apply Z.eqb_neq in Efull. intros Hrest.
    destruct (IH s4 Htab3 ltac:(rewrite Hdc4; lia) Hrest)
      as (Hdc & Hp & Htab' & Hold & Hview & Hrec).
    rewrite Hdc4 in Hdc, Hold, Hrec.
    split; [lia|]. split; [by rewrite Hp|]. split; [done|]. split.
    { intros d Hd. rewrite Hold by lia. apply Hold4. lia. }
    split. { intros d Hd. rewrite Hview by lia. by apply Hview4. }
    intros [|j] i Hj Hroom; simpl in Hj.
    + injection Hj as <-. replace (n + Z.of_nat 0) with n by lia.
      destruct Hrec4 as (Hi & Hs & Hpal). unfold device_recorded.
      rewrite (Hold n) by lia. done.
    + replace (n + Z.of_nat (S j)) with (n + 1 + Z.of_nat j) by lia.
      change (palette s4) with (palette s3) in Hrec. rewrite Hp3 in Hrec.
      apply Hrec; [done | lia].
Qed.

(** "count = index of first nullptr": below [MAX_GFX_ELEMENTS] the count
    stops at an empty slot. *)
Lemma count_gfx_sets_stops fuel interface count :
  0 <= count <= MAX_GFX_ELEMENTS -> (Z.to_nat (MAX_GFX_ELEMENTS - count) <= fuel)%nat ->
  count_gfx_sets fuel interface count < MAX_GFX_ELEMENTS ->
  gfx interface (count_gfx_sets fuel interface count) = None.
Proof.
  revert count. induction fuel as [|fuel IH]; intros count Hc Hfuel; simpl.
  - lia.
  - destruct (count <? MAX_GFX_ELEMENTS) eqn:Elt; simpl; [|apply Z.ltb_ge in Elt; lia].
    apply Z.ltb_lt in Elt.
    destruct (bool_decide (is_Some (gfx interface count))) eqn:Esome; simpl.
    + rewrite u8_small by lia. apply IH; lia.
    + intros _. apply bool_decide_eq_false in Esome.
      destruct (gfx interface count); [|done]. exfalso. apply Esome. by eexists.
Qed.

(** The state after the enumeration at session start. *)
Lemma ui_gfx_count_devices_records machine orientation state0 state :
  ui_gfx_count_devices machine (ui_gfx_init orientation state0) = Some state ->
  gs_devcount (gfxset state) = Z.of_nat (length (counted_interfaces machine))
  /\ gs_devindex (gfxset state) = 0 /\ gs_set (gfxset state) = 0
  /\ tables_ok state
  /\ pal_interface (palette state) = head (palette_interfaces machine)
  /\ (forall d, 0 <= d ->
        view_tables (info_of state d)
        = view_tables (info_of (ui_gfx_init orientation state0) d))
  /\ forall (j : nat) interface,
       counted_interfaces machine !! j = Some interface ->
       device_recorded (head (palette_interfaces machine)) state (Z.of_nat j) interface.
Proof.
  unfold ui_gfx_count_devices.
  set (s1 := upd_palette _ (ui_gfx_init orientation state0)).
  set (s2 := if 0 <? pal_devcount (palette s1) then palette_set_device machine s1 else s1).
  set (s3 := upd_gfxset (set_gs_devcount 0) s2).
  assert (Hdev3 : gfxdev s3 = gfxdev (ui_gfx_init orientation state0)).
  { unfold s3, s2. by destruct (0 <? pal_devcount (palette s1)). }
  assert (Hset3 : gfxset s3 = {| gs_devcount := 0; gs_devindex := 0; gs_set := 0 |}).
  { unfold s3, s2. by destruct (0 <? pal_devcount (palette s1)). }
  assert (Hpal3 : pal_interface (palette s3) = head (palette_interfaces machine)).
  { unfold s3, s2, s1, palette_set_device, byindex. simpl.
    destruct (palette_interfaces machine) as [|p ps] eqn:Hps; simpl; [done|].
    destruct (0 <? Z.of_nat (S (length ps))) eqn:E; [|apply Z.ltb_ge in E; lia].
    by simpl. }
  assert (Htab3 : tables_ok s3).
  { destruct (tables_ok_init orientation state0) as [Hlen Hcells].
    split; [by rewrite Hdev3|]. intros dev Hdev. unfold info_of. rewrite Hdev3.
    by apply Hcells. }
  destruct (count_devices_loop (gfx_interfaces machine) s3) as [s4|] eqn:Hloop;
    cbn [mbind option_bind]; [|done].
  intros [= <-].
  destruct (count_devices_loop_records (gfx_interfaces machine) s3 s4 Htab3
              ltac:(rewrite Hset3; simpl; unfold MAX_GFX_DECODERS; lia) Hloop)
    as (Hdc & Hp & Htab & _ & Hview & Hrec).
  rewrite Hset3 in Hdc, Hrec. cbn [gs_devcount] in Hdc, Hrec. rewrite Hpal3 in Hrec.
  assert (Hsel : forall interfaces s s',
    count_devices_loop interfaces s = Some s' ->
    gs_devindex (gfxset s') = gs_devindex (gfxset s) /\ gs_set (gfxset s') = gs_set (gfxset s)).
  { induction interfaces as [|interface rest IH]; intros s s'; simpl.
    - by intros [= ->].
    - destruct (0 <? count_gfx_sets _ _ _); [|apply IH].
      destruct (for_each _ _ _) as [s5|] eqn:Hslots; simpl; [|done].
      assert (Hg5 : gfxset s5 = gfxset s).
      { eapply (for_each_invariant (fun st => gfxset st = gfxset s)); [| |exact Hslots].
        - intros k st st' Hst Hinv.
          destruct (count_devices_slot_writes interface k st st' Hst)
            as (? & ? & _ & _ & ->).
          exact Hinv.
        - reflexivity. }
      destruct (_ =? MAX_GFX_DECODERS).
      + intros [= <-]. simpl. by rewrite Hg5.
      + intros Hrest. destruct (IH _ _ Hrest) as [-> ->]. simpl. by rewrite Hg5. }
  destruct (Hsel _ _ _ Hloop) as [Hdi Hs]. rewrite Hset3 in Hdi, Hs. simpl in Hdi, Hs.
  change (gfxset (set_started true s4)) with (gfxset s4).
  change (palette (set_started true s4)) with (palette s4).
  unfold counted_interfaces. rewrite length_take.
  split; [rewrite Hdc; unfold MAX_GFX_DECODERS; lia|].
  split; [done|]. split; [done|]. split; [done|].
  split; [by rewrite Hp|]. split.
  { intros d Hd. change (info_of (set_started true s4) d) with (info_of s4 d).
    rewrite Hview by done. unfold info_of. by rewrite Hdev3. }
  intros j interface Hj. apply lookup_take_Some in Hj as [Hj Hlt].
  change (device_recorded (head (palette_interfaces machine)) s4 (Z.of_nat j) interface).
  replace (Z.of_nat j) with (0 + Z.of_nat j) by lia.
  apply (Hrec j interface Hj). unfold MAX_GFX_DECODERS in *. lia.
Qed.

(** The enumeration lists the graphics devices that have a set in their
    first slot, in the order of the machine, and stops after
    [MAX_GFX_DECODERS] of them.  For each it records the interface and the
    number of sets up to the first empty slot (at most [MAX_GFX_ELEMENTS]),
    and for each of these sets the palette of the set or, if it has none, the
    first palette of the machine.  A device whose first slot is empty is not
    listed, whatever its other slots hold. *)
Theorem count_devices_lists_devices machine orientation state0 state :
  ui_gfx_count_devices machine (ui_gfx_init orientation state0) = Some state ->
  gs_devcount (gfxset state) = Z.of_nat (length (counted_interfaces machine))
  /\ gs_devcount (gfxset state) <= MAX_GFX_DECODERS
  /\ forall (d : nat) interface,
       counted_interfaces machine !! d = Some interface ->
       let info := info_of state (Z.of_nat d) in
       info_interface info = Some interface
       /\ 1 <= info_setcount info <= MAX_GFX_ELEMENTS
       /\ (info_setcount info < MAX_GFX_ELEMENTS ->
           gfx interface (info_setcount info) = None)
       /\ forall s, 0 <= s < info_setcount info ->
            exists g, gfx interface s = Some g
              /\ cell (info_palette info) s = recorded_palette machine g
              /\ is_Some (recorded_palette machine g).
Proof.
  intros Hrun.
  destruct (ui_gfx_count_devices_records machine orientation state0 state Hrun)
    as (Hdc & _ & _ & _ & _ & _ & Hrec).
  split; [done|]. split.
  { rewrite Hdc. unfold counted_interfaces. rewrite length_take.
    unfold MAX_GFX_DECODERS. lia. }
  intros d interface Hd info.
  destruct (Hrec d interface Hd) as (Hif & Hsc & Hpal). fold info in Hif, Hsc, Hpal.
  assert (Hkept : 0 < count_gfx_sets (Z.to_nat MAX_GFX_ELEMENTS) interface 0).
  { unfold counted_interfaces in Hd. apply lookup_take_Some in Hd as [Hd _].
    apply list_elem_of_lookup_2 in Hd. by apply list_elem_of_filter in Hd as [Hd _]. }
  destruct (count_gfx_sets_spec MAX_GFX_ELEMENTS_range (Z.to_nat MAX_GFX_ELEMENTS)
              interface 0 ltac:(lia)) as [Hcount _].
  split; [done|]. split; [lia|]. split.
  { rewrite Hsc. apply count_gfx_sets_stops; lia. }
  intros s Hs. destruct (Hpal s Hs) as (g & Hg & Hcell & Hsome).
  exists g. split; [done|]. unfold recorded_palette. by rewrite <- Hcell.
Qed.

End EnumerationOrder.

Lemma count_devices_lists_devices_witness :
  gs_devcount (gfxset state_skip)
  = Z.of_nat (length (counted_interfaces (engine := example_engine) machine_skip))
  /\ gs_devcount (gfxset state_skip) <= MAX_GFX_DECODERS
  /\ forall (d : nat) interface,
       counted_interfaces (engine := example_engine) machine_skip !! d = Some interface ->
       let info := info_of state_skip (Z.of_nat d) in
       info_interface info = Some interface
       /\ 1 <= info_setcount info <= MAX_GFX_ELEMENTS (Engine := example_engine)
       /\ (info_setcount info < MAX_GFX_ELEMENTS (Engine := example_engine) ->
           gfx interface (info_setcount info) = None)
       /\ forall s, 0 <= s < info_setcount info ->
            exists g, gfx interface s = Some g
              /\ cell (info_palette info) s = recorded_palette machine_skip g
              /\ is_Some (recorded_palette machine_skip g).
Proof.
  apply (count_devices_lists_devices (engine := example_engine)
           ltac:(simpl; lia) machine_skip 0 ui_gfx_zero state_skip).
  vm_compute. reflexivity.
Defined.

(** The enumeration of [machine_skip], executed: two devices are listed, the
    second and the fourth; the first of them has two sets, its third slot
    being empty, and the palette recorded for its second set, which has none
    of its own, is the first palette of the machine. *)
Example count_devices_skip_example :
  (gs_devcount (gfxset state_skip),
   gfxi_slots <$> info_interface (info_of state_skip 0),
   info_setcount (info_of state_skip 0),
   cell (info_palette (info_of state_skip 0)) 1,
   gfxi_slots <$> info_interface (info_of state_skip 1))
  = (2, Some [Some gfx_a; Some gfx_c; None; Some gfx_b], 2, Some palette_rgb,
     Some [Some gfx_b]).
Proof. vm_compute. reflexivity. Qed.

(** ** Graphics viewer: a session *)

Section GfxSession.
Context {engine : Engine}.
Hypothesis MAX_GFX_ELEMENTS_byte : 0 <= MAX_GFX_ELEMENTS <= 255.

































End GfxSession.





(** The End key on [state_view], two cells wide and one high: the offset is
    set to 3, the number of elements, and clamped to 2, the start of the last
    row. *)
Example gfxset_end_key_example :
  (fun state' => offset_of state' 0 0)
    <$> gfxset_handle_keys (engine := example_engine) key_end 2 1 state_view
  = Some 2.
Proof. vm_compute. reflexivity. Qed.


(** The session [frames_view], executed: the first frame shows 16 columns,
    and End leaves the offset at 0, the three elements fitting in the first
    row; in the second the layout shrinks to one column, zoom out asks for
    none and the clamp gives 2; the third keeps them.  Each frame had a
    raster of another size allocated. *)
Example gfxset_session_example :
  (fun rs => (columns_of rs.2 0 0, offset_of rs.2 0 0, rm_next rs.1))
    <$> gfxset_session (engine := example_engine) frames_view (rm_empty, state_view)
  = Some (2, 0, 3%nat).
Proof. vm_compute. reflexivity. Qed.

(** ** Tilemap viewer: layout and session *)

Section TilemapSession.
Context {engine : Engine}.

(** The scale loop ends, on the largest scale at which the map is smaller
    than the box, or on 1. *)
Lemma tilemap_max_scale_spec fuel mapsize box scale :
  0 < mapsize < 2 ^ 31 -> 0 <= box < 2 ^ 31 -> 1 <= scale ->
  scale = 1 \/ mapsize * scale < box ->
  (Z.to_nat (box - mapsize * scale) <= fuel)%nat ->
  exists r,
    tilemap_max_scale fuel mapsize box scale = Some r
    /\ scale <= r
    /\ (r = 1 \/ mapsize * r < box)
    /\ box <= mapsize * (r + 1).
Proof.
  intros Hmap Hbox. revert scale.
  induction fuel as [|fuel IH]; intros scale Hscale Hinv Hfuel.
  - assert (Hsmall : scale < 2 ^ 31) by (destruct Hinv; nia).
    assert (Hprod : mapsize * (scale + 1) < 2 ^ 32) by (destruct Hinv; nia).
    simpl. rewrite (u32_small (scale + 1)) by lia.
    rewrite (u32_small (mapsize * (scale + 1))) by nia.
    rewrite (u32_small box) by lia.
    destruct (mapsize * (scale + 1) <? box) eqn:E.
    + apply Z.ltb_lt in E. nia.
    + apply Z.ltb_ge in E. exists scale. repeat split; try done; lia.
  - assert (Hsmall : scale < 2 ^ 31) by (destruct Hinv; nia).
    assert (Hprod : mapsize * (scale + 1) < 2 ^ 32) by (destruct Hinv; nia).
    simpl. rewrite (u32_small (scale + 1)) by lia.
    rewrite (u32_small (mapsize * (scale + 1))) by nia.
    rewrite (u32_small box) by lia.
    destruct (mapsize * (scale + 1) <? box) eqn:E.
    + apply Z.ltb_lt in E.
      assert (Hnext : scale + 1 < 2 ^ 31) by nia.
      rewrite s32_small by lia.
      destruct (IH (scale + 1) ltac:(lia) ltac:(by right) ltac:(nia))
        as (r & Hr & Hle & Hfit & Hmax).
      exists r. repeat split; try done; lia.
    + apply Z.ltb_ge in E. exists scale. repeat split; try done; lia.
Qed.

(** The layout of a frame of the tilemap view. *)
Lemma tilemap_handler_layout_spec fuel machine mapboxwidth mapboxheight state :
  tilemaps_sized machine -> tilemap_view_ok machine state ->
  0 <= mapboxwidth < 2 ^ 31 -> 0 <= mapboxheight < 2 ^ 31 -> (wrap_fuel <= fuel)%nat ->
  exists t layout,
    tilemap_find machine (tm_which (tilemap state)) = Some t
    /\ tilemap_handler_layout fuel machine mapboxwidth mapboxheight state = Some layout
    /\ let mapwidth := if flag (tm_rotate (tilemap state)) ORIENTATION_SWAP_XY
                       then tmap_height t else tmap_width t in
       let mapheight := if flag (tm_rotate (tilemap state)) ORIENTATION_SWAP_XY
                        then tmap_width t else tmap_height t in
       let pixelscale := tlay_pixelscale layout in
       1 <= pixelscale
       /\ (tm_zoom (tilemap state) <> 0 -> pixelscale = tm_zoom (tilemap state))
       /\ (tm_zoom (tilemap state) = 0 ->
           (pixelscale = 1
            \/ (mapwidth * pixelscale < mapboxwidth /\ mapheight * pixelscale < mapboxheight))
           /\ (mapboxwidth <= mapwidth * (pixelscale + 1)
               \/ mapboxheight <= mapheight * (pixelscale + 1))
           /\ tlay_mapboxwidth layout = Z.min mapboxwidth (mapwidth * pixelscale)
           /\ tlay_mapboxheight layout = Z.min mapboxheight (mapheight * pixelscale)).
Proof.
  intros Hsized (Hzoom & t & Hfind & Hwhich & Hx & Hy) HW HH Hfuel.
  destruct (tilemap_find_sized machine _ Hsized Hwhich) as (t0 & Hfind0 & Hw0 & Hh0).
  rewrite Hfind in Hfind0. injection Hfind0 as <-.
  exists t. unfold tilemap_handler_layout. rewrite Hfind. cbn [mbind option_bind].
  rewrite (u32_small (tmap_width t)) by lia. rewrite (u32_small (tmap_height t)) by lia.
  set (mapwidth := if flag (tm_rotate (tilemap state)) ORIENTATION_SWAP_XY
                   then tmap_height t else tmap_width t).
  set (mapheight := if flag (tm_rotate (tilemap state)) ORIENTATION_SWAP_XY
                    then tmap_width t else tmap_height t).
  assert (Hmw : 0 < mapwidth <= 2 ^ 31 - 64).
  { unfold mapwidth. destruct (flag _ _); lia. }
  assert (Hmh : 0 < mapheight <= 2 ^ 31 - 64).
  { unfold mapheight. destruct (flag _ _); lia. }
  replace (if flag (tm_rotate (tilemap state)) ORIENTATION_SWAP_XY
           then (tmap_height t, tmap_width t) else (tmap_width t, tmap_height t))
    with (mapwidth, mapheight)
    by (unfold mapwidth, mapheight; by destruct (flag _ _)).
  cbv zeta.
  assert (Hfuelx : (Z.to_nat (mapboxwidth - mapwidth * 1) <= fuel)%nat).
  { unfold wrap_fuel in Hfuel. lia. }
  assert (Hfuely : (Z.to_nat (mapboxheight - mapheight * 1) <= fuel)%nat).
  { unfold wrap_fuel in Hfuel. lia. }
  destruct (tm_zoom (tilemap state) =? 0) eqn:Ez.
  - apply Z.eqb_eq in Ez.
    destruct (tilemap_max_scale_spec fuel mapwidth mapboxwidth 1 ltac:(lia) HW ltac:(lia)
                ltac:(by left) Hfuelx) as (sx & -> & Hsx1 & Hsxfit & Hsxmax).
    destruct (tilemap_max_scale_spec fuel mapheight mapboxheight 1 ltac:(lia) HH ltac:(lia)
                ltac:(by left) Hfuely) as (sy & -> & Hsy1 & Hsyfit & Hsymax).
    cbn [mbind option_bind].
    set (ps := Z.min sx sy).
    assert (Hps : 1 <= ps) by (unfold ps; lia).
    assert (Hfit : ps = 1 \/ (mapwidth * ps < mapboxwidth /\ mapheight * ps < mapboxheight)).
    { destruct (decide (ps = 1)) as [|Hne]; [by left|right].
      assert (sx <> 1 /\ sy <> 1) as [Hx1 Hy1] by (unfold ps in *; lia).
      destruct Hsxfit as [|Hsxfit]; [done|]. destruct Hsyfit as [|Hsyfit]; [done|].
      split.
      - apply Z.le_lt_trans with (mapwidth * sx); [|done].
        apply Z.mul_le_mono_nonneg_l; unfold ps; lia.
      - apply Z.le_lt_trans with (mapheight * sy); [|done].
        apply Z.mul_le_mono_nonneg_l; unfold ps; lia. }
    assert (Hmax : mapboxwidth <= mapwidth * (ps + 1) \/ mapboxheight <= mapheight * (ps + 1)).
    { unfold ps. destruct (Z.min_spec sx sy) as [[_ ->] | [_ ->]]; auto. }
    assert (Hwsmall : mapwidth * ps < 2 ^ 31) by (destruct Hfit as [-> | [? ?]]; lia).
    assert (Hhsmall : mapheight * ps < 2 ^ 31) by (destruct Hfit as [-> | [? ?]]; lia).
    assert (Hpsle : ps <= mapwidth * ps).
    { rewrite <- (Z.mul_1_l ps) at 1. apply Z.mul_le_mono_nonneg_r; lia. }
    assert (Hwpos : 0 <= mapwidth * ps) by (apply Z.mul_nonneg_nonneg; lia).
    assert (Hhpos : 0 <= mapheight * ps) by (apply Z.mul_nonneg_nonneg; lia).
    eexists. split; [done|]. split; [reflexivity|]. cbn [tlay_pixelscale tlay_mapboxwidth
                                                         tlay_mapboxheight].
    split; [done|]. split; [done|]. intros _. split; [done|]. split; [done|].
    rewrite (u32_small ps) by lia.
    rewrite (u32_small (mapwidth * ps)), (u32_small (mapheight * ps)) by lia.
    rewrite !s32_small by lia. done.
  - apply Z.eqb_neq in Ez. cbn [mbind option_bind].
    eexists. split; [done|]. split; [reflexivity|]. cbn [tlay_pixelscale tlay_mapboxwidth
                                                         tlay_mapboxheight].
    split; [lia|]. split; [done|]. done.
Qed.

(** The redraw of a frame of the tilemap view returns when the view is on an
    existing tilemap, and only touches the raster cache. *)
Lemma tilemap_update_bitmap_session machine rm state width height :
  is_Some (tilemap_find machine (tm_which (tilemap state))) ->
  exists rm' state',
    tilemap_update_bitmap machine rm state width height = Some (rm', state')
    /\ tilemap state' = tilemap state.
Proof.
  intros [t Ht]. unfold tilemap_update_bitmap.
  destruct (if flag (tm_rotate (tilemap state)) ORIENTATION_SWAP_XY
            then (height, width) else (width, height)) as [w h].
  pose proof (realloc_bitmap_settled TEXFORMAT_RGB32 w h rm state) as Hsettled.
  assert (Hframe : tilemap (realloc_bitmap TEXFORMAT_RGB32 w h (rm, state)).2
                   = tilemap state).
  { unfold realloc_bitmap. by destruct (realloc_needed state w h). }
  destruct (realloc_bitmap TEXFORMAT_RGB32 w h (rm, state)) as [rm1 state1].
  simpl in Hframe.
  assert (Htex : is_Some (st_texture state1)).
  { destruct (st_texture state1) as [tex|] eqn:Htex; [by eexists|].
    assert (Hneed : realloc_needed state1 w h = true).
    { apply realloc_needed_iff. auto. }
    congruence. }
  destruct Htex as [tex Htex].
  destruct (bitmap_dirty state1).
  - rewrite Hframe, Ht. destruct (first_screen machine); cbn [mbind option_bind];
      cbn [st_texture set_st_bitmap]; rewrite Htex; cbn [mbind option_bind];
      eexists _, _; (split; [reflexivity|]); exact Hframe.
  - eexists _, _. split; [reflexivity|]. exact Hframe.
Qed.

(** One frame of a session in the tilemap view. *)
Lemma tilemap_handler_session fuel machine mapboxwidth mapboxheight input rm state :
  tilemaps_sized machine -> tilemap_view_ok machine state ->
  0 <= mapboxwidth < 2 ^ 31 -> 0 <= mapboxheight < 2 ^ 31 -> (wrap_fuel <= fuel)%nat ->
  exists rm' state',
    tilemap_handler fuel machine mapboxwidth mapboxheight input (rm, state)
    = Some (rm', state')
    /\ tilemap_view_ok machine state'.
Proof.
  intros Hsized Hok HW HH Hfuel. unfold tilemap_handler.
  destruct (tilemap_handler_layout_spec fuel machine mapboxwidth mapboxheight state
              Hsized Hok HW HH Hfuel) as (t & layout & Hfind & -> & Hscale & _).
  cbn [mbind option_bind]. unfold div_int.
  destruct (tlay_pixelscale layout =? 0) eqn:Ez; [apply Z.eqb_eq in Ez; lia|].
  cbn [mbind option_bind].
  destruct (tilemap_update_bitmap_session machine rm state
              (tlay_mapboxwidth layout ÷ tlay_pixelscale layout)
              (tlay_mapboxheight layout ÷ tlay_pixelscale layout) ltac:(by eexists))
    as (rm1 & s1 & -> & Htm).
  cbn [mbind option_bind].
  assert (Hok1 : tilemap_view_ok machine s1).
  { unfold tilemap_view_ok. rewrite Htm. exact Hok. }
  destruct (tilemap_keys_keep_view fuel machine input s1 Hsized Hok1 Hfuel)
    as (s2 & -> & Hok2).
  cbn [mbind option_bind]. by exists rm1, s2.
Qed.

(** With the zoom on automatic, the tilemap view is drawn at the largest
    integral scale at which the map, turned as the view is, is smaller than
    the map box in both directions, or at scale 1 if there is none: the scale
    loops end, the scale is at least 1, and the next scale would reach the
    box in one direction.  The map box shrinks to the scaled map, and the
    raster that is drawn is never larger than the map. *)
Theorem tilemap_auto_scale fuel machine mapboxwidth mapboxheight state :
  tilemaps_sized machine -> tilemap_view_ok machine state ->
  tm_zoom (tilemap state) = 0 ->
  0 <= mapboxwidth < 2 ^ 31 -> 0 <= mapboxheight < 2 ^ 31 -> (wrap_fuel <= fuel)%nat ->
  exists t layout,
    tilemap_find machine (tm_which (tilemap state)) = Some t
    /\ tilemap_handler_layout fuel machine mapboxwidth mapboxheight state = Some layout
    /\ let mapwidth := if flag (tm_rotate (tilemap state)) ORIENTATION_SWAP_XY
                       then tmap_height t else tmap_width t in
       let mapheight := if flag (tm_rotate (tilemap state)) ORIENTATION_SWAP_XY
                        then tmap_width t else tmap_height t in
       let pixelscale := tlay_pixelscale layout in
       1 <= pixelscale
       /\ (pixelscale = 1
           \/ (mapwidth * pixelscale < mapboxwidth /\ mapheight * pixelscale < mapboxheight))
       /\ (mapboxwidth <= mapwidth * (pixelscale + 1)
           \/ mapboxheight <= mapheight * (pixelscale + 1))
       /\ tlay_mapboxwidth layout = Z.min mapboxwidth (mapwidth * pixelscale)
       /\ tlay_mapboxheight layout = Z.min mapboxheight (mapheight * pixelscale)
       /\ 0 <= tlay_mapboxwidth layout ÷ pixelscale <= mapwidth
       /\ 0 <= tlay_mapboxheight layout ÷ pixelscale <= mapheight.
Proof.
  intros Hsized Hok Hzoom HW HH Hfuel.
  destruct (tilemap_handler_layout_spec fuel machine mapboxwidth mapboxheight state
              Hsized Hok HW HH Hfuel) as (t & layout & Hfind & Hlayout & Hspec).
  exists t, layout. split; [done|]. split; [done|]. cbv zeta in *.
  destruct Hspec as (Hps & _ & Hauto).
  destruct (Hauto Hzoom) as (Hfit & Hmax & Hbw & Hbh).
  destruct Hok as (_ & t' & Hfind' & Hwhich & _).
  destruct (tilemap_find_sized machine _ Hsized Hwhich) as (t0 & Hfind0 & Hw0 & Hh0).
  rewrite Hfind in Hfind0. injection Hfind0 as <-.
  set (mapwidth := if flag (tm_rotate (tilemap state)) ORIENTATION_SWAP_XY
                   then tmap_height t else tmap_width t) in *.
  set (mapheight := if flag (tm_rotate (tilemap state)) ORIENTATION_SWAP_XY
                    then tmap_width t else tmap_height t) in *.
  assert (Hmw : 0 < mapwidth) by (unfold mapwidth; destruct (flag _ _); lia).
  assert (Hmh : 0 < mapheight) by (unfold mapheight; destruct (flag _ _); lia).
  set (ps := tlay_pixelscale layout) in *.
  do 5 (split; [done|]). rewrite Hbw, Hbh. split.
  - split; [apply Z.quot_pos; lia|].
    transitivity ((mapwidth * ps) ÷ ps); [apply Z.quot_le_mono; lia|].
    rewrite Z.quot_mul by lia. lia.
  - split; [apply Z.quot_pos; lia|].
    transitivity ((mapheight * ps) ÷ ps); [apply Z.quot_le_mono; lia|].
    rewrite Z.quot_mul by lia. lia.
Qed.

(** From initialisation on, on a machine with tilemaps of positive size,
    the handler of the tilemap view returns in every frame, for every size of
    the map box and every key state: it finds the tilemap, the scale loops
    end, the scale it divides by is not zero and the wrap loops of the keys
    end.  After every frame the view is on an existing tilemap, at a zoom
    between 0 and 8 and at an offset inside that tilemap. *)
Theorem tilemap_session_never_crashes fuel machine orientation state0 frames rm :
  tilemaps_sized machine -> tilemaps machine <> [] -> (wrap_fuel <= fuel)%nat ->
  Forall (fun frame : Z * Z * ui_input =>
            0 <= frame.1.1 < 2 ^ 31 /\ 0 <= frame.1.2 < 2 ^ 31) frames ->
  exists rm' state',
    tilemap_session fuel machine frames (rm, ui_gfx_init orientation state0)
    = Some (rm', state')
    /\ tilemap_view_ok machine state'.
Proof.
  intros Hsized Hne Hfuel Hframes.
  pose proof (tilemap_view_ok_init machine orientation state0 Hsized Hne) as Hok.
  revert rm Hok. generalize (ui_gfx_init orientation state0).
  induction frames as [|frame frames IH]; intros state rm Hok.
  - by exists rm, state.
  - apply Forall_cons in Hframes as [[HW HH] Hframes].
    destruct (tilemap_handler_session fuel machine frame.1.1 frame.1.2 frame.2 rm state
                Hsized Hok HW HH Hfuel) as (rm1 & s1 & Hrun1 & Hok1).
    destruct (IH Hframes s1 rm1 Hok1) as (rm' & state' & Hrun & Hok').
    exists rm', state'. split; [|done].
    unfold tilemap_session in *. cbn [for_each]. rewrite Hrun1. exact Hrun.
Qed.

End TilemapSession.

Lemma tilemap_auto_scale_witness :
  exists t layout,
    tilemap_find machine_tilemap
      (tm_which (tilemap (ui_gfx_init (engine := example_engine) 5 ui_gfx_zero))) = Some t
    /\ tilemap_handler_layout wrap_fuel machine_tilemap 100 100
         (ui_gfx_init (engine := example_engine) 5 ui_gfx_zero) = Some layout
    /\ let mapwidth :=
         if flag (tm_rotate (tilemap (ui_gfx_init (engine := example_engine) 5 ui_gfx_zero)))
              ORIENTATION_SWAP_XY
         then tmap_height t else tmap_width t in
       let mapheight :=
         if flag (tm_rotate (tilemap (ui_gfx_init (engine := example_engine) 5 ui_gfx_zero)))
              ORIENTATION_SWAP_XY
         then tmap_width t else tmap_height t in
       let pixelscale := tlay_pixelscale layout in
       1 <= pixelscale
       /\ (pixelscale = 1
           \/ (mapwidth * pixelscale < 100 /\ mapheight * pixelscale < 100))
       /\ (100 <= mapwidth * (pixelscale + 1) \/ 100 <= mapheight * (pixelscale + 1))
       /\ tlay_mapboxwidth layout = Z.min 100 (mapwidth * pixelscale)
       /\ tlay_mapboxheight layout = Z.min 100 (mapheight * pixelscale)
       /\ 0 <= tlay_mapboxwidth layout ÷ pixelscale <= mapwidth
       /\ 0 <= tlay_mapboxheight layout ÷ pixelscale <= mapheight.
Proof.
  apply (tilemap_auto_scale wrap_fuel machine_tilemap 100 100
           (ui_gfx_init (engine := example_engine) 5 ui_gfx_zero)).
  - repeat constructor; simpl; lia.
  - apply (tilemap_view_ok_init (engine := example_engine)).
    + repeat constructor; simpl; lia.
    + discriminate.
  - reflexivity.
  - lia.
  - lia.
  - apply le_n.
Defined.

(** The layout of the 16x32 tilemap, turned a quarter, in a box of 100 by
    100 pixels, executed: the turned map is 32 wide and 16 high, scale 3 is
    the largest that fits (4 * 32 > 100), and the box shrinks to 96 by 48. *)
Example tilemap_auto_scale_example :
  (fun layout => (tlay_pixelscale layout, tlay_mapboxwidth layout, tlay_mapboxheight layout))
    <$> tilemap_handler_layout 10 machine_tilemap 100 100
          (ui_gfx_init (engine := example_engine) 5 ui_gfx_zero)
  = Some (3, 96, 48).
Proof. vm_compute. reflexivity. Qed.

Lemma tilemap_session_never_crashes_witness :
  exists rm' state',
    tilemap_session (engine := example_engine) wrap_fuel machine_tilemap
      [(100, 100, no_keys); (0, 40, key_down false true)]
      (rm_empty, ui_gfx_init (engine := example_engine) 5 ui_gfx_zero)
    = Some (rm', state')
    /\ tilemap_view_ok machine_tilemap state'.
Proof.
  apply (tilemap_session_never_crashes (engine := example_engine) wrap_fuel machine_tilemap 5
           ui_gfx_zero [(100, 100, no_keys); (0, 40, key_down false true)] rm_empty).
  - repeat constructor; simpl; lia.
  - discriminate.
  - apply le_n.
  - repeat constructor; simpl; lia.
Defined.

(* ===================================================================== *)
(** ** The image of a palette export *)

Section PaletteImage.
Context {engine : Engine} {host : FileHost}.

(** One swatch: the 8x8 pixels of cell (x, y) get the pen, every other
    pixel stays. *)
Lemma palette_swatch_pixels pen x y img px py :
  bm_pix (foldl (fun img y1 =>
            foldl (fun img x1 => bitmap_put (x * 8 + x1) (y * 8 + y1) pen img)
              img (seqZ 0 8)) img (seqZ 0 8)) !! (px, py)
  = if bool_decide (x * 8 <= px < x * 8 + 8 /\ y * 8 <= py < y * 8 + 8)
    then Some pen else bm_pix img !! (px, py).
Proof.
  rewrite (foldl_put_grid_Z (fun _ _ => pen)
             (fun img x1 y1 => bitmap_put (x * 8 + x1) (y * 8 + y1) pen img)
             (x * 8) (y * 8) 0 8 0 8 px py img) by reflexivity.
  repeat case_bool_decide; try done; lia.
Qed.

(** One row of swatches, from column [x0] on. *)
Lemma palette_swatch_row p which total columns y px py :
  forall (n : nat) x0 img,
    0 <= x0 ->
    bm_pix (foldl (fun img x =>
              let index := y * columns + x in
              if index <? total then
                let pen := palette_pen p which index in
                foldl (fun img y1 =>
                  foldl (fun img x1 => bitmap_put (x * 8 + x1) (y * 8 + y1) pen img)
                    img (seqZ 0 8)) img (seqZ 0 8)
              else img) img (seqZ x0 (Z.of_nat n))) !! (px, py)
    = if bool_decide (x0 * 8 <= px < (x0 + Z.of_nat n) * 8 /\ y * 8 <= py < y * 8 + 8
                      /\ y * columns + px / 8 < total)
      then Some (palette_pen p which (y * columns + px / 8))
      else bm_pix img !! (px, py).
Proof.
  induction n as [|n IH]; intros x0 img Hx0.
  - simpl. case_bool_decide; [lia|done].
  - rewrite (seqZ_cons x0) by lia. cbn [foldl].
    replace (Z.pred (Z.of_nat (S n))) with (Z.of_nat n) by lia.
    rewrite IH by lia. cbv zeta.
    assert (Hdiv : x0 * 8 <= px < x0 * 8 + 8 -> px / 8 = x0).
    { intros. symmetry. apply (Z.div_unique_pos px 8 x0 (px - x0 * 8)); lia. }
    destruct (y * columns + x0 <? total) eqn:Eidx.
    + rewrite palette_swatch_pixels.
      set (q := px / 8) in *. clearbody q.
      repeat case_bool_decide; try done; try lia.
      rewrite Hdiv by lia. reflexivity.
    + set (q := px / 8) in *. clearbody q.
      repeat case_bool_decide; try done; try lia.
Qed.

(** The rows of swatches, from row [y0] on. *)
Lemma palette_swatch_rows p which total columns size_x px py :
  0 <= size_x ->
  forall (n : nat) y0 img,
    0 <= y0 ->
    bm_pix (foldl (fun img y =>
              foldl (fun img x =>
                let index := y * columns + x in
                if index <? total then
                  let pen := palette_pen p which index in
                  foldl (fun img y1 =>
                    foldl (fun img x1 => bitmap_put (x * 8 + x1) (y * 8 + y1) pen img)
                      img (seqZ 0 8)) img (seqZ 0 8)
                else img) img (seqZ 0 size_x)) img (seqZ y0 (Z.of_nat n))) !! (px, py)
    = if bool_decide (0 <= px < size_x * 8 /\ y0 * 8 <= py < (y0 + Z.of_nat n) * 8
                      /\ py / 8 * columns + px / 8 < total)
      then Some (palette_pen p which (py / 8 * columns + px / 8))
      else bm_pix img !! (px, py).
Proof.
  intros Hsx. induction n as [|n IH]; intros y0 img Hy0.
  - simpl. case_bool_decide; [lia|done].
  - rewrite (seqZ_cons y0) by lia. cbn [foldl].
    replace (Z.pred (Z.of_nat (S n))) with (Z.of_nat n) by lia.
    rewrite IH by lia.
    replace (seqZ 0 size_x) with (seqZ 0 (Z.of_nat (Z.to_nat size_x)))
      by (by rewrite Z2Nat.id).
    rewrite (palette_swatch_row p which total columns y0 px py) by lia.
    assert (Hdiv : y0 * 8 <= py < y0 * 8 + 8 -> py / 8 = y0).
    { intros. symmetry. apply (Z.div_unique_pos py 8 y0 (py - y0 * 8)); lia. }
    destruct (decide (y0 * 8 <= py < y0 * 8 + 8)) as [Hrow|Hrow].
    + rewrite (Hdiv Hrow). repeat case_bool_decide; try done; lia.
    + set (r := py / 8) in *. clearbody r.
      repeat case_bool_decide; try done; lia.
Qed.

Lemma palette_swatch_shape p which total columns size_x size_y img :
  bitmap_shape
    (foldl (fun img y =>
       foldl (fun img x =>
         let index := y * columns + x in
         if index <? total then
           let pen := palette_pen p which index in
           foldl (fun img y1 =>
             foldl (fun img x1 => bitmap_put (x * 8 + x1) (y * 8 + y1) pen img)
               img (seqZ 0 8)) img (seqZ 0 8)
         else img) img (seqZ 0 size_x)) img (seqZ 0 size_y))
  = bitmap_shape img.
Proof.
  apply foldl_shape. intros b y. apply foldl_shape. intros b1 x. cbv zeta.
  destruct (_ <? _); [|done].
  apply foldl_shape. intros b2 y1. apply foldl_shape. intros b3 x1. done.
Qed.

(** The image of a palette export has one 8x8 swatch for each entry, entry
    [index] at column [index mod columns] of row [index / columns]: the image
    is [columns * 8] pixels wide and [ceil(total / columns) * 8] high, the
    pixel (px, py) has the pen of entry [(py / 8) * columns + px / 8] when
    that entry exists, and is never written otherwise (the cells after the
    last entry of the last row). *)
Theorem palette_image_swatches p which total columns px py :
  0 < columns ->
  bitmap_shape
    (palette_save_image p which total columns columns ((total + columns - 1) ÷ columns))
  = (true, columns * 8, (total + columns - 1) ÷ columns * 8)
  /\ bm_pix
       (palette_save_image p which total columns columns ((total + columns - 1) ÷ columns))
     !! (px, py)
     = if bool_decide (0 <= px < columns * 8 /\ 0 <= py
                       /\ py / 8 * columns + px / 8 < total)
       then Some (palette_pen p which (py / 8 * columns + px / 8))
       else None.
Proof.
  intros Hcol. unfold palette_save_image. cbv zeta. split.
  { rewrite palette_swatch_shape. reflexivity. }
  set (size_y := (total + columns - 1) ÷ columns).
  replace (seqZ 0 size_y) with (seqZ 0 (Z.of_nat (Z.to_nat size_y))).
  2:{ unfold seqZ. by rewrite Nat2Z.id. }
  rewrite (palette_swatch_rows p which total columns columns px py) by lia.
  unfold bitmap_allocate. cbn [bm_pix]. rewrite lookup_empty.
  assert (Hq : 0 <= px < columns * 8 -> 0 <= px / 8 < columns).
  { intros Hpx. split; [apply Z.div_pos; lia|].
    apply Z.div_lt_upper_bound; lia. }
  assert (Hr : 0 <= py -> 0 <= py / 8 /\ py < (py / 8 + 1) * 8).
  { intros Hpy. split; [apply Z.div_pos; lia|].
    pose proof (Z.mod_pos_bound py 8 ltac:(lia)). pose proof (Z.div_mod py 8 ltac:(lia)).
    lia. }
  assert (Hrows : forall r q, 0 <= r -> 0 <= q -> r * columns + q < total -> r + 1 <= size_y).
  { intros r q Hr0 Hq0 Hlt. unfold size_y.
    rewrite Z.quot_div_nonneg by nia.
    apply Z.div_le_lower_bound; [lia|]. nia. }
  set (q := px / 8) in *. set (r := py / 8) in *. clearbody q r.
  case_bool_decide as Hin; case_bool_decide as Hidx; try done; exfalso.
  - lia.
  - destruct Hidx as (Hpx & Hpy & Hlt).
    destruct (Hq Hpx) as [Hq0 _]. destruct (Hr Hpy) as [Hr0 Hr1].
    pose proof (Hrows r q Hr0 Hq0 Hlt). apply Hin. lia.
Qed.

End PaletteImage.

Lemma palette_image_swatches_witness :
  0 < 4
  /\ bitmap_shape (palette_save_image palette_six 0 6 4 4 ((6 + 4 - 1) ÷ 4))
     = (true, 4 * 8, (6 + 4 - 1) ÷ 4 * 8)
  /\ bm_pix (palette_save_image palette_six 0 6 4 4 ((6 + 4 - 1) ÷ 4)) !! (9, 11)
     = if bool_decide (0 <= 9 < 4 * 8 /\ 0 <= 11 /\ 11 / 8 * 4 + 9 / 8 < 6)
       then Some (palette_pen palette_six 0 (11 / 8 * 4 + 9 / 8))
       else None.
Proof.
  split; [lia|]. apply (palette_image_swatches palette_six 0 6 4 9 11). lia.
Defined.

(** The six pens fill a row of four swatches and half of a second one: the
    image is 32 by 16, the pixel (9, 11) has the sixth pen, and the pixel
    (17, 11), in the cell after it, is not written. *)
Lemma palette_image_example :
  bitmap_shape (palette_save_image palette_six 0 6 4 4 2) = (true, 32, 16)
  /\ bm_pix (palette_save_image palette_six 0 6 4 4 2) !! (9, 11) = Some 4294967295
  /\ bm_pix (palette_save_image palette_six 0 6 4 4 2) !! (17, 11) = None.
Proof. by vm_compute. Qed.

(* ===================================================================== *)
(** ** The bracket keys of the palette view *)

Section PaletteGroups.
Context {engine : Engine}.

Lemma palette_clamp_offset_put total rowcount screencount state :
  exists off, palette_clamp_offset total rowcount screencount state
              = upd_palette (set_pal_offset off) state.
Proof.
  unfold palette_clamp_offset.
  destruct state as [? ? ? ? ? ? [? ? ? ? ? o] ? ? ?]; simpl.
  destruct (_ * rowcount <? _); simpl; destruct (_ <? 0); simpl; eexists; reflexivity.
Qed.

(** A frame of the palette view acts on the group through [palette_select]
    alone: the zoom before it and the scrolling after it keep the view. *)
Lemma palette_handle_keys_select machine input state state' :
  palette_handle_keys machine input state = Some state' ->
  exists s0 sel pal,
    palette_view s0 = palette_view state
    /\ palette_select machine input s0 = Some (sel, pal)
    /\ palette_view state' = palette_view sel.
Proof.
  unfold palette_handle_keys.
  set (s1 := if IPT_UI_ZOOM_OUT input then _ else state).
  set (s2 := if IPT_UI_ZOOM_IN input then _ else s1).
  assert (Hv2 : palette_view s2 = palette_view state).
  { subst s2 s1. by destruct (IPT_UI_ZOOM_IN input), (IPT_UI_ZOOM_OUT input). }
  destruct (palette_clamp_columns_spec s2) as (c & -> & _).
  destruct (palette_select machine input (upd_palette (set_pal_columns c) s2))
    as [[sel pal]|] eqn:Esel; [|done].
  cbn [mbind option_bind]. destruct pal as [p|]; [|done]. cbn [mbind option_bind].
  set (total := if negb (pal_which (palette sel) =? 0) then _ else _).
  destruct (palette_navigate_spec input total (pal_columns (palette sel))
              (pal_columns (palette sel) * pal_columns (palette sel)) sel) as (o5 & ->).
  destruct (palette_clamp_offset_put total (pal_columns (palette sel))
              (pal_columns (palette sel) * pal_columns (palette sel))
              (upd_palette (set_pal_offset o5) sel)) as (o6 & ->).
  intros [= <-].
  exists (upd_palette (set_pal_columns c) s2), sel, (Some p).
  split; [exact Hv2|]. split; [exact Esel|].
  by destruct (IPT_UI_SNAPSHOT input).
Qed.

Lemma palette_view_wf machine a b :
  palette_view a = palette_view b -> palette_wf machine b -> palette_wf machine a.
Proof.
  unfold palette_view, palette_wf. intros [= H1 H2 H3 H4]. by rewrite H1, H2, H4.
Qed.

Lemma palette_view_group_ok a b :
  palette_view a = palette_view b -> palette_group_ok b -> palette_group_ok a.
Proof.
  unfold palette_view, palette_group_ok. intros [= H1 H2 H3 H4]. by rewrite H3, H4.
Qed.

Lemma palette_view_group a b :
  palette_view a = palette_view b -> palette_group a = palette_group b.
Proof.
  unfold palette_view, palette_group. intros [= H1 H2 H3 H4]. by rewrite H2, H3.
Qed.

(** The close bracket, then the open bracket: when the first moved the
    view, the second moves it back. *)
Lemma palette_next_then_prev machine a sel pal b :
  palette_wf machine a -> palette_group_ok a ->
  palette_next_group machine a (pal_interface (palette a)) = Some (sel, pal) ->
  palette_group sel <> palette_group a ->
  palette_view b = palette_view sel ->
  palette_group_ok sel
  /\ exists sel2 pal2,
       palette_prev_group machine b (pal_interface (palette b)) = Some (sel2, pal2)
       /\ palette_group sel2 = palette_group a.
Proof.
  intros Hwf Hok Hnext Hmoved Hview.
  destruct (palette_wf_interface _ _ Hwf) as (p & Hp & _).
  destruct Hwf as (Hn & Hd & Hia).
  unfold palette_next_group in Hnext. rewrite Hp in Hnext.
  unfold palette_prev_group, palette_view, palette_group, palette_group_ok in *.
  assert (Hfirst : (if pal_which (palette a) =? 0
                    then Some (0 <? pal_indirect_entries p) else Some false)
                   = Some ((pal_which (palette a) =? 0) && (0 <? pal_indirect_entries p))).
  { by destruct (_ =? 0). }
  cbn [mbind option_bind] in Hnext. rewrite Hfirst in Hnext. cbn [mbind option_bind] in Hnext.
  destruct b as [? ? ? ? ? ? [ib nb db wb cb ob] ? ? ?].
  destruct ((pal_which (palette a) =? 0) && (0 <? pal_indirect_entries p)) eqn:Et.
  - (* pens to colours of the same device *)
    apply andb_true_iff in Et as [Ew Ei].
    injection Hnext as <- <-. cbn in Hview |- *. injection Hview as -> -> -> ->.
    split.
    + right. split; [done|]. exists p. split; [done|]. lia.
    + eexists _, _. split; [reflexivity|]. cbn. f_equal. lia.
  - destruct (pal_devindex (palette a) <? pal_devcount (palette a) - 1) eqn:Ed.
    + (* on to the pens of the next device *)
      injection Hnext as <- <-. cbn in Hview |- *. injection Hview as -> -> -> ->.
      split; [by left|].
      replace (0 <? pal_devindex (palette a) + 1) with true by lia.
      replace (pal_devindex (palette a) + 1 - 1) with (pal_devindex (palette a)) by lia.
      rewrite <- Hia, Hp. cbn.
      eexists _, _. split; [reflexivity|]. cbn. f_equal; [lia|].
      destruct Hok as [Hw | (Hw & q & Hq & Hind)].
      * rewrite Hw in Et |- *. cbn in Et. by rewrite Et.
      * rewrite Hw. rewrite Hp in Hq. injection Hq as <-.
        by replace (0 <? pal_indirect_entries p) with true by lia.
    + (* the last group: the key does nothing *)
      injection Hnext as <- <-. done.
Qed.

(** The open bracket, then the close bracket. *)
Lemma palette_prev_then_next machine a sel pal b :
  palette_wf machine a -> palette_group_ok a ->
  palette_prev_group machine a (pal_interface (palette a)) = Some (sel, pal) ->
  palette_group sel <> palette_group a ->
  palette_view b = palette_view sel ->
  palette_group_ok sel
  /\ exists sel2 pal2,
       palette_next_group machine b (pal_interface (palette b)) = Some (sel2, pal2)
       /\ palette_group sel2 = palette_group a.
Proof.
  intros Hwf Hok Hprev Hmoved Hview.
  destruct (palette_wf_interface _ _ Hwf) as (p & Hp & _).
  destruct Hwf as (Hn & Hd & Hia).
  unfold palette_prev_group in Hprev.
  unfold palette_next_group, palette_view, palette_group, palette_group_ok in *.
  destruct b as [? ? ? ? ? ? [ib nb db wb cb ob] ? ? ?].
  destruct (negb (pal_which (palette a) =? 0)) eqn:Ew.
  - (* colours to pens of the same device *)
    injection Hprev as <- <-. cbn in Hview |- *. injection Hview as -> -> -> ->.
    split; [by left|].
    destruct Hok as [Hw | (Hw & q & Hq & Hind)]; [rewrite Hw in Ew; done|].
    rewrite Hq. cbn. replace (0 <? pal_indirect_entries q) with true by lia.
    eexists _, _. split; [reflexivity|]. cbn. by rewrite Hw.
  - assert (Hw : pal_which (palette a) = 0).
    { destruct (pal_which (palette a) =? 0) eqn:E; [lia|done]. }
    destruct (0 <? pal_devindex (palette a)) eqn:Ed.
    + (* back to the last group of the device before *)
      destruct (byindex_is_Some machine (pal_devindex (palette a) - 1)) as (q & Hq & _);
        [lia|].
      cbn in Hprev. rewrite Hq in Hprev. cbn in Hprev.
      injection Hprev as <- <-. cbn in Hview |- *. injection Hview as -> -> -> ->.
      split.
      { destruct (0 <? pal_indirect_entries q) eqn:Eq; [right|by left].
        split; [done|]. exists q. split; [done|lia]. }
      replace (pal_devindex (palette a) - 1 <? pal_devcount (palette a) - 1) with true by lia.
      replace (pal_devindex (palette a) - 1 + 1) with (pal_devindex (palette a)) by lia.
      rewrite Hq.
      destruct (0 <? pal_indirect_entries q) eqn:Eq; cbn; rewrite ?Eq;
        (eexists _, _; split; [reflexivity|]; cbn; rewrite Hw; f_equal; lia).
    + injection Hprev as <- <-. done.
Qed.

(** A press of one bracket key that moved the palette view is undone by a
    press of the other: from a view on a group that exists (the pens of a
    device, or the colours of a device that has indirect colours), when a
    frame with the close bracket down left the view on another group, the
    next frame with the open bracket down returns, and puts the view back
    on the device and the pens-or-colours choice it came from; the same with
    the two keys exchanged.  The group in between exists as well.  The other
    keys of the two frames are free. *)
Theorem palette_group_round_trip machine first second state s1 :
  palette_wf machine state -> palette_counts_nonneg machine -> palette_group_ok state ->
  (IPT_UI_NEXT_GROUP first = true /\ IPT_UI_PREV_GROUP first = false
   /\ IPT_UI_PREV_GROUP second = true /\ IPT_UI_NEXT_GROUP second = false)
  \/ (IPT_UI_PREV_GROUP first = true /\ IPT_UI_NEXT_GROUP first = false
      /\ IPT_UI_NEXT_GROUP second = true /\ IPT_UI_PREV_GROUP second = false) ->
  palette_handle_keys machine first state = Some s1 ->
  palette_group s1 <> palette_group state ->
  palette_group_ok s1
  /\ exists s2, palette_handle_keys machine second s1 = Some s2
               /\ palette_group s2 = palette_group state.
Proof.
  intros Hwf Hnn Hok Hkeys Hrun Hmoved.
  destruct (palette_handle_keys_spec machine first state Hwf Hnn)
    as (s1' & total & Hrun' & Hwf1 & _).
  rewrite Hrun in Hrun'. injection Hrun' as <-.
  destruct (palette_handle_keys_select _ _ _ _ Hrun) as (a & sel & pal & Hva & Hsel & Hv1).
  destruct (palette_handle_keys_spec machine second s1 Hwf1 Hnn)
    as (s2 & total2 & Hrun2 & _).
  destruct (palette_handle_keys_select _ _ _ _ Hrun2)
    as (b & sel2 & pal2 & Hvb & Hsel2 & Hv2).
  assert (Hwfa : palette_wf machine a) by (by eapply palette_view_wf).
  assert (Hoka : palette_group_ok a) by (by eapply palette_view_group_ok).
  assert (Hmoved' : palette_group sel <> palette_group a).
  { by rewrite <- (palette_view_group _ _ Hv1), (palette_view_group _ _ Hva). }
  assert (Hvbs : palette_view b = palette_view sel) by congruence.
  unfold palette_select in Hsel, Hsel2.
  destruct Hkeys as [(Hn1 & Hp1 & Hp2 & Hn2) | (Hp1 & Hn1 & Hn2 & Hp2)];
    rewrite Hn1, Hp1 in Hsel; rewrite Hn2, Hp2 in Hsel2;
    cbn [mbind option_bind fst snd] in Hsel, Hsel2.
  - destruct (palette_next_then_prev machine a sel pal b Hwfa Hoka Hsel Hmoved' Hvbs)
      as (Hoks & sel2' & pal2' & Hprev & Hgrp).
    rewrite Hprev in Hsel2. cbn in Hsel2. injection Hsel2 as <- <-.
    split; [by eapply palette_view_group_ok|].
    exists s2. split; [exact Hrun2|].
    by rewrite (palette_view_group _ _ Hv2), Hgrp, (palette_view_group _ _ Hva).
  - destruct (palette_prev_group machine a (pal_interface (palette a)))
      as [[sel' pal']|] eqn:Hprev; [|done].
    cbn in Hsel. injection Hsel as -> ->.
    destruct (palette_prev_then_next machine a sel pal b Hwfa Hoka Hprev Hmoved' Hvbs)
      as (Hoks & sel2' & pal2' & Hnext & Hgrp).
    rewrite Hnext in Hsel2. injection Hsel2 as <- <-.
    split; [by eapply palette_view_group_ok|].
    exists s2. split; [exact Hrun2|].
    by rewrite (palette_view_group _ _ Hv2), Hgrp, (palette_view_group _ _ Hva).
Qed.

End PaletteGroups.

Lemma palette_group_round_trip_witness :
  palette_handle_keys machine_palettes key_next_group state_palettes
  = Some state_palettes_next
  /\ palette_group_ok state_palettes_next
  /\ exists s2, palette_handle_keys machine_palettes key_prev_group state_palettes_next
                = Some s2
               /\ palette_group s2 = palette_group state_palettes.
Proof.
  assert (Hrun : palette_handle_keys machine_palettes key_next_group state_palettes
                 = Some state_palettes_next) by (vm_compute; reflexivity).
  split; [exact Hrun|].
  apply (palette_group_round_trip machine_palettes key_next_group key_prev_group
           state_palettes state_palettes_next).
  - vm_compute. repeat split; congruence.
  - repeat constructor; vm_compute; congruence.
  - right. split; [reflexivity|]. exists palette_indirect. split; [reflexivity|].
    vm_compute. reflexivity.
  - left. repeat split; reflexivity.
  - exact Hrun.
  - vm_compute. congruence.
Defined.

(** The walk on [machine_palettes], executed: from the colours of the first
    palette the close bracket moves to the pens of the second, and the open
    bracket comes back to the colours of the first. *)
Example palette_group_example :
  (palette_group state_palettes, palette_group state_palettes_next,
   palette_group
   <$> palette_handle_keys machine_palettes key_prev_group state_palettes_next)
  = ((0, 1), (1, 0), Some (0, 1)).
Proof. vm_compute. reflexivity. Qed.
